(** * DeepReviewer-v2: the review job runtime, embedded and verified

    A shallow embedding of the tool runtime ([deepreview/tools/review_tools.py]),
    the parse-poll classifier ([deepreview/adapters/mineru.py]) and the
    post-exception recovery of the job controller ([deepreview/runner.py]),
    with the properties the specification states about them.

    Conventions of the embedding.
    - A Python [str] is a [list ascii]; a character is its code point, so the
      model covers the strings whose code points are below 256 (Latin-1).
      [isspace], [lower] and the line boundaries of [splitlines] are Python's,
      restricted to that range.
    - A Python [int] is a [Z]; a [dict] whose iteration order the code relies
      on is an insertion-ordered association list ([odict]); the page index,
      which the code only reads through [sorted(keys)] and [get], is a [gmap];
      the set of query signatures is a [gset].
    - A JSON value received from a remote service is a [json].
    - Tool payloads keep their machine-readable fields; the free-text fields
      ([message], [next_steps], the hint strings) are not modelled.
    - What lies outside the runtime (Python's [str()] of a value that is not a
      string, [json.loads], the language validation of the final report, the
      PDF renderer) is a field of [Externals] or an input of the call. *)

From Stdlib Require Import ZArith List Ascii String Bool Lia Floats Sorted.
From stdpp Require Import base gmap sets list strings.
Import ListNotations.

Set Warnings "-register-all,-clear-no-such-hyp,-unused-intro-pattern".

#[local] Open Scope Z_scope.

Abbreviation str := (list ascii).

(** A string literal as a Python [str]. *)
Definition lit (s : string) : str := list_ascii_of_string s.

Arguments lit : simpl never.

(** ** Python string primitives *)

Module PyStr.

Definition code (c : ascii) : N := N_of_ascii c.

(** [str.isspace] on one character, also the class [\s] of [re] on [str]
    patterns: TAB..CR, FS..US, SPACE, NEL and NBSP below 256. *)
Definition isspace (c : ascii) : bool :=
  let n := code c in
  (((9 <=? n) && (n <=? 13)) || ((28 <=? n) && (n <=? 31)) || (n =? 32)
   || (n =? 133) || (n =? 160))%N.

(** The line boundaries of [str.splitlines] below 256: LF, VT, FF, CR, FS, GS,
    RS and NEL. *)
Definition is_linebreak (c : ascii) : bool :=
  let n := code c in
  (((10 <=? n) && (n <=? 13)) || ((28 <=? n) && (n <=? 30)) || (n =? 133))%N.

Definition LF : ascii := ascii_of_N 10.
Definition CR : ascii := ascii_of_N 13.

Definition is_lf (c : ascii) : bool := (code c =? 10)%N.
Definition is_cr (c : ascii) : bool := (code c =? 13)%N.

(** [str.lower] on one character: A-Z and the Latin-1 capitals. *)
Definition lower_char (c : ascii) : ascii :=
  let n := code c in
  if (((65 <=? n) && (n <=? 90))
      || ((192 <=? n) && (n <=? 222) && negb (n =? 215)))%N
  then ascii_of_N (n + 32) else c.

Definition lower (s : str) : str := map lower_char s.

(** [s.lstrip(chars)], [s.rstrip(chars)], [s.strip(chars)] with the character
    set given as a predicate. *)
Fixpoint lstrip_by (p : ascii -> bool) (s : str) : str :=
  match s with
  | [] => []
  | c :: r => if p c then lstrip_by p r else s
  end.

Fixpoint rstrip_by (p : ascii -> bool) (s : str) : str :=
  match s with
  | [] => []
  | c :: r =>
      match rstrip_by p r with
      | [] => if p c then [] else [c]
      | r' => c :: r'
      end
  end.

Definition strip_by (p : ascii -> bool) (s : str) : str :=
  lstrip_by p (rstrip_by p s).

Definition lstrip : str -> str := lstrip_by isspace.
Definition rstrip : str -> str := rstrip_by isspace.
Definition strip : str -> str := strip_by isspace.

(** Truth value of a string: non-empty. *)
Definition nonempty (s : str) : bool :=
  match s with [] => false | _ => true end.

(** [a == b]. *)
Fixpoint eqb (a b : str) : bool :=
  match a, b with
  | [], [] => true
  | x :: a', y :: b' => Ascii.eqb x y && eqb a' b'
  | _, _ => false
  end.

(** [x in l] for a list of strings. *)
Definition mem_str (x : str) (l : list str) : bool := existsb (eqb x) l.

(** [sep.join(parts)]. *)
Fixpoint join (sep : str) (parts : list str) : str :=
  match parts with
  | [] => []
  | [p] => p
  | p :: rest => p ++ sep ++ join sep rest
  end.

(** [s.splitlines()]: a line ends at a line boundary, CR LF is one boundary,
    and a final boundary opens no further line. *)
Fixpoint splitlines (s : str) : list str :=
  match s with
  | [] => []
  | c :: r =>
      if is_linebreak c then
        match r with
        | c' :: r' =>
            if is_cr c && is_lf c' then [] :: splitlines r'
            else [] :: splitlines r
        | [] => [[]]
        end
      else
        match splitlines r with
        | [] => [[c]]
        | l :: ls => (c :: l) :: ls
        end
  end.

(** [s.split()]: the maximal runs of characters that are not whitespace. *)
Fixpoint split_ws_from (cur : str) (s : str) : list str :=
  match s with
  | [] => match cur with [] => [] | _ => [rev cur] end
  | c :: r =>
      if isspace c then
        match cur with
        | [] => split_ws_from [] r
        | _ => rev cur :: split_ws_from [] r
        end
      else split_ws_from (c :: cur) r
  end.

Definition split_ws (s : str) : list str := split_ws_from [] s.

(** [s.split(sep)] for a one-character separator: the empty pieces stay. *)
Fixpoint split_on (sep : ascii -> bool) (s : str) : list str :=
  match s with
  | [] => [[]]
  | c :: r =>
      if sep c then [] :: split_on sep r
      else
        match split_on sep r with
        | [] => [[c]]
        | l :: ls => (c :: l) :: ls
        end
  end.

(** [hay.startswith(needle)]. *)
Fixpoint startswith (needle hay : str) : bool :=
  match needle, hay with
  | [], _ => true
  | _ :: _, [] => false
  | a :: n', b :: h' => Ascii.eqb a b && startswith n' h'
  end.

(** [needle in hay]. *)
Fixpoint contains (needle hay : str) : bool :=
  startswith needle hay ||
  match hay with
  | [] => false
  | _ :: h' => contains needle h'
  end.

(** [hay.count(tok)]: occurrences that do not overlap, scanned from the left;
    [skip] characters of the last occurrence are still to be jumped over. *)
Fixpoint count_from (tok : str) (skip : nat) (hay : str) : Z :=
  match hay with
  | [] => 0
  | _ :: h' =>
      match skip with
      | S k => count_from tok k h'
      | O =>
          if startswith tok hay
          then 1 + count_from tok (Nat.pred (length tok)) h'
          else count_from tok O h'
      end
  end.

Definition count (tok hay : str) : Z :=
  match tok with
  | [] => Z.of_nat (length hay) + 1
  | _ => count_from tok O hay
  end.

(** [s.replace(c, by)] for a one-character pattern. *)
Definition replace_char (c : ascii) (by_ : str) (s : str) : str :=
  flat_map (fun x => if Ascii.eqb x c then by_ else [x]) s.

(** [re.sub(r'\s+', ' ', s)]: every maximal whitespace run becomes one space. *)
Fixpoint collapse_ws (s : str) : str :=
  match s with
  | [] => []
  | c :: r =>
      if isspace c then
        match r with
        | c' :: _ => if isspace c' then collapse_ws r else " "%char :: collapse_ws r
        | [] => [" "%char]
        end
      else c :: collapse_ws r
  end.

End PyStr.

Import PyStr.

(** ** JSON values and Python's view of them *)

Inductive json : Type :=
| JNull
| JBool (b : bool)
| JInt (n : Z)
| JFloat (f : float)
| JStr (s : str)
| JList (items : list json)
| JDict (fields : list (str * json)).

(** Truth value of a parsed JSON value ([None] is [JNull]). *)
Definition truthy (v : json) : bool :=
  match v with
  | JNull => false
  | JBool b => b
  | JInt n => negb (n =? 0)
  | JFloat f => negb (PrimFloat.eqb f 0%float)
  | JStr s => nonempty s
  | JList items => match items with [] => false | _ => true end
  | JDict fields => match fields with [] => false | _ => true end
  end.

(** [a or b]. *)
Definition py_or (a b : json) : json := if truthy a then a else b.

(** [isinstance(v, int)]: an [int], or a [bool], which Python counts as one. *)
Definition as_int (v : json) : option Z :=
  match v with
  | JInt n => Some n
  | JBool b => Some (if b then 1 else 0)
  | _ => None
  end.

Definition as_dict (v : json) : option (list (str * json)) :=
  match v with JDict d => Some d | _ => None end.

Definition as_list (v : json) : option (list json) :=
  match v with JList l => Some l | _ => None end.

(** First binding of a key in an association list. *)
Fixpoint assoc_get {V : Type} (d : list (str * V)) (k : str) : option V :=
  match d with
  | [] => None
  | (k', v) :: rest => if PyStr.eqb k' k then Some v else assoc_get rest k
  end.

(** [d.get(k)] on a JSON object. *)
Definition jget (d : list (str * json)) (k : string) : json :=
  default JNull (assoc_get d (lit k)).

(** First element of a list on which [f] answers. *)
Fixpoint first_some {A B : Type} (f : A -> option B) (l : list A) : option B :=
  match l with
  | [] => None
  | x :: rest => match f x with Some y => Some y | None => first_some f rest end
  end.

(** ** What the runtime takes from outside *)

(** [LanguageStats] and [FinalReportValidation] of [report/final_report.py]. *)
Record LanguageStats : Type := {
  primary_language : str;
  english_words : Z;
  chinese_chars : Z;
  english_ratio : float;
  chinese_ratio : float;
}.

Record FinalReportValidation : Type := {
  ok : bool;
  reason : option str;
  message : str;
  language_stats : LanguageStats;
  missing_sections : list str;
}.

(** The functions the runtime calls and this development does not define:
    - [str_other v] is Python's [str(v)] for a value that is not a string;
    - [int_other v] is Python's [int(v)] for a float or a string ([None] when
      it raises);
    - [json_loads] is [json.loads] ([None] when it raises);
    - [validate_final_report markdown min_english_words min_chinese_chars
      force_english_output] is the validation of [report/final_report.py],
      which counts words and CJK characters over all of Unicode. *)
Record Externals : Type := {
  str_other : json -> str;
  int_other : json -> option Z;
  json_loads : str -> option json;
  validate_final_report : str -> Z -> Z -> bool -> FinalReportValidation;
}.

(** [str(v)]. *)
Definition py_str (E : Externals) (v : json) : str :=
  match v with
  | JStr s => s
  | _ => str_other E v
  end.

(** [int(v)], [None] when it raises. *)
Definition py_int (E : Externals) (v : json) : option Z :=
  match v with
  | JInt n => Some n
  | JBool b => Some (if b then 1 else 0)
  | JFloat _ | JStr _ => int_other E v
  | JNull | JList _ | JDict _ => None
  end.

(** ** The parse adapter's classification of a polled payload
    ([deepreview/adapters/mineru.py]) *)

Module Mineru.

Section Classifier.

Context (E : Externals).

Definition state_keys : list string :=
  ["state"; "status"; "task_state"; "batch_state"]%string.

(** The inner loop of [_extract_state] on one candidate object. *)
Definition state_of_candidate (item : list (str * json)) : option str :=
  first_some
    (fun key =>
       match jget item key with
       | JStr value =>
           if nonempty (strip value) then Some (lower (strip value)) else None
       | _ => None
       end)
    state_keys.

Definition state_candidates (payload : list (str * json)) : list (list (str * json)) :=
  payload ::
  match as_dict (jget payload "data") with
  | Some data =>
      data ::
      match as_dict (jget data "result") with
      | Some result => [result]
      | None => []
      end
  | None => []
  end.

Definition _extract_state (payload : list (str * json)) : str :=
  default [] (first_some state_of_candidate (state_candidates payload)).

Definition failure_states : list str :=
  [lit "failed"; lit "error"; lit "aborted"].

Definition success_states : list str :=
  [lit "done"; lit "completed"; lit "success"; lit "succeeded"; lit "finished"].

(** [payload.get('code')] when it is an [int]. *)
Definition payload_code (payload : list (str * json)) : option Z :=
  as_int (jget payload "code").

(** [str(payload.get('msg') or payload.get('message') or '').lower()]. *)
Definition payload_message (payload : list (str * json)) : str :=
  lower (py_str E (py_or (py_or (jget payload "msg") (jget payload "message")) (JStr []))).

Definition _is_terminal_failure (payload : list (str * json)) : bool :=
  if mem_str (_extract_state payload) failure_states then true
  else
    match payload_code payload with
    | Some code =>
        if negb (code =? 0) then
          let msg := payload_message payload in
          if (code =? -60012)
             && (contains (lit "task not found") msg || contains (lit "expire") msg)
          then false
          else if nonempty msg
                  && negb (contains (lit "processing") msg)
                  && negb (contains (lit "running") msg)
          then true
          else false
        else false
    | None => false
    end.

(** [_extract_markdown_from_payload]. *)
Definition markdown_keys : list string :=
  ["markdown"; "md"; "full_md"; "full_markdown"]%string.

Definition markdown_of_candidate (item : list (str * json)) : option str :=
  first_some
    (fun key =>
       match jget item key with
       | JStr value => if nonempty (strip value) then Some (strip value) else None
       | _ => None
       end)
    markdown_keys.

Definition _extract_markdown_from_payload (payload : list (str * json)) : str :=
  default [] (first_some markdown_of_candidate (state_candidates payload)).

(** One entry of [data.extract_result] that reports a finished extraction
    with something to fetch. *)
Definition extract_item_done (item : json) : bool :=
  match item with
  | JDict fields =>
      mem_str (lower (strip (py_str E (py_or (jget fields "state") (JStr []))))) success_states
      && existsb (fun key => truthy (jget fields key))
           ["full_zip_url"; "zip_url"; "result_zip_url"; "markdown_url"; "md_url";
            "full_md_url"; "markdown"; "md"]%string
  | _ => false
  end.

Definition _is_terminal_success (payload : list (str * json)) : bool :=
  if nonempty (_extract_markdown_from_payload payload) then true
  else if mem_str (_extract_state payload) success_states then true
  else
    match payload_code payload with
    | Some 0 =>
        match as_dict (jget payload "data") with
        | Some data =>
            if truthy (jget data "full_zip_url") || truthy (jget data "markdown")
               || truthy (jget data "md")
            then true
            else
              match as_list (jget data "extract_result") with
              | Some items => existsb extract_item_done items
              | None => false
              end
        | None => false
        end
    | _ => false
    end.

(** What [_poll_batch_result] does with one payload it has parsed. *)
Inductive poll_verdict : Type :=
| PollReturn
| PollRaise
| PollContinue.

Definition poll_payload (payload : list (str * json)) : poll_verdict :=
  if _is_terminal_success payload then PollReturn
  else if _is_terminal_failure payload then PollRaise
  else PollContinue.

End Classifier.

End Mineru.

(** ** Insertion-ordered dictionaries with string keys *)

Module Dict.

Definition odict (V : Type) : Type := list (str * V).

Definition get {V : Type} (d : odict V) (k : str) : option V := assoc_get d k.

Definition mem {V : Type} (d : odict V) (k : str) : bool :=
  match get d k with Some _ => true | None => false end.

(** [d[k] = v]: an existing key keeps its place. *)
Fixpoint set {V : Type} (d : odict V) (k : str) (v : V) : odict V :=
  match d with
  | [] => [(k, v)]
  | (k', v') :: rest =>
      if PyStr.eqb k' k then (k', v) :: rest else (k', v') :: set rest k v
  end.

(** [d.update(other)]. *)
Definition update {V : Type} (d other : odict V) : odict V :=
  fold_left (fun acc kv => set acc (fst kv) (snd kv)) other d.

Definition keys {V : Type} (d : odict V) : list str := map fst d.

End Dict.

Import Dict.

(** ** The required sections of the final report and their recognition
    ([deepreview/tools/review_tools.py]) *)

Definition _REQUIRED_FINAL_REPORT_SECTIONS : list (str * str * list str) :=
  [ (lit "summary", lit "Summary", [lit "summary"]);
    (lit "strengths", lit "Strengths", [lit "strengths"]);
    (lit "weaknesses", lit "Weaknesses", [lit "weaknesses"]);
    (lit "key_issues", lit "Key Issues", [lit "key issues"; lit "issues"]);
    (lit "actionable_suggestions", lit "Actionable Suggestions",
      [lit "actionable suggestions"; lit "suggestions"]);
    (lit "storyline_options_writing_outlines", lit "Storyline Options + Writing Outlines",
      [lit "storyline options + writing outlines"; lit "storyline options";
       lit "writing outlines"; lit "storylines"]);
    (lit "priority_revision_plan", lit "Priority Revision Plan",
      [lit "priority revision plan"; lit "revision plan"]);
    (lit "experiment_inventory_research_experiment_plan",
      lit "Experiment Inventory & Research Experiment Plan",
      [lit "experiment inventory & research experiment plan"; lit "experiment inventory";
       lit "research experiment plan"]);
    (lit "novelty_verification_related_work_matrix",
      lit "Novelty Verification & Related-Work Matrix",
      [lit "novelty verification & related-work matrix";
       lit "novelty verification & related work matrix"; lit "novelty verification";
       lit "related-work matrix"; lit "related work matrix"]);
    (lit "references", lit "References", [lit "references"; lit "reference"]);
    (lit "scores", lit "Scores", [lit "scores"; lit "score"; lit "final score"]) ].

(** The longest prefix of [s] whose characters satisfy [p], and the rest. *)
Fixpoint span (p : ascii -> bool) (s : str) : str * str :=
  match s with
  | [] => ([], [])
  | c :: r =>
      if p c then let '(a, b) := span p r in (c :: a, b) else ([], s)
  end.

Definition is_hash (c : ascii) : bool := Ascii.eqb c "#"%char.

(** Last character of [s] that is not LF. *)
Definition last_not_lf (s : str) : option ascii :=
  find (fun c => negb (is_lf c)) (rev s).

(** [_FINAL_REPORT_SECTION_HEADING_PATTERN.match(line)], giving [group(1)].
    The pattern is [^\s{0,3}#{1,6}\s+(.+?)\s*$]: at most three whitespace
    characters, one to six [#], at least one whitespace character, then a
    title without LF, then whitespace to the end. When only whitespace
    follows the [#], the matcher gives one whitespace character back to the
    title. *)
Definition heading_match (line : str) : option str :=
  let '(ws0, r1) := span isspace line in
  if (length ws0 <=? 3)%nat then
    let '(hs, r2) := span is_hash r1 in
    if ((1 <=? length hs) && (length hs <=? 6))%nat then
      let '(ws1, r3) := span isspace r2 in
      match ws1, r3 with
      | [], _ => None
      | _ :: _, _ :: _ =>
          let title := rstrip r3 in
          if existsb is_lf title then None else Some title
      | _ :: ws_tail, [] =>
          match last_not_lf ws_tail with
          | Some c => Some [c]
          | None => None
          end
      end
    else None
  else None.

Definition is_token_char (c : ascii) : bool :=
  let n := code c in
  (((48 <=? n) && (n <=? 57)) || ((97 <=? n) && (n <=? 122)))%N || isspace c.

Definition space_for (c : ascii) (s : str) : str := replace_char c [" "%char] s.

(** [_normalize_final_report_section_token] on a string
    ([str(value or '')] is taken by the caller). *)
Definition _normalize_final_report_section_token (value : str) : str :=
  let token := lower (strip value) in
  if nonempty token then
    let token := replace_char "&"%char (lit " and ") token in
    let token := space_for "+"%char token in
    let token := space_for "/"%char token in
    let token := space_for "\"%char token in
    let token := space_for "_"%char token in
    let token := space_for "-"%char token in
    let token := map (fun c => if is_token_char c then c else " "%char) token in
    strip (collapse_ws token)
  else [].

Definition _required_final_report_section_order : list str :=
  map (fun e => fst (fst e)) _REQUIRED_FINAL_REPORT_SECTIONS.

Definition _required_final_report_section_titles : odict str :=
  fold_left (fun m e => set m (fst (fst e)) (snd (fst e)))
    _REQUIRED_FINAL_REPORT_SECTIONS [].

(** [title_map.get(section_id, section_id)]. *)
Definition title_of (section_id : str) : str :=
  default section_id (get _required_final_report_section_titles section_id).

Definition _required_final_report_alias_map : odict str :=
  fold_left
    (fun m e =>
       let '(section_id, title, aliases) := e in
       fold_left
         (fun m raw_alias =>
            let normalized_alias := _normalize_final_report_section_token raw_alias in
            if nonempty normalized_alias then set m normalized_alias section_id else m)
         (section_id :: title :: aliases) m)
    _REQUIRED_FINAL_REPORT_SECTIONS [].

Definition _resolve_final_report_section_id (section_key : str) : option str :=
  let normalized := _normalize_final_report_section_token section_key in
  if nonempty normalized then
    let alias_map := _required_final_report_alias_map in
    match
      match get alias_map normalized with
      | Some direct => if nonempty direct then Some direct else None
      | None => None
      end
    with
    | Some direct => Some direct
    | None =>
        first_some
          (fun kv =>
             if nonempty (fst kv) && contains (fst kv) normalized
             then Some (snd kv) else None)
          alias_map
    end
  else None.

(** ** Section content: coercion, extraction from markdown, assembly *)

(** A tool argument typed [list[str] | str | None]. *)
Inductive section_value : Type :=
| VNone
| VStr (s : str)
| VList (items : list str).

Definition _coerce_markdown_text (value : option str) : str :=
  match value with
  | None => []
  | Some s => strip s
  end.

(** The items of a list argument that are not blank, stripped. *)
Definition stripped_items (items : list str) : list str :=
  map strip (List.filter (fun item => nonempty (strip item)) items).

Definition _coerce_section_markdown (value : section_value) (list_as_bullets : bool) : str :=
  match value with
  | VNone => []
  | VList raw =>
      let items := stripped_items raw in
      match items with
      | [] => []
      | _ =>
          if list_as_bullets
          then join [LF] (map (fun item => lit "- " ++ item) items)
          else join [LF] items
      end
  | VStr s => strip s
  end.

(** [if x:] on an optional string. *)
Definition truthy_opt (o : option str) : bool :=
  match o with
  | Some s => nonempty s
  | None => false
  end.

(** [a or b] on optional strings, then [str(... or '')]. *)
Definition or_opt (a b : option str) : option str :=
  if truthy_opt a then a else b.

Definition str_or_empty (o : option str) : str :=
  if truthy_opt o then default [] o else [].

(** The lines after the first that are left once the leading blank ones are
    dropped: [lines[idx:]] of [_strip_leading_section_heading]. *)
Fixpoint drop_blank_lines (lines : list str) : list str :=
  match lines with
  | [] => []
  | l :: rest => if nonempty (strip l) then lines else drop_blank_lines rest
  end.

Definition _strip_leading_section_heading (section_id : str) (content : str) : str :=
  let text := strip content in
  if nonempty text then
    match splitlines text with
    | [] => text
    | first_line :: rest =>
        match heading_match (strip first_line) with
        | None => text
        | Some heading_text =>
            match _resolve_final_report_section_id heading_text with
            | Some resolved =>
                if PyStr.eqb resolved section_id
                then strip (join [LF] (drop_blank_lines rest))
                else text
            | None => text
            end
        end
    end
  else [].

Definition _normalize_final_report_sections (raw_sections : odict str) : odict str :=
  fold_left
    (fun normalized kv =>
       match _resolve_final_report_section_id (fst kv) with
       | Some section_id =>
           if nonempty section_id then
             let content := strip (_coerce_section_markdown (VStr (snd kv)) true) in
             if nonempty content then set normalized section_id content else normalized
           else normalized
       | None => normalized
       end)
    raw_sections [].

Definition put_if_nonempty (sections : odict str) (key : string) (text : str) : odict str :=
  if nonempty text then set sections (lit key) text else sections.

(** [_build_sections_from_legacy_fields]. *)
Definition _build_sections_from_legacy_fields
    (summary : option str) (strengths weaknesses issues suggestions storylines : section_value)
    : odict str :=
  let sections := put_if_nonempty [] "summary" (_coerce_markdown_text summary) in
  let sections := put_if_nonempty sections "strengths" (_coerce_section_markdown strengths true) in
  let sections := put_if_nonempty sections "weaknesses" (_coerce_section_markdown weaknesses true) in
  let sections := put_if_nonempty sections "key_issues" (_coerce_section_markdown issues true) in
  let sections :=
    put_if_nonempty sections "actionable_suggestions" (_coerce_section_markdown suggestions true) in
  put_if_nonempty sections "storyline_options_writing_outlines"
    (_coerce_section_markdown storylines true).

(** The state of the scan of [_extract_required_sections_from_markdown]:
    the buffers and the section that is open. *)
Definition scan_state : Type := odict (list str) * option str.

(** [section_buffers.setdefault(k, []).append(line)]. *)
Definition buffer_append (buffers : odict (list str)) (k : str) (line : str)
    : odict (list str) :=
  set buffers k (default [] (get buffers k) ++ [line]).

Definition scan_line (st : scan_state) (raw_line : str) : scan_state :=
  let '(section_buffers, active_section_id) := st in
  match heading_match raw_line with
  | Some heading_text =>
      let active := _resolve_final_report_section_id heading_text in
      if truthy_opt active && negb (mem section_buffers (default [] active))
      then (set section_buffers (default [] active) [], active)
      else (section_buffers, active)
  | None =>
      if truthy_opt active_section_id
      then (buffer_append section_buffers (default [] active_section_id) raw_line,
            active_section_id)
      else st
  end.

Definition collect_sections (section_buffers : odict (list str)) : odict str :=
  fold_left
    (fun extracted kv =>
       let content := strip (join [LF] (snd kv)) in
       if nonempty content then set extracted (fst kv) content else extracted)
    section_buffers [].

Definition _extract_required_sections_from_markdown (markdown_text : str) : odict str :=
  collect_sections (fst (fold_left scan_line (splitlines markdown_text) ([], None))).

(** One block of the assembled report, when the section has content. *)
Definition section_block (sections : odict str) (section_id : str) : option str :=
  let content := strip (default [] (get sections section_id)) in
  if nonempty content
  then Some (lit "## " ++ title_of section_id ++ [LF] ++ content)
  else None.

Definition _build_final_report_markdown_from_sections (sections : odict str) : str :=
  let blocks := omap (section_block sections) _required_final_report_section_order in
  match blocks with
  | [] => []
  | _ => strip (join [LF; LF] blocks)
  end.

(** ** The job record and the job directory ([deepreview/types.py],
    [deepreview/state.py], [deepreview/storage.py]) *)

Record Settings : Type := {
  enable_final_gates : bool;
  min_paper_search_calls_for_pdf_annotate : Z;
  min_paper_search_calls_for_final : Z;
  min_distinct_paper_queries_for_final : Z;
  min_annotations_for_final : Z;
  min_english_words_for_final : Z;
  min_chinese_chars_for_final : Z;
  force_english_output : bool;
  agent_model : str;
}.

Record TokenUsage : Type := {
  requests : Z;
  input_tokens : Z;
  output_tokens : Z;
  total_tokens : Z;
}.

Record ToolUsage : Type := {
  tool_total_calls : Z;
  distinct_tools : Z;
  per_tool : odict Z;
}.

Record PaperSearchUsage : Type := {
  total_calls : Z;
  successful_calls : Z;
  effective_calls : Z;
  papers_found : Z;
  distinct_queries : Z;
}.

Record UsageSnapshot : Type := {
  token : TokenUsage;
  tool : ToolUsage;
  paper_search_snapshot : PaperSearchUsage;
}.

(** [AnnotationItem] without its timestamp. *)
Record AnnotationItem : Type := {
  ann_id : str;
  ann_page : Z;
  ann_start_line : Z;
  ann_end_line : Z;
  ann_text : str;
  ann_comment : str;
  ann_summary : option str;
  ann_object_type : str;
  ann_severity : option str;
}.

Inductive JobStatus : Type :=
| queued
| pdf_uploading_to_mineru
| pdf_parsing
| agent_running
| final_report_persisting
| pdf_exporting
| completed
| failed.

Record JobArtifacts : Type := {
  source_pdf_path : option str;
  mineru_markdown_path : option str;
  mineru_content_list_path : option str;
  annotations_path : option str;
  final_markdown_path : option str;
  report_pdf_path : option str;
  prompt_snapshot_path : option str;
}.

(** [JobState] without its id and timestamps. *)
Record JobState : Type := {
  title : str;
  source_pdf_name : str;
  status : JobStatus;
  job_message : str;
  error : option str;
  usage : UsageSnapshot;
  annotation_count : Z;
  final_report_ready : bool;
  pdf_ready : bool;
  artifacts : JobArtifacts;
  metadata : odict json;
}.

(** One line of [events.jsonl] without its timestamp. *)
Record Event : Type := {
  event : str;
  extra : list (str * json);
}.

(** The job directory: [job.json], the text and binary files by path, the
    paths written so far (oldest first; a write changes the file's mtime),
    [annotations.json] and [events.jsonl] (oldest first). *)
Record JobDir : Type := {
  job_json : option JobState;
  files : gmap str str;
  write_log : list str;
  annotations_json : option (list AnnotationItem);
  events_jsonl : list Event;
}.

(** [ReviewRuntimeContext]; the adapter handle and the source markdown, which
    no tool reads, are left out. *)
Record ReviewRuntimeContext : Type := {
  job_dir : str;
  page_index : gmap Z (list str);
  settings : Settings;
  annotations : list AnnotationItem;
  final_markdown_text : option str;
  final_report_draft_sections : odict str;
  final_report_draft_version : Z;
  tool_counts : odict Z;
  paper_search_usage : PaperSearchUsage;
  paper_search_signatures : gset str;
  status_updates : list (odict str);
}.

(** The runtime context together with the job directory it writes to. The
    tools run while [job.json] exists ([run_job_async] has loaded it), so the
    record is held directly. *)
Record World : Type := {
  rt : ReviewRuntimeContext;
  job : JobState;
  disk_files : gmap str str;
  disk_write_log : list str;
  disk_annotations : option (list AnnotationItem);
  events : list Event;
}.

(** Field updates. *)
Definition set_rt (f : ReviewRuntimeContext -> ReviewRuntimeContext) (w : World) : World :=
  {| rt := f (rt w); job := job w; disk_files := disk_files w;
     disk_write_log := disk_write_log w; disk_annotations := disk_annotations w;
     events := events w |}.

(** [mutate_job_state(job_id, fn)]. *)
Definition mutate_job_state (fn : JobState -> JobState) (w : World) : World :=
  {| rt := rt w; job := fn (job w); disk_files := disk_files w;
     disk_write_log := disk_write_log w; disk_annotations := disk_annotations w;
     events := events w |}.

(** [append_event(job_id, name, **extra)]. *)
Definition append_event (name : string) (fields : list (string * json)) (w : World) : World :=
  {| rt := rt w; job := job w; disk_files := disk_files w;
     disk_write_log := disk_write_log w; disk_annotations := disk_annotations w;
     events := events w ++ [{| event := lit name;
                               extra := map (fun kv => (lit (fst kv), snd kv)) fields |}] |}.

(** [write_text_atomic(path, content)]. *)
Definition write_text_atomic (path : str) (content : str) (w : World) : World :=
  {| rt := rt w; job := job w; disk_files := <[path := content]> (disk_files w);
     disk_write_log := disk_write_log w ++ [path]; disk_annotations := disk_annotations w;
     events := events w |}.

Definition write_annotations (items : list AnnotationItem) (w : World) : World :=
  {| rt := rt w; job := job w; disk_files := disk_files w;
     disk_write_log := disk_write_log w; disk_annotations := Some items;
     events := events w |}.

Definition rt_with_annotations (v : list AnnotationItem) (r : ReviewRuntimeContext) :=
  {| job_dir := job_dir r; page_index := page_index r; settings := settings r;
     annotations := v; final_markdown_text := final_markdown_text r;
     final_report_draft_sections := final_report_draft_sections r;
     final_report_draft_version := final_report_draft_version r;
     tool_counts := tool_counts r; paper_search_usage := paper_search_usage r;
     paper_search_signatures := paper_search_signatures r;
     status_updates := status_updates r |}.

Definition rt_with_final_markdown_text (v : option str) (r : ReviewRuntimeContext) :=
  {| job_dir := job_dir r; page_index := page_index r; settings := settings r;
     annotations := annotations r; final_markdown_text := v;
     final_report_draft_sections := final_report_draft_sections r;
     final_report_draft_version := final_report_draft_version r;
     tool_counts := tool_counts r; paper_search_usage := paper_search_usage r;
     paper_search_signatures := paper_search_signatures r;
     status_updates := status_updates r |}.

Definition rt_with_draft (sections : odict str) (version : Z) (r : ReviewRuntimeContext) :=
  {| job_dir := job_dir r; page_index := page_index r; settings := settings r;
     annotations := annotations r; final_markdown_text := final_markdown_text r;
     final_report_draft_sections := sections;
     final_report_draft_version := version;
     tool_counts := tool_counts r; paper_search_usage := paper_search_usage r;
     paper_search_signatures := paper_search_signatures r;
     status_updates := status_updates r |}.

Definition rt_with_tool_counts (v : odict Z) (r : ReviewRuntimeContext) :=
  {| job_dir := job_dir r; page_index := page_index r; settings := settings r;
     annotations := annotations r; final_markdown_text := final_markdown_text r;
     final_report_draft_sections := final_report_draft_sections r;
     final_report_draft_version := final_report_draft_version r;
     tool_counts := v; paper_search_usage := paper_search_usage r;
     paper_search_signatures := paper_search_signatures r;
     status_updates := status_updates r |}.

Definition rt_with_paper_search (u : PaperSearchUsage) (sigs : gset str)
    (r : ReviewRuntimeContext) :=
  {| job_dir := job_dir r; page_index := page_index r; settings := settings r;
     annotations := annotations r; final_markdown_text := final_markdown_text r;
     final_report_draft_sections := final_report_draft_sections r;
     final_report_draft_version := final_report_draft_version r;
     tool_counts := tool_counts r; paper_search_usage := u;
     paper_search_signatures := sigs;
     status_updates := status_updates r |}.

Definition rt_with_status_updates (v : list (odict str)) (r : ReviewRuntimeContext) :=
  {| job_dir := job_dir r; page_index := page_index r; settings := settings r;
     annotations := annotations r; final_markdown_text := final_markdown_text r;
     final_report_draft_sections := final_report_draft_sections r;
     final_report_draft_version := final_report_draft_version r;
     tool_counts := tool_counts r; paper_search_usage := paper_search_usage r;
     paper_search_signatures := paper_search_signatures r;
     status_updates := v |}.

Definition job_with_usage (u : UsageSnapshot) (count : Z) (j : JobState) : JobState :=
  {| title := title j; source_pdf_name := source_pdf_name j; status := status j;
     job_message := job_message j; error := error j; usage := u;
     annotation_count := count; final_report_ready := final_report_ready j;
     pdf_ready := pdf_ready j; artifacts := artifacts j; metadata := metadata j |}.

Definition job_with_message_metadata (msg : str) (md : odict json) (j : JobState) : JobState :=
  {| title := title j; source_pdf_name := source_pdf_name j; status := status j;
     job_message := msg; error := error j; usage := usage j;
     annotation_count := annotation_count j; final_report_ready := final_report_ready j;
     pdf_ready := pdf_ready j; artifacts := artifacts j; metadata := md |}.

Definition artifacts_with_final_markdown_path (p : option str) (a : JobArtifacts) : JobArtifacts :=
  {| source_pdf_path := source_pdf_path a; mineru_markdown_path := mineru_markdown_path a;
     mineru_content_list_path := mineru_content_list_path a;
     annotations_path := annotations_path a; final_markdown_path := p;
     report_pdf_path := report_pdf_path a; prompt_snapshot_path := prompt_snapshot_path a |}.

Definition artifacts_with_report_paths (md pdf : option str) (a : JobArtifacts) : JobArtifacts :=
  {| source_pdf_path := source_pdf_path a; mineru_markdown_path := mineru_markdown_path a;
     mineru_content_list_path := mineru_content_list_path a;
     annotations_path := annotations_path a; final_markdown_path := md;
     report_pdf_path := pdf; prompt_snapshot_path := prompt_snapshot_path a |}.

(** JSON renderings used in payloads and events. *)
Definition jstr (s : string) : json := JStr (lit s).

Definition jopt (o : option str) : json :=
  match o with Some s => JStr s | None => JNull end.

Definition jstrs (l : list str) : json := JList (map JStr l).

Definition jfields (fields : list (string * json)) : json :=
  JDict (map (fun kv => (lit (fst kv), snd kv)) fields).

(** [usage.model_dump()]. *)
Definition usage_dump (u : PaperSearchUsage) : json :=
  jfields [("total_calls", JInt (total_calls u));
           ("successful_calls", JInt (successful_calls u));
           ("effective_calls", JInt (effective_calls u));
           ("papers_found", JInt (papers_found u));
           ("distinct_queries", JInt (distinct_queries u))]%string.

(** A tool payload: a dictionary of JSON values. *)
Definition payload : Type := odict json.

Definition mk_payload (fields : list (string * json)) : payload :=
  map (fun kv => (lit (fst kv), snd kv)) fields.

Definition field (p : payload) (k : string) : option json := get p (lit k).

(** ** The tools of the review agent ([build_review_tools]) *)

(** A stable sort by a total preorder, as [list.sort] is. *)
Fixpoint insert_by {A : Type} (le : A -> A -> bool) (x : A) (l : list A) : list A :=
  match l with
  | [] => [x]
  | y :: rest => if le x y then x :: l else y :: insert_by le x rest
  end.

Definition sort_by {A : Type} (le : A -> A -> bool) (l : list A) : list A :=
  fold_right (insert_by le) [] l.

(** [l[i:j]] for [0 <= i]. *)
Definition slice {A : Type} (l : list A) (i j : Z) : list A :=
  firstn (Z.to_nat (j - i)) (skipn (Z.to_nat i) l).

(** [enumerate(l, start=k)]. *)
Fixpoint enumerate_from {A : Type} (k : Z) (l : list A) : list (Z * A) :=
  match l with
  | [] => []
  | x :: rest => (k, x) :: enumerate_from (k + 1) rest
  end.

(** What a tool call gives back: a payload, or an exception that leaves the
    tool. *)
Inductive outcome : Type :=
| Returned (p : payload)
| Raised.

(** A [question_list] argument: [list[str] | str | None]. *)
Inductive question_arg : Type :=
| QNone
| QStr (s : str)
| QList (items : list str).

Definition _normalize_signature (text : str) : str :=
  join [" "%char] (split_ws (lower (strip text))).

Definition _REVIEW_RECOMMENDED_ANNOTATION_MIN : Z := 12.
Definition _REVIEW_RECOMMENDED_ANNOTATION_MAX : Z := 25.

Definition sorted_pages (index : gmap Z (list str)) : list Z :=
  sort_by Z.leb (elements (dom index)).

Definition _flatten_page_index (index : gmap Z (list str)) : list (Z * Z * str) :=
  flat_map
    (fun page =>
       map (fun row => (page, fst row, snd row))
         (enumerate_from 1 (default [] (index !! page))))
    (sorted_pages index).

Module Tools.

Section WithExternals.

Context (E : Externals).

(** [rt.record_tool(name)]. *)
Definition record_tool (name : string) (w : World) : World :=
  set_rt
    (fun r =>
       rt_with_tool_counts
         (set (tool_counts r) (lit name) (default 0 (get (tool_counts r) (lit name)) + 1)) r)
    w.

(** [rt.annotation_count]. *)
Definition rt_annotation_count (r : ReviewRuntimeContext) : Z :=
  Z.of_nat (length (annotations r)).

(** [rt.sync_state_usage(token_usage)]. *)
Definition sync_state_usage (token_usage : option TokenUsage) (w : World) : World :=
  let counts := tool_counts (rt w) in
  mutate_job_state
    (fun j =>
       job_with_usage
         {| token := default (token (usage j)) token_usage;
            tool := {| tool_total_calls := fold_right Z.add 0 (map snd counts);
                       distinct_tools := Z.of_nat (length counts);
                       per_tool := counts |};
            paper_search_snapshot := paper_search_usage (rt w) |}
         (rt_annotation_count (rt w)) j)
    w.

(** [rt.persist_annotations(token_usage)]. *)
Definition persist_annotations (token_usage : option TokenUsage) (w : World) : World :=
  sync_state_usage token_usage (write_annotations (annotations (rt w)) w).

(** *** [mcp_status_update] *)

Definition mcp_status_update (ctx_usage : TokenUsage)
    (step : str) (completed_ blocked todo : option str) (w : World) : World * outcome :=
  let w := record_tool "mcp_status_update" w in
  let row : odict str :=
    [(lit "step", strip step);
     (lit "completed", strip (str_or_empty completed_));
     (lit "blocked", strip (str_or_empty blocked));
     (lit "todo", strip (str_or_empty todo))] in
  let row_json := JDict (map (fun kv => (fst kv, JStr (snd kv))) row) in
  let w := set_rt (fun r => rt_with_status_updates (status_updates r ++ [row]) r) w in
  let w :=
    mutate_job_state
      (fun j =>
         job_with_message_metadata
           (lit "Agent progress: "
              ++ (if nonempty (strip step) then strip step else lit "updating"))
           (set (metadata j) (lit "last_status_update") row_json) j)
      w in
  let w :=
    append_event "agent_status_update"
      [("step", JStr (strip step));
       ("completed", JStr (strip (str_or_empty completed_)));
       ("blocked", JStr (strip (str_or_empty blocked)));
       ("todo", JStr (strip (str_or_empty todo)))]%string w in
  let w := sync_state_usage (Some ctx_usage) w in
  (w, Returned (mk_payload [("status", jstr "ok"); ("status_update", row_json)]%string)).

(** *** [pdf_search] *)

(** The tokens of the query: [[tok for tok in re.split(r'\s+', text.lower()) if tok]],
    the lowered text itself when there is none. *)
Definition query_tokens (text : str) : list str :=
  match split_ws (lower text) with
  | [] => [lower text]
  | tokens => tokens
  end.

(** The score of one line, [None] when the line is skipped. *)
Definition line_score (text : str) (line_text : str) : option Z :=
  let hay := lower line_text in
  let score := fold_right Z.add 0 (map (fun tok => count tok hay) (query_tokens text)) in
  if (score <=? 0) && negb (contains (lower text) hay) then None
  else if score <=? 0 then Some 1
  else Some score.

Definition scored_rows (text : str) (rows : list (Z * Z * str)) : list (Z * Z * Z * str) :=
  omap
    (fun row =>
       let '(page, line_no, line_text) := row in
       match line_score text line_text with
       | Some score => Some (score, page, line_no, line_text)
       | None => None
       end)
    rows.

(** The order of [key=lambda item: (-item[0], item[1], item[2])]. *)
Definition hit_le (a b : Z * Z * Z * str) : bool :=
  let '(s1, p1, l1, _) := a in
  let '(s2, p2, l2, _) := b in
  (- s1 <? - s2)
  || ((- s1 =? - s2) && ((p1 <? p2) || ((p1 =? p2) && (l1 <=? l2)))).

(** [max(1, min(50, int(top_k or 8)))]. *)
Definition hit_limit (top_k : Z) : Z :=
  Z.max 1 (Z.min 50 (if top_k =? 0 then 8 else top_k)).

(** The hits of a query that is not blank, as (score, page, line, text). *)
Definition search_hits (index : gmap Z (list str)) (text : str) (top_k : Z)
    : list (Z * Z * Z * str) :=
  firstn (Z.to_nat (hit_limit top_k))
    (sort_by hit_le (scored_rows text (_flatten_page_index index))).

Definition hit_json (h : Z * Z * Z * str) : json :=
  let '(s, p, ln, t) := h in
  jfields [("page", JInt p); ("line", JInt ln); ("score", JInt s); ("text", JStr t)]%string.

Definition pdf_search (ctx_usage : TokenUsage) (query : str) (top_k : Z) (w : World)
    : World * outcome :=
  let w := record_tool "pdf_search" w in
  let text := strip query in
  if nonempty text then
    let hits := search_hits (page_index (rt w)) text top_k in
    let w := sync_state_usage (Some ctx_usage) w in
    (w, Returned (mk_payload [("status", jstr "ok"); ("query", JStr text);
                              ("count", JInt (Z.of_nat (length hits)));
                              ("hits", JList (map hit_json hits))]%string))
  else
    let w := sync_state_usage (Some ctx_usage) w in
    (w, Returned (mk_payload [("status", jstr "error"); ("reason", jstr "empty_query")]%string)).

(** *** [pdf_read_lines] and [pdf_jump] *)

Definition page_not_found : payload :=
  mk_payload [("status", jstr "error"); ("reason", jstr "page_not_found")]%string.

(** [rt.page_index.get(int(page))] when it is a non-empty list. *)
Definition page_lines (w : World) (page : Z) : option (list str) :=
  match page_index (rt w) !! page with
  | Some (l :: ls) => Some (l :: ls)
  | _ => None
  end.

Definition pdf_read_lines (ctx_usage : TokenUsage) (page start_line end_line : Z) (w : World)
    : World * outcome :=
  let w := record_tool "pdf_read_lines" w in
  match page_lines w page with
  | None => (sync_state_usage (Some ctx_usage) w, Returned page_not_found)
  | Some lines =>
      let start := Z.max 1 start_line in
      let end_ := Z.max start end_line in
      let start_idx := start - 1 in
      let end_idx := Z.min (Z.of_nat (length lines)) end_ in
      let snippet := slice lines start_idx end_idx in
      (sync_state_usage (Some ctx_usage) w,
       Returned
         (mk_payload
            [("status", jstr "ok"); ("page", JInt page); ("start_line", JInt start);
             ("end_line", JInt end_idx);
             ("lines",
              JList (map (fun row => jfields [("line", JInt (fst row));
                                              ("text", JStr (snd row))]%string)
                       (enumerate_from start snippet)));
             ("text", JStr (join [LF] snippet))]%string))
  end.

Definition pdf_jump (ctx_usage : TokenUsage) (page : Z) (w : World) : World * outcome :=
  let w := record_tool "pdf_jump" w in
  match page_lines w page with
  | None => (sync_state_usage (Some ctx_usage) w, Returned page_not_found)
  | Some lines =>
      (sync_state_usage (Some ctx_usage) w,
       Returned
         (mk_payload
            [("status", jstr "ok"); ("page", JInt page);
             ("line_count", JInt (Z.of_nat (length lines)));
             ("preview", jstrs (firstn 8 lines))]%string))
  end.

(** *** [pdf_annotate] *)

Definition required_search_calls (w : World) : Z :=
  Z.max 0 (min_paper_search_calls_for_pdf_annotate (settings (rt w))).

Definition current_search_calls (w : World) : Z :=
  Z.max 0 (total_calls (paper_search_usage (rt w))).

Definition required_annotations (w : World) : Z :=
  Z.max 1 (min_annotations_for_final (settings (rt w))).

Definition pdf_annotate (ctx_usage : TokenUsage) (uuid : str)
    (page start_line end_line : Z) (comment : str) (summary : option str)
    (object_type : str) (severity : option str) (w : World) : World * outcome :=
  let w := record_tool "pdf_annotate" w in
  let paper_search_usage_payload := usage_dump (paper_search_usage (rt w)) in
  if current_search_calls w <? required_search_calls w then
    (sync_state_usage (Some ctx_usage) w,
     Returned
       (mk_payload
          [("status", jstr "error"); ("reason", jstr "paper_search_calls_not_met");
           ("retry_required", JBool true); ("retry_tool", jstr "pdf_annotate");
           ("paper_search_usage", paper_search_usage_payload);
           ("required_paper_search_calls", JInt (required_search_calls w))]%string))
  else
    match page_lines w page with
    | None => (sync_state_usage (Some ctx_usage) w, Returned page_not_found)
    | Some lines =>
        let start := Z.max 1 start_line in
        let end_ := Z.max start end_line in
        let start_idx := start - 1 in
        let end_idx := Z.min (Z.of_nat (length lines)) end_ in
        let snippet := slice lines start_idx end_idx in
        let text := strip (join [LF] snippet) in
        if negb (nonempty text) then
          (sync_state_usage (Some ctx_usage) w,
           Returned (mk_payload [("status", jstr "error"); ("reason", jstr "empty_span")]%string))
        else
          let comment_text := strip comment in
          if negb (nonempty comment_text) then
            (sync_state_usage (Some ctx_usage) w,
             Returned
               (mk_payload [("status", jstr "error"); ("reason", jstr "comment_required")]%string))
          else
            let ann :=
              {| ann_id := uuid; ann_page := page; ann_start_line := start;
                 ann_end_line := end_idx; ann_text := text; ann_comment := comment_text;
                 ann_summary :=
                   if truthy_opt summary then Some (strip (default [] summary)) else None;
                 ann_object_type :=
                   (let t := strip (if nonempty object_type then object_type
                                    else lit "suggestion") in
                    if nonempty t then t else lit "suggestion");
                 ann_severity :=
                   if truthy_opt severity then Some (strip (default [] severity)) else None |} in
            let w := set_rt (fun r => rt_with_annotations (annotations r ++ [ann]) r) w in
            let w := persist_annotations (Some ctx_usage) w in
            let w :=
              append_event "annotation_created"
                [("annotation_id", JStr (ann_id ann)); ("page", JInt (ann_page ann));
                 ("start_line", JInt (ann_start_line ann));
                 ("end_line", JInt (ann_end_line ann));
                 ("object_type", JStr (ann_object_type ann));
                 ("severity", jopt (ann_severity ann))]%string w in
            let total_annotations := rt_annotation_count (rt w) in
            let can_start_final := required_annotations w <=? total_annotations in
            (w,
             Returned
               (mk_payload
                  [("status", jstr "ok"); ("success", JBool true);
                   ("annotation_id", JStr (ann_id ann));
                   ("annotation_count", JInt total_annotations);
                   ("annotation_progress",
                    jfields
                      [("total_review_annotations", JInt total_annotations);
                       ("recommended_total_range",
                        jfields [("min", JInt _REVIEW_RECOMMENDED_ANNOTATION_MIN);
                                 ("max", JInt _REVIEW_RECOMMENDED_ANNOTATION_MAX)]);
                       ("ready_for_final_report", JBool can_start_final);
                       ("final_report_trigger_min", JInt (required_annotations w))]);
                   ("pdf_annotate_usage",
                    jfields
                      [("total_calls", JInt total_annotations);
                       ("hard_minimum_calls_for_final_report", JInt (required_annotations w));
                       ("hard_minimum_met", JBool can_start_final);
                       ("can_start_final_consolidation", JBool can_start_final)]);
                   ("next_action", jstr "self_check_annotation_coverage_then_decide");
                   ("completion_gate",
                    jfields
                      [("recommended_total_annotations", jstr "12-25");
                       ("hard_minimum_final_report_annotations",
                        JInt (required_annotations w));
                       ("main_body_annotations_per_page", jstr "1-4");
                       ("appendix_annotations_per_two_pages", jstr "1");
                       ("final_tool", jstr "review_final_markdown_write");
                       ("ready_for_final_report", JBool can_start_final)]);
                   ("object_type", JStr (ann_object_type ann));
                   ("severity", jopt (ann_severity ann));
                   ("summary", jopt (ann_summary ann));
                   ("paper_search_usage", paper_search_usage_payload)]%string))
    end.

(** *** [paper_search] *)

Definition is_bullet_char (c : ascii) : bool :=
  Ascii.eqb c "-"%char || Ascii.eqb c " "%char || Ascii.eqb c (ascii_of_N 9).

(** The clean-up loop of [normalize_question_list]: collapse the whitespace,
    drop what is blank or already seen (whatever the case), keep the order. *)
Fixpoint clean_questions (seen : list str) (raw_items : list str) : list str :=
  match raw_items with
  | [] => []
  | item :: rest =>
      let normalized := join [" "%char] (split_ws item) in
      if negb (nonempty normalized) then clean_questions seen rest
      else if mem_str (lower normalized) seen then clean_questions seen rest
      else normalized :: clean_questions (lower normalized :: seen) rest
  end.

(** [normalize_question_list] of [adapters/paper_search.py]. *)
Definition normalize_question_list (raw : question_arg) : list str :=
  let raw_items :=
    match raw with
    | QList items => stripped_items items
    | QStr s =>
        let text := strip s in
        if nonempty text then
          match json_loads E text with
          | Some (JList parsed) =>
              map strip (List.filter (fun item => nonempty (strip item)) (map (py_str E) parsed))
          | _ =>
              List.filter nonempty (map (strip_by is_bullet_char) (splitlines text))
          end
        else []
    | QNone => []
    end in
  firstn 3 (clean_questions [] raw_items).

Definition is_dict (v : json) : bool :=
  match v with JDict _ => true | _ => false end.

(** [max(0, int(row.get('count') or 0))] of a row, 0 when [int] raises. *)
Definition row_count (row : json) : Z :=
  match row with
  | JDict fields =>
      match py_int E (py_or (jget fields "count") (JInt 0)) with
      | Some n => Z.max 0 n
      | None => 0
      end
  | _ => 0
  end.

Definition _count_papers (result : odict json) : Z :=
  let fallback :=
    let rows :=
      match jget result "papers" with
      | JList papers => List.filter is_dict papers
      | _ => []
      end in
    match rows with
    | _ :: _ => Z.of_nat (length rows)
    | [] =>
        match jget result "question_results" with
        | JList question_results => fold_right Z.add 0 (map row_count question_results)
        | _ => 0
        end
    end in
  match py_int E (py_or (jget result "count") (JInt 0)) with
  | Some n => if 0 <? n then n else fallback
  | None => fallback
  end.

(** The result the tool builds when the adapter raises. *)
Definition search_failure_result (exn_text : str) (query_text : str) (questions : list str)
    : odict json :=
  mk_payload
    [("success", JBool false); ("reason", jstr "paper_search_request_failed");
     ("error", JStr exn_text);
     ("message", jstr "Paper search request failed before a valid response was returned.");
     ("query", JStr query_text); ("questions", jstrs questions);
     ("papers", JList []); ("count", JInt 0); ("question_results", JList []);
     ("next_steps",
      JList [jstr "Check paper search BASE_URL/ENDPOINT and API key settings.";
             jstr "Retry paper_search with the same query once the backend is reachable."]);
     ("retry_required", JBool true); ("retry_tool", jstr "paper_search")]%string.

(** The questions the result reports back: [result.get('questions')]. *)
Definition discovered_questions (result : odict json) : list str :=
  match jget result "questions" with
  | JList discovered => map (py_str E) discovered
  | _ => []
  end.

(** The question of each row of [result.get('question_results')] that has one. *)
Definition grouped_questions (result : odict json) : list str :=
  match jget result "question_results" with
  | JList grouped =>
      omap
        (fun row =>
           match row with
           | JDict fields =>
               let q :=
                 strip (py_str E (py_or (py_or (jget fields "question") (jget fields "query"))
                                    (JStr []))) in
               if nonempty q then Some q else None
           | _ => None
           end)
        grouped
  | _ => []
  end.

Definition add_signatures (sigs : gset str) (texts : list str) : gset str :=
  fold_left (fun acc t => acc ∪ {[ _normalize_signature t ]}) texts sigs.

(** [len({s for s in rt.paper_search_signatures if s})]. *)
Definition count_signatures (sigs : gset str) : Z :=
  Z.of_nat (size (filter (fun s : str => s <> []) sigs)).

(** [str(v or '').strip() or None]. *)
Definition stripped_or_none (v : json) : json :=
  let t := strip (py_str E (py_or v (JStr []))) in
  if nonempty t then JStr t else JNull.

(** The keys of the returned payload that hold prose and are not modelled. *)
Definition prose_keys : list str :=
  [lit "message"; lit "annotation_gate_hint"; lit "next_steps"].

(** [adapter_result] is what [rt.paper_adapter.search] returned, or the text
    of the exception it raised. *)
Definition paper_search (ctx_usage : TokenUsage) (adapter_result : odict json + str)
    (query : option str) (question_list : question_arg) (w : World) : World * outcome :=
  let w := record_tool "paper_search" w in
  let questions := normalize_question_list question_list in
  let query_text := strip (str_or_empty query) in
  let sigs := paper_search_signatures (rt w) in
  let sigs := if nonempty query_text then add_signatures sigs [query_text] else sigs in
  let sigs := add_signatures sigs questions in
  let result :=
    match adapter_result with
    | inl result => result
    | inr exn_text => search_failure_result exn_text query_text questions
    end in
  let u := paper_search_usage (rt w) in
  let success := truthy (jget result "success") in
  let paper_count := _count_papers result in
  let effective := success && (0 <? paper_count) in
  let sigs := add_signatures sigs (discovered_questions result) in
  let sigs := add_signatures sigs (grouped_questions result) in
  let u :=
    {| total_calls := total_calls u + 1;
       successful_calls := successful_calls u + (if success then 1 else 0);
       effective_calls := effective_calls u + (if effective then 1 else 0);
       papers_found := papers_found u + (if effective then paper_count else 0);
       distinct_queries := count_signatures sigs |} in
  let w := set_rt (rt_with_paper_search u sigs) w in
  let w := sync_state_usage (Some ctx_usage) w in
  let w :=
    append_event "paper_search_called"
      [("query", JStr query_text); ("questions", jstrs questions);
       ("success", JBool success); ("count", JInt paper_count);
       ("distinct_queries", JInt (distinct_queries u));
       ("reason", stripped_or_none (jget result "reason"));
       ("message", stripped_or_none (jget result "message"))]%string w in
  let required_for_annotate := required_search_calls w in
  let can_start_pdf_annotate := required_for_annotate <=? current_search_calls w in
  let result_payload := List.filter (fun kv => negb (mem_str (fst kv) prose_keys)) result in
  let result_payload := set result_payload (lit "paper_search_usage") (usage_dump u) in
  let result_payload :=
    set result_payload (lit "required_paper_search_calls_for_pdf_annotate")
      (JInt required_for_annotate) in
  let result_payload :=
    set result_payload (lit "can_start_pdf_annotate") (JBool can_start_pdf_annotate) in
  let result_payload :=
    set result_payload (lit "next_action")
      (if can_start_pdf_annotate then jstr "start_pdf_annotate"
       else jstr "continue_paper_search") in
  (w, Returned result_payload).

(** *** [read_paper] and [question_prompt] *)

(** [adapter_result] is what [rt.paper_adapter.read_papers] returned, [None]
    when it raised. *)
Definition read_paper (ctx_usage : TokenUsage) (adapter_result : option (odict json))
    (items : list json) (w : World) : World * outcome :=
  let w := record_tool "read_paper" w in
  let rows := List.filter is_dict items in
  match rows with
  | [] =>
      (sync_state_usage (Some ctx_usage) w,
       Returned (mk_payload [("status", jstr "error"); ("reason", jstr "empty_items")]%string))
  | _ =>
      match adapter_result with
      | None => (w, Raised)
      | Some result =>
          let w := sync_state_usage (Some ctx_usage) w in
          let w :=
            append_event "read_paper_called"
              [("item_count", JInt (Z.of_nat (length rows)));
               ("success", JBool (truthy (jget result "success")))]%string w in
          (w, Returned result)
      end
  end.

Definition question_prompt (ctx_usage : TokenUsage) (question : str) (options : option (list str))
    (w : World) : World * outcome :=
  let w := record_tool "question_prompt" w in
  let w := sync_state_usage (Some ctx_usage) w in
  (w,
   Returned
     (mk_payload
        [("status", jstr "not_available"); ("question", JStr (strip question));
         ("options", jstrs (stripped_items (default [] options)))]%string)).

(** *** [review_final_markdown_write] *)

Record FinalWriteArgs : Type := {
  markdown : option str;
  summary : option str;
  strengths : section_value;
  weaknesses : section_value;
  issues : section_value;
  suggestions : section_value;
  storylines : section_value;
  section_id : option str;
  section_title : option str;
  section_content : section_value;
  source : option str;
}.

Definition final_report_path (r : ReviewRuntimeContext) : str :=
  job_dir r ++ lit "/final_report.md".

(** [rt.set_final_markdown(markdown)]. *)
Definition set_final_markdown (text : str) (w : World) : World :=
  let final_path := final_report_path (rt w) in
  let w := write_text_atomic final_path text w in
  let w := set_rt (rt_with_final_markdown_text (Some text)) w in
  mutate_job_state
    (fun j =>
       {| title := title j; source_pdf_name := source_pdf_name j; status := status j;
          job_message := job_message j; error := error j; usage := usage j;
          annotation_count := rt_annotation_count (rt w); final_report_ready := true;
          pdf_ready := pdf_ready j;
          artifacts := artifacts_with_final_markdown_path (Some final_path) (artifacts j);
          metadata := metadata j |})
    w.

Definition _section_descriptor (id : str) : json :=
  jfields [("id", JStr id); ("title", JStr (title_of id))]%string.

Definition _section_descriptor_list (ids : list str) : json :=
  JList (map _section_descriptor ids).

(** The required sections with content in a draft, and the others, both in
    the canonical order. *)
Definition completed_section_ids (draft_sections : odict str) : list str :=
  List.filter (fun key => nonempty (strip (default [] (get draft_sections key))))
    _required_final_report_section_order.

Definition missing_section_ids (draft_sections : odict str) : list str :=
  List.filter (fun key => negb (mem_str key (completed_section_ids draft_sections)))
    _required_final_report_section_order.

Definition _build_final_report_progress_payload
    (source_tag : str) (completed_ids missing_ids : list str) (annotation_count_ : Z)
    (paper_search_usage_ : json) (required_paper_search_calls required_annotation_count : Z)
    (draft_version : Z) (status_ reason_ : string) (retry_required : bool)
    (current_section_id : option str) : payload :=
  let next_section_id := head missing_ids in
  let shown_version := Z.max 1 (if draft_version =? 0 then 1 else draft_version) in
  let shown_required_annotations :=
    Z.max 1 (if required_annotation_count =? 0 then 1 else required_annotation_count) in
  mk_payload
    [("status", jstr status_); ("reason", jstr reason_);
     ("task_completed", JBool false); ("source", JStr source_tag);
     ("draft_version", JInt shown_version);
     ("required_sections", _section_descriptor_list _required_final_report_section_order);
     ("completed_sections", _section_descriptor_list completed_ids);
     ("missing_sections", _section_descriptor_list missing_ids);
     ("next_required_section",
      if truthy_opt next_section_id
      then _section_descriptor (default [] next_section_id) else JNull);
     ("retry_required", JBool retry_required);
     ("retry_tool", jstr "review_final_markdown_write");
     ("annotation_count", JInt (Z.max 0 annotation_count_));
     ("required_annotation_count", JInt shown_required_annotations);
     ("paper_search_usage", paper_search_usage_);
     ("required_paper_search_calls", JInt (Z.max 0 required_paper_search_calls))]%string
  ++ (if truthy_opt current_section_id
      then mk_payload [("current_section",
                        _section_descriptor (default [] current_section_id))]%string
      else []).

(** What a call brings: the sections it contributes and the section it
    names, or the payload of the error that rejects it. *)
Inductive incoming : Type :=
| Rejected (p : payload)
| Contributed (incoming_sections : odict str) (requested_section_id : option str).

Definition final_write_error (reason_ : string) : payload :=
  mk_payload [("status", jstr "error"); ("reason", jstr reason_);
              ("retry_required", JBool true);
              ("retry_tool", jstr "review_final_markdown_write")]%string.

Definition retry_hint (id : str) (text : string) : payload :=
  mk_payload [("retry_payload_hint",
               jfields [("section_id", JStr id); ("section_content", jstr text)])]%string.

(** The part of [review_final_markdown_write] that reads the arguments. *)
Definition read_arguments (a : FinalWriteArgs) : incoming :=
  let raw_markdown_input := _coerce_markdown_text (markdown a) in
  let incoming_sections :=
    _build_sections_from_legacy_fields (summary a) (strengths a) (weaknesses a)
      (issues a) (suggestions a) (storylines a) in
  let markdown_sections := _extract_required_sections_from_markdown raw_markdown_input in
  let incoming_sections :=
    match markdown_sections with
    | _ :: _ => update incoming_sections markdown_sections
    | [] =>
        match incoming_sections with
        | [] =>
            if nonempty raw_markdown_input
            then set incoming_sections (lit "summary") raw_markdown_input
            else incoming_sections
        | _ => incoming_sections
        end
    end in
  let named := or_opt (section_id a) (section_title a) in
  let requested_section_id := _resolve_final_report_section_id (str_or_empty named) in
  if truthy_opt named && negb (truthy_opt requested_section_id) then
    Rejected (final_write_error "section_id_invalid")
  else if truthy_opt requested_section_id then
    let requested := default [] requested_section_id in
    match section_content a with
    | VNone =>
        if mem incoming_sections requested then Contributed incoming_sections requested_section_id
        else Rejected (final_write_error "section_content_required"
                         ++ retry_hint requested "Write this section in markdown.")
    | content =>
        let requested_content :=
          _strip_leading_section_heading requested
            (strip (_coerce_section_markdown content true)) in
        if nonempty requested_content
        then Contributed (set incoming_sections requested requested_content) requested_section_id
        else Rejected (final_write_error "section_content_required")
    end
  else Contributed incoming_sections requested_section_id.

(** [_return_final_write_failure(payload)]. *)
Definition _return_final_write_failure (ctx_usage : TokenUsage) (attempt_no : Z)
    (p : payload) (w : World) : World * outcome :=
  let w := sync_state_usage (Some ctx_usage) w in
  let w :=
    append_event "final_report_write_failed"
      [("attempt", JInt attempt_no);
       ("reason", JStr (strip (py_str E (py_or (default JNull (field p "reason")) (JStr [])))));
       ("annotation_count", JInt (rt_annotation_count (rt w)));
       ("paper_search_usage", usage_dump (paper_search_usage (rt w)));
       ("missing_sections", default JNull (field p "missing_sections"));
       ("language", default JNull (field p "language"));
       ("english_words", default JNull (field p "english_words"));
       ("chinese_chars", default JNull (field p "chinese_chars"))]%string w in
  (w, Returned p).

(** The commit: the steps of [review_final_markdown_write] from
    [rt.set_final_markdown] to the returned payload. *)
Definition commit_final_report (ctx_usage : TokenUsage) (normalized_source : str)
    (draft_sections : odict str) (draft_version : Z) (markdown_text : str)
    (validation : FinalReportValidation) (w : World) : World * outcome :=
  let usage_ := paper_search_usage (rt w) in
  let cfg := settings (rt w) in
  let stats := language_stats validation in
  let completed_ids := completed_section_ids draft_sections in
  let w := set_final_markdown markdown_text w in
  let w := sync_state_usage (Some ctx_usage) w in
  let w :=
    append_event "final_report_persisted"
      [("source", JStr normalized_source);
       ("annotation_count", JInt (rt_annotation_count (rt w)));
       ("paper_search_usage", usage_dump usage_);
       ("completed_sections", jstrs completed_ids);
       ("draft_version", JInt draft_version)]%string w in
  let w :=
    mutate_job_state
      (fun j =>
         let md := metadata j in
         let md := set md (lit "final_report_source") (JStr normalized_source) in
         let md :=
           set md (lit "status_updates_count")
             (JInt (Z.of_nat (length (status_updates (rt w))))) in
         let md := set md (lit "final_report_sections_completed") (jstrs completed_ids) in
         let md := set md (lit "final_report_draft_version") (JInt draft_version) in
         let md :=
           set md (lit "final_report_draft")
             (jfields
                [("sections", JDict (map (fun kv => (fst kv, JStr (snd kv))) draft_sections));
                 ("section_order", jstrs _required_final_report_section_order);
                 ("completed_sections", jstrs completed_ids);
                 ("missing_sections", JList []);
                 ("next_required_section", JNull);
                 ("status", jstr "completed");
                 ("source", JStr normalized_source)]%string) in
         job_with_message_metadata (lit "Final report persisted successfully.") md j)
      w in
  (w,
   Returned
     (mk_payload
        [("status", jstr "ok"); ("task_completed", JBool true);
         ("final_report_persisted", JBool true);
         ("auto_composed_from_sections", JBool true);
         ("annotation_count", JInt (rt_annotation_count (rt w)));
         ("paper_search_usage", usage_dump usage_);
         ("required_paper_search_calls",
          JInt (Z.max 0 (min_paper_search_calls_for_final cfg)));
         ("source", JStr normalized_source);
         ("draft_version", JInt draft_version);
         ("completed_sections", _section_descriptor_list completed_ids);
         ("missing_sections", JList []);
         ("next_required_section", JNull);
         ("language", JStr (primary_language stats));
         ("english_words", JInt (english_words stats));
         ("chinese_chars", JInt (chinese_chars stats));
         ("final_gates_enforced", JBool (enable_final_gates cfg))]%string)).

(** The second half of [review_final_markdown_write], once the draft is
    stored in the runtime context: the partial answer while sections are
    missing, then the gates, the validation and the commit. *)
Definition save_or_commit (ctx_usage : TokenUsage) (attempt_no : Z) (normalized_source : str)
    (draft_sections : odict str) (draft_version : Z) (current_section_id : option str)
    (w : World) : World * outcome :=
  let usage_ := paper_search_usage (rt w) in
  let cfg := settings (rt w) in
  let enforce_final_gates := enable_final_gates cfg in
  let required_paper_calls := Z.max 0 (min_paper_search_calls_for_final cfg) in
  let required_distinct_queries := Z.max 0 (min_distinct_paper_queries_for_final cfg) in
  let required_annotations_ := Z.max 1 (min_annotations_for_final cfg) in
  let completed_ids := completed_section_ids draft_sections in
  let missing_ids := missing_section_ids draft_sections in
  let progress status_ reason_ :=
    _build_final_report_progress_payload normalized_source completed_ids
      missing_ids (rt_annotation_count (rt w)) (usage_dump usage_)
      required_paper_calls required_annotations_ draft_version status_ reason_
      true current_section_id in
  match missing_ids with
  | next_required :: _ =>
      let w := sync_state_usage (Some ctx_usage) w in
      let w :=
        append_event "final_report_draft_saved"
          [("attempt", JInt attempt_no); ("source", JStr normalized_source);
           ("completed_sections", jstrs completed_ids);
           ("missing_sections", jstrs missing_ids);
           ("next_required_section", JStr next_required);
           ("draft_version", JInt draft_version)]%string w in
      (w, Returned (progress "partial" "required_sections_missing"))
  | [] =>
      if enforce_final_gates && (total_calls usage_ <? required_paper_calls) then
        _return_final_write_failure ctx_usage attempt_no
          (progress "error" "paper_search_calls_not_met") w
      else if enforce_final_gates
              && (distinct_queries usage_ <? required_distinct_queries) then
        _return_final_write_failure ctx_usage attempt_no
          (progress "error" "paper_search_distinct_queries_not_met") w
      else if enforce_final_gates
              && (rt_annotation_count (rt w) <? required_annotations_) then
        _return_final_write_failure ctx_usage attempt_no
          (progress "error" "annotation_count_not_met") w
      else
        let markdown_text := _build_final_report_markdown_from_sections draft_sections in
        if negb (nonempty markdown_text) then
          _return_final_write_failure ctx_usage attempt_no
            (final_write_error "markdown_required") w
        else
          let validation :=
            validate_final_report E markdown_text (min_english_words_for_final cfg)
              (min_chinese_chars_for_final cfg) (force_english_output cfg) in
          let stats := language_stats validation in
          if negb (ok validation) && enforce_final_gates then
            _return_final_write_failure ctx_usage attempt_no
              (set (progress "error" "") (lit "reason")
                 (JStr (if truthy_opt (reason validation)
                        then default [] (reason validation)
                        else lit "final_report_validation_failed"))) w
          else
            let w :=
              if negb (ok validation) then
                append_event "final_report_validation_skipped"
                  [("reason", jopt (reason validation));
                   ("message", JStr (message validation));
                   ("missing_sections", jstrs (missing_sections validation));
                   ("language", JStr (primary_language stats));
                   ("english_words", JInt (english_words stats));
                   ("chinese_chars", JInt (chinese_chars stats));
                   ("final_gates_enforced", JBool false)]%string w
              else w in
            commit_final_report ctx_usage normalized_source draft_sections
              draft_version markdown_text validation w
  end.

(** The answer of [review_final_markdown_write] once the report is
    committed. *)
Definition already_persisted (w : World) : payload :=
  mk_payload
    [("status", jstr "ok"); ("task_completed", JBool true);
     ("final_report_persisted", JBool true);
     ("annotation_count", JInt (rt_annotation_count (rt w)));
     ("paper_search_usage", usage_dump (paper_search_usage (rt w)));
     ("required_paper_search_calls",
      JInt (Z.max 0 (min_paper_search_calls_for_final (settings (rt w)))));
     ("completed_sections",
      _section_descriptor_list (completed_section_ids (final_report_draft_sections (rt w))));
     ("missing_sections", JList []);
     ("next_required_section", JNull)]%string.

Definition review_final_markdown_write (ctx_usage : TokenUsage) (a : FinalWriteArgs)
    (w : World) : World * outcome :=
  let w := record_tool "review_final_markdown_write" w in
  let attempt_no := default 0 (get (tool_counts (rt w)) (lit "review_final_markdown_write")) in
  let section_order := _required_final_report_section_order in
  let normalized_source :=
    let t := strip (str_or_empty (source a)) in
    if nonempty t then t else lit "review_annotation_agent" in
  if truthy_opt (final_markdown_text (rt w)) then
    let w := sync_state_usage (Some ctx_usage) w in
    (w, Returned (already_persisted w))
  else
    match read_arguments a with
    | Rejected p => _return_final_write_failure ctx_usage attempt_no p w
    | Contributed incoming_sections requested_section_id =>
        let draft_sections :=
          _normalize_final_report_sections (final_report_draft_sections (rt w)) in
        let has_new_sections := match incoming_sections with [] => false | _ => true end in
        let draft_sections :=
          if has_new_sections then update draft_sections incoming_sections
          else draft_sections in
        match draft_sections with
        | [] =>
            _return_final_write_failure ctx_usage attempt_no
              (final_write_error "section_payload_required"
                 ++ retry_hint (lit "summary") "Write the summary section in markdown.") w
        | _ =>
            let bumped :=
              if has_new_sections then final_report_draft_version (rt w) + 1
              else final_report_draft_version (rt w) in
            let draft_version := Z.max 1 bumped in
            let w := set_rt (rt_with_draft draft_sections draft_version) w in
            let current_section_id :=
              if truthy_opt requested_section_id then requested_section_id
              else if has_new_sections
                   then find (fun candidate => mem incoming_sections candidate) section_order
                   else requested_section_id in
            save_or_commit ctx_usage attempt_no normalized_source draft_sections
              draft_version current_section_id w
        end
    end.

End WithExternals.

End Tools.

(** ** A run of the agent: a sequence of tool calls on one runtime context *)

(** One tool call, with its arguments and with what the outside world
    answered during the call: the token counters of the agent framework
    ([ctx.usage]), the identifier drawn for a new annotation, the result of
    the paper adapter. *)
Inductive tool_call : Type :=
| CallStatusUpdate (ctx_usage : TokenUsage) (step : str) (completed_ blocked todo : option str)
| CallPdfSearch (ctx_usage : TokenUsage) (query : str) (top_k : Z)
| CallPdfReadLines (ctx_usage : TokenUsage) (page start_line end_line : Z)
| CallPdfJump (ctx_usage : TokenUsage) (page : Z)
| CallPdfAnnotate (ctx_usage : TokenUsage) (uuid : str) (page start_line end_line : Z)
    (comment : str) (summary_ : option str) (object_type : str) (severity : option str)
| CallPaperSearch (ctx_usage : TokenUsage) (adapter_result : odict json + str)
    (query : option str) (question_list : question_arg)
| CallReadPaper (ctx_usage : TokenUsage) (adapter_result : option (odict json))
    (items : list json)
| CallQuestionPrompt (ctx_usage : TokenUsage) (question : str) (options : option (list str))
| CallFinalWrite (ctx_usage : TokenUsage) (a : Tools.FinalWriteArgs).

Definition run_tool (E : Externals) (c : tool_call) (w : World) : World * outcome :=
  match c with
  | CallStatusUpdate u step completed_ blocked todo =>
      Tools.mcp_status_update u step completed_ blocked todo w
  | CallPdfSearch u query top_k => Tools.pdf_search u query top_k w
  | CallPdfReadLines u page s e => Tools.pdf_read_lines u page s e w
  | CallPdfJump u page => Tools.pdf_jump u page w
  | CallPdfAnnotate u uuid page s e comment summary_ object_type severity =>
      Tools.pdf_annotate u uuid page s e comment summary_ object_type severity w
  | CallPaperSearch u adapter_result query question_list =>
      Tools.paper_search E u adapter_result query question_list w
  | CallReadPaper u adapter_result items => Tools.read_paper u adapter_result items w
  | CallQuestionPrompt u question options => Tools.question_prompt u question options w
  | CallFinalWrite u a => Tools.review_final_markdown_write E u a w
  end.

(** The world after a sequence of calls; an exception that leaves a tool is
    handled by the agent framework and the run goes on. *)
Definition run (E : Externals) (calls : list tool_call) (w : World) : World :=
  fold_left (fun w c => fst (run_tool E c w)) calls w.

(** The runtime context as [run_job_async] creates it. *)
Definition fresh_runtime (dir : str) (index : gmap Z (list str)) (cfg : Settings)
    : ReviewRuntimeContext :=
  {| job_dir := dir; page_index := index; settings := cfg; annotations := [];
     final_markdown_text := None; final_report_draft_sections := [];
     final_report_draft_version := 0; tool_counts := [];
     paper_search_usage :=
       {| total_calls := 0; successful_calls := 0; effective_calls := 0;
          papers_found := 0; distinct_queries := 0 |};
     paper_search_signatures := ∅; status_updates := [] |}.

(** The world at the start of the agent stage: a fresh runtime context, the
    job record and the job directory as they are then. *)
Definition fresh_world (dir : str) (index : gmap Z (list str)) (cfg : Settings)
    (j : JobState) (disk : gmap str str) (log : list Event) : World :=
  {| rt := fresh_runtime dir index cfg; job := j; disk_files := disk;
     disk_write_log := []; disk_annotations := None; events := log |}.

(** The number of events of a given name in a log. *)
Definition count_events (name : string) (log : list Event) : nat :=
  length (List.filter (fun e => PyStr.eqb (event e) (lit name)) log).

(** ** Sample data *)

(** The defaults of [Settings] in [deepreview/config.py]. *)
Definition default_settings : Settings :=
  {| enable_final_gates := false;
     min_paper_search_calls_for_pdf_annotate := 3;
     min_paper_search_calls_for_final := 3;
     min_distinct_paper_queries_for_final := 3;
     min_annotations_for_final := 10;
     min_english_words_for_final := 0;
     min_chinese_chars_for_final := 0;
     force_english_output := true;
     agent_model := lit "gpt-5.2" |}.

Definition zero_tokens : TokenUsage :=
  {| requests := 0; input_tokens := 0; output_tokens := 0; total_tokens := 0 |}.

(** A job record as [_create_job] leaves it, in status [agent_running]. *)
Definition sample_job : JobState :=
  {| title := lit "paper"; source_pdf_name := lit "paper.pdf"; status := agent_running;
     job_message := lit "Running review agent with tool loop..."; error := None;
     usage :=
       {| token := zero_tokens;
          tool := {| tool_total_calls := 0; distinct_tools := 0; per_tool := [] |};
          paper_search_snapshot :=
            {| total_calls := 0; successful_calls := 0; effective_calls := 0;
               papers_found := 0; distinct_queries := 0 |} |};
     annotation_count := 0; final_report_ready := false; pdf_ready := false;
     artifacts :=
       {| source_pdf_path := Some (lit "/data/jobs/j1/source.pdf");
          mineru_markdown_path := Some (lit "/data/jobs/j1/mineru_full.md");
          mineru_content_list_path := None;
          annotations_path := Some (lit "/data/jobs/j1/annotations.json");
          final_markdown_path := None; report_pdf_path := None;
          prompt_snapshot_path := Some (lit "/data/jobs/j1/agent_prompt.txt") |};
     metadata := [] |}.

(** A two-page index. *)
Definition sample_index : gmap Z (list str) :=
  <[1 := [lit "Deep learning for review"; lit "We study deep review models."]]>
    (<[2 := [lit "Results"; lit "Deep models win; deep deep."]]> ∅).

Definition sample_world : World :=
  fresh_world (lit "/data/jobs/j1") sample_index default_settings sample_job ∅ [].

(** An instance of the outside functions for the worked examples: every
    example below stays on paths that do not call them, or that go the same
    way whatever they answer. *)
Definition sample_externals : Externals :=
  {| str_other := fun _ => [];
     int_other := fun _ => None;
     json_loads := fun _ => None;
     validate_final_report := fun _ _ _ _ =>
       {| ok := true; reason := None; message := lit "ok";
          language_stats :=
            {| primary_language := lit "en"; english_words := 0; chinese_chars := 0;
               english_ratio := 0%float; chinese_ratio := 0%float |};
          missing_sections := [] |} |}.

(** A call of [review_final_markdown_write] in section mode. *)
Definition section_call (id content : string) : Tools.FinalWriteArgs :=
  {| Tools.markdown := None; Tools.summary := None; Tools.strengths := VNone;
     Tools.weaknesses := VNone; Tools.issues := VNone; Tools.suggestions := VNone;
     Tools.storylines := VNone; Tools.section_id := Some (lit id);
     Tools.section_title := None; Tools.section_content := VStr (lit content);
     Tools.source := None |}.


(** The eleven section-mode calls of the happy path. *)
Definition eleven_sections : list tool_call :=
  map (fun id => CallFinalWrite zero_tokens
                   {| Tools.markdown := None; Tools.summary := None; Tools.strengths := VNone;
                      Tools.weaknesses := VNone; Tools.issues := VNone;
                      Tools.suggestions := VNone; Tools.storylines := VNone;
                      Tools.section_id := Some id; Tools.section_title := None;
                      Tools.section_content := VStr (lit "X"); Tools.source := None |})
    _required_final_report_section_order.

(** The sample world after the eleven calls: the report is committed. *)
Definition committed_world : World := run sample_externals eleven_sections sample_world.

Definition reason_of (o : outcome) : option json :=
  match o with
  | Returned p => field p "reason"
  | Raised => None
  end.

Definition status_of (o : outcome) : option json :=
  match o with
  | Returned p => field p "status"
  | Raised => None
  end.

(** ** The recovery of the job controller after an exception
    ([deepreview/runner.py]) *)

Module Runner.

Section WithExternals.

Context (E : Externals).

(** [ensure_artifact_paths(job_id)[name]] for the job directory [root]. *)
Definition artifact_path (root : str) (name : string) : str := root ++ lit "/" ++ lit name.

(** [path.exists()]. *)
Definition file_exists (d : JobDir) (path : str) : bool :=
  match files d !! path with
  | Some _ => true
  | None => false
  end.

Definition dir_append_event (name : string) (fields : list (string * json)) (d : JobDir)
    : JobDir :=
  {| job_json := job_json d; files := files d; write_log := write_log d;
     annotations_json := annotations_json d;
     events_jsonl := events_jsonl d ++ [{| event := lit name;
                                           extra := map (fun kv => (lit (fst kv), snd kv)) fields |}] |}.

Definition dir_write (path : str) (content : str) (d : JobDir) : JobDir :=
  {| job_json := job_json d; files := <[path := content]> (files d);
     write_log := write_log d ++ [path]; annotations_json := annotations_json d;
     events_jsonl := events_jsonl d |}.

Definition dir_set_job (j : JobState) (d : JobDir) : JobDir :=
  {| job_json := Some j; files := files d; write_log := write_log d;
     annotations_json := annotations_json d; events_jsonl := events_jsonl d |}.

(** [_render_report_pdf]: [builder_result] is what [build_review_report_pdf]
    returned (the bytes of the PDF), or the text of the exception it raised.
    The result is the job directory after the export, or the exception. *)
Definition _render_report_pdf (builder_result : str + str) (report_pdf_path : str)
    (annotation_rows content_rows : Z) (d : JobDir) : JobDir + str :=
  match builder_result with
  | inr exn_text => inr exn_text
  | inl report_pdf_bytes =>
      let d := dir_write report_pdf_path report_pdf_bytes d in
      inl (dir_append_event "pdf_export_rendered"
             [("source_annotations_input_count", JInt annotation_rows);
              ("content_list_count", JInt content_rows);
              ("report_pdf_size_bytes", JInt (Z.of_nat (length report_pdf_bytes)))]%string d)
  end.

(** [Path(state.artifacts.final_markdown_path or artifacts['final_markdown'])]. *)
Definition final_md_path_of (root : str) (state : JobState) : str :=
  if truthy_opt (final_markdown_path (artifacts state))
  then default [] (final_markdown_path (artifacts state))
  else artifact_path root "final_report.md".

(** [Path(state.artifacts.report_pdf_path or artifacts['report_pdf'])]. *)
Definition report_pdf_path_of (root : str) (state : JobState) : str :=
  if truthy_opt (report_pdf_path (artifacts state))
  then default [] (report_pdf_path (artifacts state))
  else artifact_path root "final_report.pdf".

Definition has_persist_marker (state : JobState) : bool :=
  final_report_ready state
  || nonempty (strip (str_or_empty (final_markdown_path (artifacts state))))
  || nonempty (strip (py_str E (py_or (default JNull (get (metadata state)
                                                        (lit "final_report_source")))
                                  (JStr [])))).

(** What [_complete_with_existing_final_report] did: the job directory it
    leaves, its answer, and whether it called [_render_report_pdf]. *)
Record recovery : Type := {
  after : JobDir;
  recovered : bool;
  export_attempted : bool;
}.

Definition apply_completed (final_md_path the_report_pdf_path : str) (pdf_exists : bool)
    (pdf_error : option str) (warning : str) (state_obj : JobState) : JobState :=
  let md := metadata state_obj in
  let md := set md (lit "post_exception_recovery") (JBool true) in
  let md := set md (lit "post_exception_warning") (JStr warning) in
  let md :=
    if truthy_opt pdf_error
    then set md (lit "pdf_export_recovery_error") (jopt pdf_error) else md in
  {| title := title state_obj; source_pdf_name := source_pdf_name state_obj;
     status := completed;
     job_message :=
       match pdf_error with
       | None => lit "Review pipeline completed via recovery after post-write exception."
       | Some _ => lit "Final report persisted, but PDF export failed during recovery."
       end;
     error := pdf_error; usage := usage state_obj;
     annotation_count := annotation_count state_obj; final_report_ready := true;
     pdf_ready := pdf_exists;
     artifacts :=
       artifacts_with_report_paths (Some final_md_path)
         (if pdf_exists then Some the_report_pdf_path else None) (artifacts state_obj);
     metadata := md |}.

(** [_complete_with_existing_final_report(job_id, warning=warning)] for the
    job directory [root]; [annotation_rows] and [content_rows] are the sizes
    of the annotation and content lists read back for the export. *)
Definition _complete_with_existing_final_report (root : str) (builder_result : str + str)
    (annotation_rows content_rows : Z) (warning : str) (d : JobDir) : recovery :=
  match job_json d with
  | None => {| after := d; recovered := false; export_attempted := false |}
  | Some state =>
      let final_md_path := final_md_path_of root state in
      if negb (file_exists d final_md_path) then
        {| after := d; recovered := false; export_attempted := false |}
      else if negb (has_persist_marker state) then
        {| after :=
             dir_append_event "completed_recovery_skipped"
               [("warning", JStr warning);
                ("reason", jstr "final_markdown_exists_without_persist_marker")]%string d;
           recovered := false; export_attempted := false |}
      else
        let the_report_pdf_path := report_pdf_path_of root state in
        let attempt := negb (file_exists d the_report_pdf_path) in
        let '(d, pdf_error) :=
          if attempt then
            match _render_report_pdf builder_result the_report_pdf_path
                    annotation_rows content_rows d with
            | inl d' => (d', None)
            | inr exn_text => (d, Some exn_text)
            end
          else (d, None) in
        let pdf_exists := file_exists d the_report_pdf_path in
        let d :=
          dir_set_job
            (apply_completed final_md_path the_report_pdf_path pdf_exists pdf_error warning
               (default state (job_json d))) d in
        let d :=
          dir_append_event "completed_recovered"
            [("warning", JStr warning); ("pdf_ready", JBool pdf_exists);
             ("pdf_error", jopt pdf_error)]%string d in
        {| after := d; recovered := true; export_attempted := attempt |}
  end.

(** [fail_job(job_id, message=..., error=...)]; [None] when [job.json] is
    missing and [update_job_state] raises. *)
Definition fail_job (message_ error_ : str) (d : JobDir) : option JobDir :=
  match job_json d with
  | None => None
  | Some j =>
      let j :=
        {| title := title j; source_pdf_name := source_pdf_name j; status := failed;
           job_message := message_; error := Some error_; usage := usage j;
           annotation_count := annotation_count j;
           final_report_ready := final_report_ready j; pdf_ready := pdf_ready j;
           artifacts := artifacts j; metadata := metadata j |} in
      Some (dir_append_event "failed"
              [("message", JStr message_); ("error", JStr error_)]%string (dir_set_job j d))
  end.

(** The [except] branch of [run_job]: [d] is the job directory as the
    pipeline left it when the exception [detail] (with its stack trace
    [stack]) left [run_job_async]. The result is the job directory at the
    end of [run_job] and what the recovery did; [None] when [fail_job]
    raises. *)
Definition run_job_after_exception (root : str) (builder_result : str + str)
    (annotation_rows content_rows : Z) (detail stack : str) (d : JobDir)
    : option JobDir * recovery :=
  let d := dir_append_event "pipeline_exception"
             [("error", JStr detail); ("stack", JStr stack)]%string d in
  let r := _complete_with_existing_final_report root builder_result annotation_rows
             content_rows detail d in
  if recovered r then (Some (after r), r)
  else (fail_job (lit "Review pipeline failed.") detail (after r), r).

End WithExternals.

End Runner.

(** The job directory of the sample job once the report is committed. *)
Definition committed_dir : JobDir :=
  {| job_json := Some (job committed_world); files := disk_files committed_world;
     write_log := disk_write_log committed_world;
     annotations_json := disk_annotations committed_world;
     events_jsonl := events committed_world |}.


(** A directory that holds a final markdown file which no record accounts
    for. *)
Definition stray_markdown_dir : JobDir :=
  {| job_json := Some sample_job;
     files := <[lit "/data/jobs/j1/final_report.md" := lit "## Summary"]> ∅;
     write_log := []; annotations_json := None; events_jsonl := [] |}.


(** A search result that reports back one empty question. *)
Definition result_with_empty_question : odict json :=
  [(lit "success", JBool true); (lit "questions", JList [JStr []])].

(** A section map whose summary holds a sub-heading. *)
Definition map_with_subheading : odict str :=
  [(lit "summary", lit "a" ++ [LF] ++ lit "### Notes" ++ [LF] ++ lit "b")].

(** A section map with two plain sections. *)
Definition plain_map : odict str :=
  [(lit "scores", lit "overall: 7"); (lit "summary", lit "a" ++ [LF] ++ lit "b")].

(** ** Further sample data *)

(** The sample world after the first ten section-mode calls: only the
    scores are missing. *)
Definition ten_sections_world : World :=
  run sample_externals (firstn 10 eleven_sections) sample_world.

(** The job directory of the sample job before any report file is written. *)
Definition draft_dir : JobDir :=
  {| job_json := Some sample_job; files := ∅; write_log := [];
     annotations_json := None; events_jsonl := [] |}.

(** ** The vocabulary of the statements *)

(** A string that neither starts nor ends with a character of the class. *)
Definition trimmed (p : ascii -> bool) (s : str) : Prop :=
  (forall c r, s = c :: r -> p c = false) /\ (forall r c, s = r ++ [c] -> p c = false).

(** A section has content in a draft. *)
Definition has_content (draft_sections : odict str) (key : str) : Prop :=
  strip (default [] (get draft_sections key)) <> [].


(** The report has been committed in this runtime context. *)
Definition committed (w : World) : bool := truthy_opt (final_markdown_text (rt w)).

(** The number of [final_report_persisted] events in the log. *)
Definition persisted (w : World) : nat := count_events "final_report_persisted" (events w).

(** What a call may do to the commit: nothing, or commit once. *)
Definition commit_step (w w' : World) : Prop :=
  (committed w' = committed w /\ persisted w' = persisted w)
  \/ (committed w = false /\ committed w' = true /\ persisted w' = S (persisted w)).

(** The invariant of a run, relative to the number [base] of
    [final_report_persisted] events the log held when the run began. *)
Definition commit_invariant (base : nat) (w : World) : Prop :=
  if committed w then (persisted w <= S base)%nat else persisted w = base.

(** The result [paper_search] works on: the adapter's, or the one built when
    the adapter raised. *)
Definition search_result (E : Externals) (adapter_result : odict json + str)
    (query : option str) (question_list : question_arg) : odict json :=
  match adapter_result with
  | inl result => result
  | inr exn_text =>
      Tools.search_failure_result exn_text (strip (str_or_empty query))
        (Tools.normalize_question_list E question_list)
  end.

(** The result marks success. *)
Definition marks_success (result : odict json) : bool := truthy (jget result "success").

(** The queries and questions one [paper_search] call meets: the query, the
    normalized input questions, the questions the result reports back and
    the question of each of its result groups. *)
Definition encountered (E : Externals) (adapter_result : odict json + str)
    (query : option str) (question_list : question_arg) : list str :=
  let result := search_result E adapter_result query question_list in
  (if nonempty (strip (str_or_empty query)) then [strip (str_or_empty query)] else [])
  ++ Tools.normalize_question_list E question_list
  ++ Tools.discovered_questions E result
  ++ Tools.grouped_questions E result.

(** The queries and questions met by the [paper_search] calls of a run. *)
Definition encountered_in_run (E : Externals) (calls : list tool_call) : list str :=
  flat_map
    (fun c =>
       match c with
       | CallPaperSearch _ adapter_result query question_list =>
           encountered E adapter_result query question_list
       | _ => []
       end)
    calls.

(** The set of the normalized signatures of a list of queries. *)
Definition signature_set (texts : list str) : gset str :=
  list_to_set (map _normalize_signature texts).

(** The order of the hits of [pdf_search]: score descending, then page
    ascending, then line ascending. *)
Definition hit_before (a b : Z * Z * Z * str) : Prop :=
  let '(s1, p1, l1, _) := a in
  let '(s2, p2, l2, _) := b in
  s2 < s1 \/ (s1 = s2 /\ (p1 < p2 \/ (p1 = p2 /\ l1 <= l2))).

(** [clamp(x, lo, hi)]. *)
Definition clamp (x lo hi : Z) : Z := Z.max lo (Z.min hi x).

(** The most hits a call may return: [clamp(top_k, 1, 50)], and 8 when
    [top_k] is 0. *)
Definition hit_bound (top_k : Z) : Z :=
  if top_k =? 0 then 8 else clamp top_k 1 50.

(** A hit is a line of the index with its score for the query. *)
Definition hit_of_index (index : gmap Z (list str)) (text : str) (h : Z * Z * Z * str) : Prop :=
  let '(s, p, l, t) := h in
  (exists lines, index !! p = Some lines /\ 1 <= l /\ lines !! Z.to_nat (l - 1) = Some t)
  /\ Tools.line_score text t = Some s
  /\ 1 <= s.

(** The only line boundary a text uses is LF. *)
Definition lf_only (s : str) : Prop :=
  Forall (fun c => is_linebreak c = true -> c = LF) s.

(** The last character of a non-empty string is not a line boundary. *)
Definition open_ended (s : str) : Prop :=
  exists r c, s = r ++ [c] /\ is_linebreak c = false.

(** A text with no line that the heading pattern matches. *)
Definition no_heading_line (s : str) : Prop :=
  Forall (fun line => heading_match line = None) (splitlines s).

(** A section map as the round trip takes it: its keys are required section
    ids and each content is non-empty, stripped, broken into lines by LF
    only, and free of heading lines. *)
Definition plain_section_map (M : odict str) : Prop :=
  forall k v,
    get M k = Some v ->
    k ∈ _required_final_report_section_order
    /\ v <> [] /\ strip v = v /\ lf_only v /\ no_heading_line v.

(** The required sections with content in a map, each with its stripped
    content, in the canonical order. *)
Definition present_sections (M : odict str) : list (str * str) :=
  omap
    (fun id =>
       let content := strip (default [] (get M id)) in
       if nonempty content then Some (id, content) else None)
    _required_final_report_section_order.

(** The heading line of a section in the assembled report. *)
Definition heading_of (id : str) : str := lit "## " ++ title_of id.

(** The block of a section in the assembled report. *)
Definition block_of (e : str * str) : str := heading_of (fst e) ++ LF :: snd e.

(** The heading line of a required section is one line, is recognised by
    the heading pattern and resolves to the section. *)
Definition heading_resolves (id : str) : bool :=
  nonempty id
  && forallb (fun c => negb (is_linebreak c)) (heading_of id)
  && match heading_match (heading_of id) with
     | Some heading_text =>
         match _resolve_final_report_section_id heading_text with
         | Some resolved => PyStr.eqb resolved id
         | None => false
         end
     | None => false
     end.

(** The lines of the assembled blocks, a blank line between two blocks. *)
Fixpoint block_lines (es : list (str * str)) : list str :=
  match es with
  | [] => []
  | [e] => heading_of (fst e) :: splitlines (snd e)
  | e :: rest => (heading_of (fst e) :: splitlines (snd e)) ++ [[]] ++ block_lines rest
  end.

(** The buffers the scan fills from those lines. *)
Fixpoint block_buffers (es : list (str * str)) : odict (list str) :=
  match es with
  | [] => []
  | [e] => [(fst e, splitlines (snd e))]
  | e :: rest => (fst e, splitlines (snd e) ++ [[]]) :: block_buffers rest
  end.

(** A content as the round trip takes it. *)
Definition plain_content (v : str) : Prop :=
  v <> [] /\ strip v = v /\ lf_only v /\ no_heading_line v.

(** The sections of a list of ids that have content in a map. *)
Definition present_in (M : odict str) (ids : list str) : list (str * str) :=
  omap
    (fun id =>
       let content := strip (default [] (get M id)) in
       if nonempty content then Some (id, content) else None)
    ids.

(** An entry of the assembled report: a required section whose heading is
    recognised, with a plain content. *)
Definition plain_entry (e : str * str) : Prop :=
  heading_resolves (fst e) = true /\ plain_content (snd e).

(** One step of the final loop of
    [_extract_required_sections_from_markdown]. *)
Definition collect_step (extracted : odict str) (kv : str * list str) : odict str :=
  let content := strip (join [LF] (snd kv)) in
  if nonempty content then set extracted (fst kv) content else extracted.

(** ** The vocabulary of the further properties *)

(** A character that is not whitespace. *)
Definition nonspace (c : ascii) : bool := negb (isspace c).

(** A lower-case ASCII letter or a digit. *)
Definition is_lower_alnum (c : ascii) : bool :=
  let n := code c in
  (((48 <=? n) && (n <=? 57)) || ((97 <=? n) && (n <=? 122)))%N.

(** A word over a class of characters: not empty, every character in the
    class. *)
Definition word_of (p : ascii -> bool) (w : str) : Prop :=
  w <> [] /\ Forall (fun c => p c = true) w.

(** A lower-case ASCII letter, a digit or the space character. *)
Definition plain_char (c : ascii) : bool := is_lower_alnum c || Ascii.eqb c " "%char.

(** A section map in normal form: its keys are distinct required section
    ids and each content is non-empty and stripped. *)
Definition wellformed_sections (S : odict str) : Prop :=
  NoDup (keys S)
  /\ Forall (fun kv => fst kv ∈ _required_final_report_section_order
                       /\ snd kv <> [] /\ strip (snd kv) = snd kv) S.

(** The name under which a tool call is counted. *)
Definition tool_name (c : tool_call) : string :=
  match c with
  | CallStatusUpdate _ _ _ _ _ => "mcp_status_update"
  | CallPdfSearch _ _ _ => "pdf_search"
  | CallPdfReadLines _ _ _ _ => "pdf_read_lines"
  | CallPdfJump _ _ => "pdf_jump"
  | CallPdfAnnotate _ _ _ _ _ _ _ _ _ => "pdf_annotate"
  | CallPaperSearch _ _ _ _ => "paper_search"
  | CallReadPaper _ _ _ => "read_paper"
  | CallQuestionPrompt _ _ _ => "question_prompt"
  | CallFinalWrite _ _ => "review_final_markdown_write"
  end.

(** The token counters a tool call hands over ([ctx.usage]). *)
Definition tool_tokens (c : tool_call) : TokenUsage :=
  match c with
  | CallStatusUpdate u _ _ _ _ | CallPdfSearch u _ _ | CallPdfReadLines u _ _ _
  | CallPdfJump u _ | CallPdfAnnotate u _ _ _ _ _ _ _ _ | CallPaperSearch u _ _ _
  | CallReadPaper u _ _ | CallQuestionPrompt u _ _ | CallFinalWrite u _ => u
  end.

(** The calls of a run that go to the tool of a given name. *)
Definition calls_named (name : string) (calls : list tool_call) : nat :=
  length (List.filter (fun c => String.eqb (tool_name c) name) calls).

(** [tool_counts.get(name, 0)] and the sum of the counters. *)
Definition counter (counts : odict Z) (name : string) : Z :=
  default 0 (get counts (lit name)).

Definition counters_total (counts : odict Z) : Z := fold_right Z.add 0 (map snd counts).

(** The usage section of the job record mirrors the runtime context. *)
Definition usage_synced (tokens : TokenUsage) (w : World) : Prop :=
  per_tool (tool (usage (job w))) = tool_counts (rt w)
  /\ tool_total_calls (tool (usage (job w))) = counters_total (tool_counts (rt w))
  /\ distinct_tools (tool (usage (job w))) = Z.of_nat (length (tool_counts (rt w)))
  /\ paper_search_snapshot (usage (job w)) = paper_search_usage (rt w)
  /\ annotation_count (job w) = Z.of_nat (length (annotations (rt w)))
  /\ token (usage (job w)) = tokens.

(** The tools that only look something up. *)
Definition is_lookup (c : tool_call) : bool :=
  match c with
  | CallPdfSearch _ _ _ | CallPdfReadLines _ _ _ _ | CallPdfJump _ _
  | CallQuestionPrompt _ _ _ => true
  | _ => false
  end.

(** What a tool call leaves of the world when it only counts itself: the
    runtime context but for the tool counters, the job record but for its
    usage section and its annotation count, the files and the event log. *)
Definition only_counted (w w' : World) : Prop :=
  annotations (rt w') = annotations (rt w)
  /\ final_report_draft_sections (rt w') = final_report_draft_sections (rt w)
  /\ final_report_draft_version (rt w') = final_report_draft_version (rt w)
  /\ final_markdown_text (rt w') = final_markdown_text (rt w)
  /\ paper_search_usage (rt w') = paper_search_usage (rt w)
  /\ paper_search_signatures (rt w') = paper_search_signatures (rt w)
  /\ status_updates (rt w') = status_updates (rt w)
  /\ page_index (rt w') = page_index (rt w)
  /\ settings (rt w') = settings (rt w)
  /\ status (job w') = status (job w)
  /\ job_message (job w') = job_message (job w)
  /\ error (job w') = error (job w)
  /\ final_report_ready (job w') = final_report_ready (job w)
  /\ artifacts (job w') = artifacts (job w)
  /\ metadata (job w') = metadata (job w)
  /\ disk_files w' = disk_files w
  /\ disk_write_log w' = disk_write_log w
  /\ disk_annotations w' = disk_annotations w
  /\ events w' = events w.

(** One row of the [lines] field of [pdf_read_lines]. *)
Definition line_row (row : Z * str) : json :=
  jfields [("line", JInt (fst row)); ("text", JStr (snd row))]%string.

(** An annotation that points into the page index: its page has lines, its
    line range lies within them, its text is the stripped text of that
    range and is not empty, its comment is stripped and not empty, and it
    has an object type. *)
Definition valid_annotation (index : gmap Z (list str)) (a : AnnotationItem) : Prop :=
  exists lines,
    index !! ann_page a = Some lines
    /\ 1 <= ann_start_line a /\ ann_start_line a <= ann_end_line a
    /\ ann_end_line a <= Z.of_nat (length lines)
    /\ ann_text a = strip (join [LF] (slice lines (ann_start_line a - 1) (ann_end_line a)))
    /\ ann_text a <> []
    /\ ann_comment a <> [] /\ strip (ann_comment a) = ann_comment a
    /\ ann_object_type a <> [].

(** The file of annotations holds the annotations of the runtime context:
    it is missing while there is none, and holds them all afterwards. *)
Definition annotations_persisted (w : World) : Prop :=
  (annotations (rt w) = [] /\ disk_annotations w = None)
  \/ disk_annotations w = Some (annotations (rt w)).

(** The draft a contributing call of [review_final_markdown_write] stores:
    the normalized old draft, updated with the incoming sections. *)
Definition merged_draft (old incoming_sections : odict str) : odict str :=
  match incoming_sections with
  | [] => _normalize_final_report_sections old
  | _ => update (_normalize_final_report_sections old) incoming_sections
  end.

(** The gates of the final commit let the report through: they are switched
    off, or the paper-search calls, the distinct queries and the annotations
    reach their minimum and the report passes the validation. *)
Definition gates_open (E : Externals) (w : World) (markdown_text : str) : bool :=
  let cfg := settings (rt w) in
  let u := paper_search_usage (rt w) in
  negb (enable_final_gates cfg)
  || ((Z.max 0 (min_paper_search_calls_for_final cfg) <=? total_calls u)
      && (Z.max 0 (min_distinct_paper_queries_for_final cfg) <=? distinct_queries u)
      && (Z.max 1 (min_annotations_for_final cfg) <=? Z.of_nat (length (annotations (rt w))))
      && ok (validate_final_report E markdown_text (min_english_words_for_final cfg)
               (min_chinese_chars_for_final cfg) (force_english_output cfg))).

(** The final report is committed in [w'], starting from [w]: the text is
    held by the runtime context and written to [final_report.md], the job
    record is marked ready and points to the file, and one
    [final_report_persisted] event is logged. *)
Definition commits (text : str) (w w' : World) : Prop :=
  final_markdown_text (rt w') = Some text
  /\ disk_files w' = <[Tools.final_report_path (rt w) := text]> (disk_files w)
  /\ disk_write_log w' = disk_write_log w ++ [Tools.final_report_path (rt w)]
  /\ final_report_ready (job w') = true
  /\ final_markdown_path (artifacts (job w')) = Some (Tools.final_report_path (rt w))
  /\ count_events "final_report_persisted" (events w')
     = S (count_events "final_report_persisted" (events w)).

(** Nothing is committed in [w'], starting from [w]. *)
Definition commits_nothing (w w' : World) : Prop :=
  final_markdown_text (rt w') = final_markdown_text (rt w)
  /\ disk_files w' = disk_files w
  /\ disk_write_log w' = disk_write_log w
  /\ final_report_ready (job w') = final_report_ready (job w)
  /\ artifacts (job w') = artifacts (job w)
  /\ count_events "final_report_persisted" (events w')
     = count_events "final_report_persisted" (events w).

(** A tool call leaves the committed report as it is: the text held by the
    runtime context, the files, and what the job record says of the
    report. *)
Definition keeps_report (w w' : World) : Prop :=
  final_markdown_text (rt w') = final_markdown_text (rt w)
  /\ disk_files w' = disk_files w
  /\ disk_write_log w' = disk_write_log w
  /\ final_report_ready (job w') = final_report_ready (job w)
  /\ artifacts (job w') = artifacts (job w).

(** The state of the final report in a world of a run that started in the
    job directory [dir] with the files [disk]: once a text is committed it
    is not empty, it is the assembly of the stored draft, which misses no
    section, it is the content of [final_report.md], which is the only
    file written, and the job record is marked ready and points to the
    file; before that, no file has been written. *)
Definition report_state (dir : str) (disk : gmap str str) (w : World) : Prop :=
  match final_markdown_text (rt w) with
  | Some text =>
      text <> []
      /\ text = _build_final_report_markdown_from_sections (final_report_draft_sections (rt w))
      /\ Tools.missing_section_ids (final_report_draft_sections (rt w)) = []
      /\ disk_files w = <[dir ++ lit "/final_report.md" := text]> disk
      /\ disk_write_log w = [dir ++ lit "/final_report.md"]
      /\ final_report_ready (job w) = true
      /\ final_markdown_path (artifacts (job w)) = Some (dir ++ lit "/final_report.md")
  | None => disk_files w = disk /\ disk_write_log w = []
  end.

(** * Properties *)

(** ** Strings *)

Lemma nonempty_true (s : str) : nonempty s = true <-> s <> [].
Proof. destruct s; simpl; split; congruence. Qed.

Lemma nonempty_false (s : str) : nonempty s = false <-> s = [].
Proof. destruct s; simpl; split; congruence. Qed.

Lemma eqb_eq (a b : str) : PyStr.eqb a b = true <-> a = b.
Proof.
  revert b. induction a as [|x a IH]; intros [|y b]; simpl; try (split; congruence).
  rewrite andb_true_iff, Ascii.eqb_eq, IH. split; [ intros [-> ->]; reflexivity | ].
  intros H; inversion H; auto.
Qed.

Lemma eqb_refl (a : str) : PyStr.eqb a a = true.
Proof. now apply eqb_eq. Qed.

Lemma eqb_neq (a b : str) : a <> b -> PyStr.eqb a b = false.
Proof.
  intros H. destruct (PyStr.eqb a b) eqn:E; [ | reflexivity ].
  apply eqb_eq in E. contradiction.
Qed.

Lemma mem_str_In (x : str) (l : list str) : mem_str x l = true <-> x ∈ l.
Proof.
  unfold mem_str. rewrite existsb_exists, list_elem_of_In. split.
  - intros (y & Hy & Hxy). apply eqb_eq in Hxy. now subst.
  - intros H. exists x. split; [ exact H | apply eqb_refl ].
Qed.

(** *** Stripping *)

Lemma lstrip_by_head p s c r : lstrip_by p s = c :: r -> p c = false.
Proof.
  induction s as [|x s IH]; simpl; [ discriminate | ].
  destruct (p x) eqn:Hx; [ exact IH | ].
  intros H; inversion H; subst; exact Hx.
Qed.

Lemma lstrip_by_fixed p s : (forall c r, s = c :: r -> p c = false) -> lstrip_by p s = s.
Proof.
  destruct s as [|x s]; [ reflexivity | ]. intros H. simpl.
  now rewrite (H x s eq_refl).
Qed.

Lemma lstrip_by_idem p s : lstrip_by p (lstrip_by p s) = lstrip_by p s.
Proof.
  apply lstrip_by_fixed. intros c r H. eapply lstrip_by_head, H.
Qed.

Lemma rstrip_by_snoc p s c :
  rstrip_by p (s ++ [c]) = if p c then rstrip_by p s else s ++ [c].
Proof.
  induction s as [|x s IH]; simpl.
  - destruct (p c); reflexivity.
  - rewrite IH. destruct (p c) eqn:Hc; [ reflexivity | ].
    destruct (s ++ [c]) eqn:E; [ | reflexivity ].
    destruct s; discriminate.
Qed.

Lemma rstrip_by_rev p s : rstrip_by p s = rev (lstrip_by p (rev s)).
Proof.
  induction s as [|c s IH] using rev_ind; [ reflexivity | ].
  rewrite rstrip_by_snoc, rev_app_distr. simpl.
  destruct (p c); [ exact IH | ].
  simpl. now rewrite rev_involutive.
Qed.

Lemma rstrip_by_idem p s : rstrip_by p (rstrip_by p s) = rstrip_by p s.
Proof. now rewrite !rstrip_by_rev, rev_involutive, lstrip_by_idem. Qed.

Lemma lstrip_by_suffix p s : exists pre, s = pre ++ lstrip_by p s /\ forallb p pre = true.
Proof.
  induction s as [|x s (pre & Hs & Hp)]; simpl.
  - now exists [].
  - destruct (p x) eqn:Hx.
    + exists (x :: pre). simpl. rewrite Hx, Hp. split; [ now f_equal | reflexivity ].
    + now exists [].
Qed.

Lemma rstrip_by_last p s r c : rstrip_by p s = r ++ [c] -> p c = false.
Proof.
  rewrite rstrip_by_rev. intros H.
  apply (f_equal (@rev ascii)) in H. rewrite rev_involutive, rev_app_distr in H.
  simpl in H. eapply lstrip_by_head, H.
Qed.

Lemma strip_by_trimmed p s : trimmed p (strip_by p s).
Proof.
  unfold strip_by. split.
  - intros c r H. eapply lstrip_by_head, H.
  - intros r c H.
    destruct (lstrip_by_suffix p (rstrip_by p s)) as (pre & Hs & _).
    rewrite H in Hs. rewrite app_assoc in Hs. eapply rstrip_by_last, Hs.
Qed.

Lemma rstrip_by_fixed p s : (forall r c, s = r ++ [c] -> p c = false) -> rstrip_by p s = s.
Proof.
  intros H. rewrite rstrip_by_rev.
  rewrite lstrip_by_fixed; [ apply rev_involutive | ].
  intros c r Hr. apply (H (rev r) c).
  rewrite <- (rev_involutive s), Hr. reflexivity.
Qed.

Lemma trimmed_strip_by p s : trimmed p s -> strip_by p s = s.
Proof.
  intros [Hl Hr]. unfold strip_by. rewrite rstrip_by_fixed by exact Hr.
  now apply lstrip_by_fixed.
Qed.

Lemma strip_by_idem p s : strip_by p (strip_by p s) = strip_by p s.
Proof. apply trimmed_strip_by, strip_by_trimmed. Qed.

Lemma strip_idem s : strip (strip s) = strip s.
Proof. apply strip_by_idem. Qed.

(** *** Lines *)

Lemma linebreak_isspace c : is_linebreak c = true -> isspace c = true.
Proof.
  destruct c as [[] [] [] [] [] [] [] []]; vm_compute; congruence.
Qed.

Lemma splitlines_nil_iff s : splitlines s = [] <-> s = [].
Proof.
  destruct s as [|c r]; simpl; [ tauto | ]. split; [ | discriminate ].
  destruct (is_linebreak c).
  - destruct r as [|c' r']; [ discriminate | ]. destruct (is_cr c && is_lf c'); discriminate.
  - destruct (splitlines r); discriminate.
Qed.

Lemma splitlines_lf_cons b : splitlines (LF :: b) = [] :: splitlines b.
Proof. destruct b; reflexivity. Qed.

Lemma splitlines_plain_cons c r :
  is_linebreak c = false ->
  splitlines (c :: r)
  = match splitlines r with [] => [[c]] | l :: ls => (c :: l) :: ls end.
Proof. intros H. simpl. now rewrite H. Qed.

Lemma open_ended_cons c r : r <> [] -> open_ended (c :: r) -> open_ended r.
Proof.
  intros Hr (r0 & c0 & Heq & Hc). destruct r0 as [|x r0].
  - simpl in Heq. inversion Heq; subst. congruence.
  - simpl in Heq. inversion Heq; subst. now exists r0, c0.
Qed.

Lemma open_ended_single c : open_ended [c] -> is_linebreak c = false.
Proof.
  intros (r0 & c0 & Heq & Hc). destruct r0 as [|x r0].
  - simpl in Heq. now inversion Heq; subst.
  - simpl in Heq. inversion Heq as [[Hx Hnil]]. destruct r0; discriminate.
Qed.

Lemma splitlines_app_lf a b :
  lf_only a -> open_ended a ->
  splitlines (a ++ LF :: b) = splitlines a ++ splitlines b.
Proof.
  induction a as [|c r IH]; intros Hlf Hopen.
  - destruct Hopen as (r0 & c0 & Heq & _). destruct r0; discriminate.
  - inversion Hlf as [|? ? Hc Hr]; subst.
    destruct r as [|c' r'].
    + apply open_ended_single in Hopen.
      simpl app. rewrite splitlines_plain_cons by exact Hopen.
      rewrite splitlines_lf_cons. simpl. now rewrite Hopen.
    + assert (Hr' : open_ended (c' :: r')) by (eapply open_ended_cons; [ discriminate | exact Hopen ]).
      specialize (IH Hr Hr').
      destruct (is_linebreak c) eqn:Hbreak.
      * rewrite (Hc eq_refl). change ((LF :: c' :: r') ++ LF :: b) with (LF :: ((c' :: r') ++ LF :: b)).
        rewrite !splitlines_lf_cons, IH. reflexivity.
      * change ((c :: c' :: r') ++ LF :: b) with (c :: ((c' :: r') ++ LF :: b)).
        rewrite !splitlines_plain_cons by exact Hbreak. rewrite IH.
        destruct (splitlines (c' :: r')) as [|l ls] eqn:El; [ | reflexivity ].
        apply splitlines_nil_iff in El. discriminate.
Qed.

Lemma splitlines_one_line s :
  s <> [] -> Forall (fun c => is_linebreak c = false) s -> splitlines s = [s].
Proof.
  induction s as [|c r IH]; intros Hne Hall; [ congruence | ].
  inversion Hall as [|? ? Hc Hr]; subst.
  rewrite splitlines_plain_cons by exact Hc.
  destruct r as [|c' r']; [ reflexivity | ].
  rewrite IH; [ reflexivity | discriminate | exact Hr ].
Qed.

Lemma join_cons_head (sep : str) c l ls : join sep ((c :: l) :: ls) = c :: join sep (l :: ls).
Proof. destruct ls; reflexivity. Qed.

Lemma join_cons2 (sep : str) a b rest : join sep (a :: b :: rest) = a ++ sep ++ join sep (b :: rest).
Proof. reflexivity. Qed.

Lemma join_splitlines s : lf_only s -> open_ended s -> join [LF] (splitlines s) = s.
Proof.
  induction s as [|c r IH]; intros Hlf Hopen.
  - destruct Hopen as (r0 & c0 & Heq & _). destruct r0; discriminate.
  - inversion Hlf as [|? ? Hc Hr]; subst.
    destruct r as [|c' r'].
    + apply open_ended_single in Hopen. simpl. now rewrite Hopen.
    + assert (Hr' : open_ended (c' :: r')) by (eapply open_ended_cons; [ discriminate | exact Hopen ]).
      specialize (IH Hr Hr').
      destruct (splitlines (c' :: r')) as [|l ls] eqn:El.
      { apply splitlines_nil_iff in El. discriminate. }
      destruct (is_linebreak c) eqn:Hbreak.
      * rewrite (Hc eq_refl), splitlines_lf_cons, El, join_cons2, IH. reflexivity.
      * rewrite splitlines_plain_cons by exact Hbreak.
        rewrite El, join_cons_head, IH. reflexivity.
Qed.

Lemma join_snoc_empty (sep : str) ls : ls <> [] -> join sep (ls ++ [[]]) = join sep ls ++ sep.
Proof.
  induction ls as [|l ls IH]; intros Hne; [ congruence | ].
  destruct ls as [|l' ls'].
  - simpl. now rewrite app_nil_r.
  - change ((l :: l' :: ls') ++ [[]]) with (l :: ((l' :: ls') ++ [[]])).
    destruct ((l' :: ls') ++ [[]]) as [|x xs] eqn:E; [ discriminate | ].
    rewrite join_cons2, IH by discriminate.
    rewrite join_cons2, <- !app_assoc. reflexivity.
Qed.

(** ** The parse adapter *)


(** The two polls of the benign-code scenario: the first is not a terminal
    failure and polling goes on, the second ends the polling with success. *)
Example benign_code_then_done :
  Mineru.poll_payload sample_externals
    [(lit "code", JInt (-60012)); (lit "msg", JStr (lit "task not found or expire"))]
  = Mineru.PollContinue
  /\ Mineru.poll_payload sample_externals
       [(lit "code", JInt 0);
        (lit "data", JDict [(lit "full_zip_url", JStr (lit "https://host/result.zip"));
                            (lit "state", JStr (lit "done"))])]
     = Mineru.PollReturn.
Proof. split; vm_compute; reflexivity. Qed.

(** ** [pdf_annotate] and the retrieval gate *)

Lemma record_tool_usage name w :
  paper_search_usage (rt (Tools.record_tool name w)) = paper_search_usage (rt w).
Proof. reflexivity. Qed.

(** C3. [pdf_annotate] answers [paper_search_calls_not_met] exactly when the
    cumulative number of paper-search calls, floored at 0, is below
    [min_paper_search_calls_for_pdf_annotate], floored at 0. The setting
    [enable_final_gates] plays no part: the statement holds whatever its
    value. *)
Theorem pdf_annotate_gate_exact ctx uuid page s e comment summary_ ot sev w :
  reason_of (snd (Tools.pdf_annotate ctx uuid page s e comment summary_ ot sev w))
    = Some (jstr "paper_search_calls_not_met")
  <-> Z.max 0 (total_calls (paper_search_usage (rt w)))
      < Z.max 0 (min_paper_search_calls_for_pdf_annotate (settings (rt w))).
Proof.
  unfold Tools.pdf_annotate.
  set (w1 := Tools.record_tool "pdf_annotate" w).
  change (Tools.current_search_calls w1) with (Z.max 0 (total_calls (paper_search_usage (rt w)))).
  change (Tools.required_search_calls w1)
    with (Z.max 0 (min_paper_search_calls_for_pdf_annotate (settings (rt w)))).
  destruct (Z.ltb_spec (Z.max 0 (total_calls (paper_search_usage (rt w))))
              (Z.max 0 (min_paper_search_calls_for_pdf_annotate (settings (rt w))))) as [Hlt | Hge].
  - split; [ intros _; exact Hlt | intros _; reflexivity ].
  - split; [ | lia ].
    destruct (Tools.page_lines w1 page) as [lines|]; [ | intros HF; discriminate HF ].
    repeat match goal with
           | |- context [ if ?b then _ else _ ] => destruct b
           end; intros HF; discriminate HF.
Qed.

(** ** [review_final_markdown_write] after the commit *)

(** C1. Once the report is committed ([final_markdown_text] is non-empty), a
    call to [review_final_markdown_write] answers [ok] with [task_completed]
    and [final_report_persisted] true; it leaves the section draft, its
    version, the committed text, the files on disk and the write log as they
    were, and it appends no event to the log. *)
Theorem final_write_after_commit_is_inert E ctx a w :
  truthy_opt (final_markdown_text (rt w)) = true ->
  let w' := fst (Tools.review_final_markdown_write E ctx a w) in
  let out := snd (Tools.review_final_markdown_write E ctx a w) in
  (exists p, out = Returned p
             /\ field p "status" = Some (jstr "ok")
             /\ field p "task_completed" = Some (JBool true)
             /\ field p "final_report_persisted" = Some (JBool true))
  /\ final_report_draft_sections (rt w') = final_report_draft_sections (rt w)
  /\ final_report_draft_version (rt w') = final_report_draft_version (rt w)
  /\ final_markdown_text (rt w') = final_markdown_text (rt w)
  /\ disk_files w' = disk_files w
  /\ disk_write_log w' = disk_write_log w
  /\ events w' = events w.
Proof.
  intros Hcommitted. unfold Tools.review_final_markdown_write.
  change (final_markdown_text (rt (Tools.record_tool "review_final_markdown_write" w)))
    with (final_markdown_text (rt w)).
  rewrite Hcommitted. cbv zeta. simpl fst. simpl snd.
  split; [ eexists; split; [ reflexivity | repeat split ] | repeat split ].
Qed.

(** ** Dictionaries *)

Lemma get_set_same {V} (d : odict V) k v : get (set d k v) k = Some v.
Proof.
  unfold get. induction d as [|[k' v'] d IH]; simpl.
  - now rewrite eqb_refl.
  - destruct (PyStr.eqb k' k) eqn:Hk; simpl; rewrite Hk; auto.
Qed.

Lemma get_set_other {V} (d : odict V) k k' v : k <> k' -> get (set d k v) k' = get d k'.
Proof.
  intros Hne. unfold get. induction d as [|[k0 v0] d IH]; simpl.
  - now rewrite eqb_neq.
  - destruct (PyStr.eqb k0 k) eqn:Hk; simpl.
    + apply eqb_eq in Hk. subst k0. now rewrite (eqb_neq k k').
    + destruct (PyStr.eqb k0 k'); auto.
Qed.



(** ** The required sections *)



Lemma in_completed (draft_sections : odict str) key :
  key ∈ Tools.completed_section_ids draft_sections <->
  key ∈ _required_final_report_section_order /\ has_content draft_sections key.
Proof.
  unfold Tools.completed_section_ids, has_content.
  rewrite list_elem_of_In, filter_In, <- list_elem_of_In, nonempty_true. tauto.
Qed.


(** ** [review_final_markdown_write] while sections are missing *)


(** ** A markdown blob without a recognised heading *)

Ltac split_ifs :=
  repeat match goal with
         | |- context [ if ?b then _ else _ ] => destruct b eqn:?
         end.

(** What [save_or_commit] leaves as it is. *)
Lemma save_or_commit_frame E ctx n src d v cur w :
  let w' := fst (Tools.save_or_commit E ctx n src d v cur w) in
  final_report_draft_sections (rt w') = final_report_draft_sections (rt w)
  /\ paper_search_usage (rt w') = paper_search_usage (rt w)
  /\ paper_search_signatures (rt w') = paper_search_signatures (rt w).
Proof.
  unfold Tools.save_or_commit.
  destruct (Tools.missing_section_ids d); [ | repeat split ].
  cbv zeta.
  destruct (enable_final_gates (settings (rt w)) && _); [ repeat split | ].
  destruct (enable_final_gates (settings (rt w)) && _); [ repeat split | ].
  destruct (enable_final_gates (settings (rt w)) && _); [ repeat split | ].
  destruct (negb (nonempty _)); [ repeat split | ].
  destruct (negb (ok _) && _); [ repeat split | ].
  destruct (negb (ok _)); repeat split.
Qed.

Lemma save_or_commit_keeps_draft E ctx n src d v cur w :
  final_report_draft_sections (rt (fst (Tools.save_or_commit E ctx n src d v cur w)))
  = final_report_draft_sections (rt w).
Proof. apply save_or_commit_frame. Qed.





(** ** At most one commit in a run *)

Lemma count_events_snoc name log e :
  count_events name (log ++ [e])
  = (count_events name log + (if PyStr.eqb (event e) (lit name) then 1 else 0))%nat.
Proof.
  unfold count_events. rewrite List.filter_app, length_app. simpl.
  destruct (PyStr.eqb (event e) (lit name)); reflexivity.
Qed.

Ltac eval_event_names :=
  repeat match goal with
         | |- context [ PyStr.eqb (lit ?a) (lit ?b) ] =>
             let v := eval vm_compute in (PyStr.eqb (lit a) (lit b)) in
             change (PyStr.eqb (lit a) (lit b)) with v
         end.

Ltac no_commit :=
  left; split; [ reflexivity | ];
  unfold persisted; simpl events;
  rewrite ?count_events_snoc; simpl event; eval_event_names; cbv iota; lia.

Lemma failure_commit_step E ctx n p w :
  commit_step w (fst (Tools._return_final_write_failure E ctx n p w)).
Proof. unfold Tools._return_final_write_failure. no_commit. Qed.

Lemma commit_step_trans w1 w2 w3 :
  committed w2 = committed w1 -> persisted w2 = persisted w1 ->
  commit_step w2 w3 -> commit_step w1 w3.
Proof. unfold commit_step. intros -> ->. tauto. Qed.

Lemma save_or_commit_step E ctx n src d v cur w :
  committed w = false ->
  commit_step w (fst (Tools.save_or_commit E ctx n src d v cur w)).
Proof.
  intros Hopen. unfold Tools.save_or_commit.
  destruct (Tools.missing_section_ids d); [ | cbv zeta; no_commit ].
  cbv zeta.
  destruct (enable_final_gates (settings (rt w)) && _); [ apply failure_commit_step | ].
  destruct (enable_final_gates (settings (rt w)) && _); [ apply failure_commit_step | ].
  destruct (enable_final_gates (settings (rt w)) && _); [ apply failure_commit_step | ].
  destruct (nonempty (_build_final_report_markdown_from_sections d)) eqn:Hmd;
    [ | apply failure_commit_step ].
  cbv iota beta. simpl negb. cbv iota.
  destruct (negb (ok _) && _); [ apply failure_commit_step | ].
  right. split; [ exact Hopen | ]. split.
  - unfold committed, Tools.commit_final_report. simpl. exact Hmd.
  - unfold persisted, Tools.commit_final_report.
    destruct (negb (ok _)); simpl events;
      rewrite ?count_events_snoc; simpl event; eval_event_names; cbv iota; lia.
Qed.

Lemma final_write_step E ctx a w :
  commit_step w (fst (Tools.review_final_markdown_write E ctx a w)).
Proof.
  unfold Tools.review_final_markdown_write.
  change (final_markdown_text (rt (Tools.record_tool "review_final_markdown_write" w)))
    with (final_markdown_text (rt w)).
  destruct (truthy_opt (final_markdown_text (rt w))) eqn:Hopen; [ cbv zeta; no_commit | ].
  destruct (Tools.read_arguments a) as [p | inc req].
  { eapply commit_step_trans; [ | | apply failure_commit_step ]; reflexivity. }
  cbv zeta.
  match goal with
  | |- context [ match ?d with [] => _ | _ :: _ => _ end ] => destruct d eqn:Edraft
  end.
  { eapply commit_step_trans; [ | | apply failure_commit_step ]; reflexivity. }
  eapply commit_step_trans; [ | | apply save_or_commit_step ]; try reflexivity.
  exact Hopen.
Qed.

Lemma tool_step E c w : commit_step w (fst (run_tool E c w)).
Proof.
  destruct c; simpl run_tool.
  - unfold Tools.mcp_status_update. no_commit.
  - unfold Tools.pdf_search. destruct (nonempty _); no_commit.
  - unfold Tools.pdf_read_lines. destruct (Tools.page_lines _ _); no_commit.
  - unfold Tools.pdf_jump. destruct (Tools.page_lines _ _); no_commit.
  - unfold Tools.pdf_annotate.
    destruct (_ <? _); [ no_commit | ].
    destruct (Tools.page_lines _ _); [ | no_commit ].
    destruct (negb _); [ no_commit | ].
    destruct (negb _); no_commit.
  - unfold Tools.paper_search. no_commit.
  - unfold Tools.read_paper. destruct (List.filter _ _); [ no_commit | ].
    destruct adapter_result; no_commit.
  - unfold Tools.question_prompt. no_commit.
  - apply final_write_step.
Qed.

Lemma commit_invariant_step E base c w :
  commit_invariant base w -> commit_invariant base (fst (run_tool E c w)).
Proof.
  unfold commit_invariant. intros H.
  destruct (tool_step E c w) as [[Hc Hp] | (Hc & Hc' & Hp)].
  - rewrite Hc, Hp. exact H.
  - rewrite Hc in H. rewrite Hc', Hp, H. constructor.
Qed.

Lemma commit_invariant_run E base calls w :
  commit_invariant base w -> commit_invariant base (run E calls w).
Proof.
  unfold run. revert w. induction calls as [|c calls IH]; intros w H; [ exact H | ].
  simpl. apply IH, commit_invariant_step, H.
Qed.

(** C2. Whatever the tool calls of a run that starts from a fresh runtime
    context, the event log of the job gains at most one
    [final_report_persisted] event. *)
Theorem at_most_one_final_commit E dir index cfg j disk log calls :
  (count_events "final_report_persisted"
     (events (run E calls (fresh_world dir index cfg j disk log)))
   <= S (count_events "final_report_persisted" log))%nat.
Proof.
  pose proof (commit_invariant_run E (count_events "final_report_persisted" log) calls
                (fresh_world dir index cfg j disk log) eq_refl) as H.
  unfold commit_invariant in H. fold (persisted (run E calls (fresh_world dir index cfg j disk log))).
  destruct (committed _); [ exact H | rewrite H; constructor; constructor ].
Qed.

(** ** The usage counters of [paper_search] *)

Lemma add_signatures_union sigs texts :
  Tools.add_signatures sigs texts = sigs ∪ signature_set texts.
Proof.
  unfold Tools.add_signatures, signature_set.
  revert sigs. induction texts as [|t texts IH]; intros sigs; simpl.
  - set_solver.
  - rewrite IH. set_solver.
Qed.

Lemma signature_set_app a b : signature_set (a ++ b) = signature_set a ∪ signature_set b.
Proof. unfold signature_set. rewrite map_app, list_to_set_app_L. reflexivity. Qed.

Lemma paper_search_signatures_after E ctx res q ql w :
  paper_search_signatures (rt (fst (Tools.paper_search E ctx res q ql w)))
  = paper_search_signatures (rt w) ∪ signature_set (encountered E res q ql).
Proof.
  unfold Tools.paper_search, encountered. cbv zeta. simpl paper_search_signatures.
  fold (search_result E res q ql).
  rewrite !signature_set_app.
  destruct (nonempty (strip (str_or_empty q))); rewrite !add_signatures_union.
  - set_solver.
  - unfold signature_set at 1. simpl. set_solver.
Qed.

Lemma count_signatures_empty : Tools.count_signatures ∅ = 0.
Proof. reflexivity. Qed.

(** Every tool call leaves the signature set and the usage counters alone,
    or is a [paper_search] call. *)
Lemma other_tools_keep_search_state E c w :
  match c with
  | CallPaperSearch _ _ _ _ => True
  | _ =>
      paper_search_usage (rt (fst (run_tool E c w))) = paper_search_usage (rt w)
      /\ paper_search_signatures (rt (fst (run_tool E c w))) = paper_search_signatures (rt w)
  end.
Proof.
  destruct c; simpl run_tool; try exact I.
  - unfold Tools.mcp_status_update. split; reflexivity.
  - unfold Tools.pdf_search. destruct (nonempty _); split; reflexivity.
  - unfold Tools.pdf_read_lines. destruct (Tools.page_lines _ _); split; reflexivity.
  - unfold Tools.pdf_jump. destruct (Tools.page_lines _ _); split; reflexivity.
  - unfold Tools.pdf_annotate.
    destruct (_ <? _); [ split; reflexivity | ].
    destruct (Tools.page_lines _ _); [ | split; reflexivity ].
    destruct (negb _); [ split; reflexivity | ].
    destruct (negb _); split; reflexivity.
  - unfold Tools.read_paper. destruct (List.filter _ _); [ split; reflexivity | ].
    destruct adapter_result; split; reflexivity.
  - unfold Tools.question_prompt. split; reflexivity.
  - unfold Tools.review_final_markdown_write.
    destruct (truthy_opt _); [ split; reflexivity | ].
    destruct (Tools.read_arguments a); [ split; reflexivity | ].
    cbv zeta.
    match goal with
    | |- context [ match ?d with [] => _ | _ :: _ => _ end ] => destruct d
    end; [ split; reflexivity | ].
    match goal with
    | |- context [ Tools.save_or_commit ?E ?c ?n ?s ?d ?v ?cur ?w0 ] =>
        destruct (save_or_commit_frame E c n s d v cur w0) as (_ & Hu & Hs)
    end.
    cbv zeta in Hu, Hs. rewrite Hu, Hs. split; reflexivity.
Qed.

(** The queries and questions a call meets. *)
Lemma step_signatures E c w :
  paper_search_signatures (rt (fst (run_tool E c w)))
  = paper_search_signatures (rt w) ∪ signature_set (encountered_in_run E [c]).
Proof.
  pose proof (other_tools_keep_search_state E c w) as H.
  assert (Hempty : forall X : gset str, X = X ∪ signature_set []).
  { intros X. unfold signature_set. simpl. set_solver. }
  unfold encountered_in_run. simpl flat_map. rewrite app_nil_r.
  destruct c; try (destruct H as [_ ->]; apply Hempty).
  simpl run_tool. apply paper_search_signatures_after.
Qed.

Lemma run_signatures E calls w :
  paper_search_signatures (rt (run E calls w))
  = paper_search_signatures (rt w) ∪ signature_set (encountered_in_run E calls).
Proof.
  unfold run. revert w. induction calls as [|c calls IH]; intros w; simpl fold_left.
  - unfold signature_set. simpl. set_solver.
  - rewrite IH, step_signatures.
    assert (Hcons : encountered_in_run E (c :: calls)
                    = encountered_in_run E [c] ++ encountered_in_run E calls).
    { unfold encountered_in_run. simpl flat_map. now rewrite app_nil_r. }
    rewrite Hcons, signature_set_app. generalize (encountered_in_run E [c]).
    intros l. clear. set_solver.
Qed.

Lemma run_distinct_queries E calls w :
  distinct_queries (paper_search_usage (rt w))
  = Tools.count_signatures (paper_search_signatures (rt w)) ->
  distinct_queries (paper_search_usage (rt (run E calls w)))
  = Tools.count_signatures (paper_search_signatures (rt (run E calls w))).
Proof.
  unfold run. revert w. induction calls as [|c calls IH]; intros w Hw; [ exact Hw | ].
  simpl. apply IH.
  pose proof (other_tools_keep_search_state E c w) as H.
  destruct c; try (destruct H as [-> ->]; exact Hw).
  reflexivity.
Qed.

(** C6. Every [paper_search] call adds 1 to [total_calls]; adds 1 to
    [successful_calls] exactly when the result marks success; adds 1 to
    [effective_calls] and the paper count to [papers_found] exactly when the
    result marks success and the count is positive; adds the normalized
    signatures of the query and questions it meets to the signature set; and
    leaves [distinct_queries] equal to the number of non-empty signatures in
    that set. After a run from a fresh runtime context, [distinct_queries]
    is the number of distinct non-empty signatures of all the queries and
    questions the run met. *)
Theorem paper_search_usage_counters E :
  (forall ctx res q ql w,
     let result := search_result E res q ql in
     let found := Tools._count_papers E result in
     let effective := marks_success result && (0 <? found) in
     let u := paper_search_usage (rt w) in
     let w' := fst (Tools.paper_search E ctx res q ql w) in
     let u' := paper_search_usage (rt w') in
     total_calls u' = total_calls u + 1
     /\ successful_calls u' = successful_calls u + (if marks_success result then 1 else 0)
     /\ effective_calls u' = effective_calls u + (if effective then 1 else 0)
     /\ papers_found u' = papers_found u + (if effective then found else 0)
     /\ paper_search_signatures (rt w')
        = paper_search_signatures (rt w) ∪ signature_set (encountered E res q ql)
     /\ distinct_queries u'
        = Z.of_nat (size (filter (fun s : str => s <> []) (paper_search_signatures (rt w')))))
  /\ (forall dir index cfg j disk log calls,
        distinct_queries
          (paper_search_usage (rt (run E calls (fresh_world dir index cfg j disk log))))
        = Z.of_nat (size (filter (fun s : str => s <> [])
                            (signature_set (encountered_in_run E calls))))).
Proof.
  split.
  - intros ctx res q ql w. cbv zeta.
    repeat split; try reflexivity.
    apply paper_search_signatures_after.
  - intros dir index cfg j disk log calls.
    rewrite run_distinct_queries by reflexivity.
    rewrite run_signatures. unfold Tools.count_signatures. simpl paper_search_signatures.
    do 3 f_equal. set_solver.
Qed.

(** ** Sorting *)

Section StableSort.

Context {A : Type} (le : A -> A -> bool).

Hypothesis le_total : forall a b, le a b = true \/ le b a = true.
Hypothesis le_trans : forall a b c, le a b = true -> le b c = true -> le a c = true.

Lemma insert_by_In x y l : In y (insert_by le x l) <-> y = x \/ In y l.
Proof.
  induction l as [|z l IH]; simpl; [ intuition | ].
  destruct (le x z); simpl; rewrite ?IH; intuition.
Qed.

Lemma sort_by_In y l : In y (sort_by le l) <-> In y l.
Proof.
  induction l as [|x l IH]; simpl; [ tauto | ].
  rewrite insert_by_In, IH. intuition.
Qed.

Lemma insert_by_sorted x l :
  StronglySorted (fun a b => le a b = true) l ->
  StronglySorted (fun a b => le a b = true) (insert_by le x l).
Proof.
  induction 1 as [|z l Hl IH Hz]; simpl.
  - repeat constructor.
  - destruct (le x z) eqn:Hxz.
    + constructor; [ constructor; assumption | ].
      constructor; [ exact Hxz | ].
      rewrite List.Forall_forall in *. intros b Hb. eapply le_trans; [ exact Hxz | auto ].
    + constructor; [ exact IH | ].
      rewrite List.Forall_forall in *. intros b Hb. apply insert_by_In in Hb.
      destruct Hb as [-> | Hb]; [ | auto ].
      destruct (le_total x z) as [H | H]; congruence.
Qed.

Lemma sort_by_sorted l : StronglySorted (fun a b => le a b = true) (sort_by le l).
Proof.
  induction l as [|x l IH]; simpl; [ constructor | ].
  apply insert_by_sorted, IH.
Qed.

End StableSort.

Lemma firstn_In {A} (x : A) n l : In x (firstn n l) -> In x l.
Proof.
  intros H. rewrite <- (firstn_skipn n l). apply in_or_app. now left.
Qed.

Lemma StronglySorted_firstn {A} (R : A -> A -> Prop) n l :
  StronglySorted R l -> StronglySorted R (firstn n l).
Proof.
  revert n. induction l as [|x l IH]; intros [|n] H; simpl; try constructor.
  - apply IH. now inversion H.
  - inversion H as [|? ? _ Hall]; subst.
    rewrite List.Forall_forall in *. intros y Hy. apply Hall. eapply firstn_In, Hy.
Qed.

Lemma StronglySorted_impl {A} (R R' : A -> A -> Prop) l :
  (forall a b, R a b -> R' a b) -> StronglySorted R l -> StronglySorted R' l.
Proof.
  intros HR. induction 1 as [|x l _ IH Hx]; constructor; [ exact IH | ].
  eapply List.Forall_impl; [ | exact Hx ]. auto.
Qed.

(** ** [pdf_search] *)

Lemma hit_le_before a b : Tools.hit_le a b = true <-> hit_before a b.
Proof.
  destruct a as [[[s1 p1] l1] t1], b as [[[s2 p2] l2] t2]. unfold Tools.hit_le, hit_before.
  rewrite orb_true_iff, !andb_true_iff, orb_true_iff, andb_true_iff.
  rewrite !Z.ltb_lt, !Z.eqb_eq, Z.leb_le. lia.
Qed.

Lemma hit_le_total a b : Tools.hit_le a b = true \/ Tools.hit_le b a = true.
Proof.
  rewrite !hit_le_before.
  destruct a as [[[s1 p1] l1] t1], b as [[[s2 p2] l2] t2]. unfold hit_before. lia.
Qed.

Lemma hit_le_trans a b c :
  Tools.hit_le a b = true -> Tools.hit_le b c = true -> Tools.hit_le a c = true.
Proof.
  rewrite !hit_le_before.
  destruct a as [[[s1 p1] l1] t1], b as [[[s2 p2] l2] t2], c as [[[s3 p3] l3] t3].
  unfold hit_before. lia.
Qed.

Lemma hit_limit_bound top_k : Tools.hit_limit top_k = hit_bound top_k.
Proof.
  unfold Tools.hit_limit, hit_bound, clamp. destruct (top_k =? 0); reflexivity.
Qed.

Lemma enumerate_from_In {A} (k : Z) (l : list A) i x :
  In (i, x) (enumerate_from k l) -> k <= i /\ l !! Z.to_nat (i - k) = Some x.
Proof.
  revert k. induction l as [|y l IH]; intros k; simpl; [ tauto | ].
  intros [H | H].
  - inversion H; subst. split; [ lia | ]. now rewrite Z.sub_diag.
  - apply IH in H. destruct H as [Hk Hl]. split; [ lia | ].
    replace (Z.to_nat (i - k)) with (S (Z.to_nat (i - (k + 1)))) by lia. exact Hl.
Qed.

Lemma flatten_In index p l t :
  In (p, l, t) (_flatten_page_index index) ->
  exists lines, index !! p = Some lines /\ 1 <= l /\ lines !! Z.to_nat (l - 1) = Some t.
Proof.
  unfold _flatten_page_index. rewrite in_flat_map.
  intros (page & _ & Hrow). apply in_map_iff in Hrow.
  destruct Hrow as ([i x] & Heq & Hin). simpl in Heq. inversion Heq; subst.
  apply enumerate_from_In in Hin. destruct Hin as [Hl Hx].
  destruct (index !! p) as [lines|] eqn:Hp; simpl in Hx.
  - exists lines. auto.
  - rewrite lookup_nil in Hx. discriminate.
Qed.

Lemma line_score_positive text t s : Tools.line_score text t = Some s -> 1 <= s.
Proof.
  unfold Tools.line_score.
  set (score := fold_right Z.add 0 _).
  destruct (Z.leb_spec score 0) as [Hle | Hgt]; simpl.
  - destruct (negb _); intros Hs; inversion Hs; lia.
  - intros Hs; inversion Hs; lia.
Qed.

Lemma scored_rows_In text rows s p l t :
  In (s, p, l, t) (Tools.scored_rows text rows) ->
  In (p, l, t) rows /\ Tools.line_score text t = Some s.
Proof.
  unfold Tools.scored_rows. intros H.
  apply list_elem_of_In, list_elem_of_omap in H.
  destruct H as ([[p' l'] t'] & Hin & Heq).
  destruct (Tools.line_score text t') as [s'|] eqn:Hs; [ | discriminate ].
  inversion Heq; subst. split; [ now apply list_elem_of_In | exact Hs ].
Qed.

Lemma search_hits_spec index text top_k :
  let hits := Tools.search_hits index text top_k in
  (Z.of_nat (length hits) <= hit_bound top_k)
  /\ StronglySorted hit_before hits
  /\ Forall (hit_of_index index text) hits.
Proof.
  cbv zeta. unfold Tools.search_hits. rewrite hit_limit_bound. repeat split.
  - rewrite length_firstn.
    assert (0 <= hit_bound top_k) by (unfold hit_bound, clamp; destruct (top_k =? 0); lia).
    lia.
  - apply StronglySorted_firstn.
    eapply StronglySorted_impl; [ | apply sort_by_sorted ].
    + intros a b. apply hit_le_before.
    + apply hit_le_total.
    + apply hit_le_trans.
  - apply List.Forall_forall. intros [[[s p] l] t] Hin.
    apply firstn_In, sort_by_In, scored_rows_In in Hin. destruct Hin as [Hrow Hs].
    split; [ now apply flatten_In | ]. split; [ exact Hs | ].
    eapply line_score_positive, Hs.
Qed.

(** C9. With a query that is not empty once stripped, [pdf_search] answers
    [ok] with a list of hits of length at most [clamp(top_k, 1, 50)], and at
    most 8 when [top_k] is 0; the hits are sorted by score descending, then
    page ascending, then line ascending, and each is a line of the page
    index with its positive score for the query. With an empty or
    whitespace-only query it answers [error] with reason [empty_query]. *)
Theorem pdf_search_result ctx query top_k w :
  let out := snd (Tools.pdf_search ctx query top_k w) in
  if nonempty (strip query) then
    exists hits,
      out = Returned (mk_payload [("status", jstr "ok"); ("query", JStr (strip query));
                                  ("count", JInt (Z.of_nat (length hits)));
                                  ("hits", JList (map Tools.hit_json hits))]%string)
      /\ Z.of_nat (length hits) <= hit_bound top_k
      /\ StronglySorted hit_before hits
      /\ Forall (hit_of_index (page_index (rt w)) (strip query)) hits
  else
    status_of out = Some (jstr "error") /\ reason_of out = Some (jstr "empty_query").
Proof.
  cbv zeta. unfold Tools.pdf_search. cbv zeta.
  destruct (nonempty (strip query)).
  - eexists. split; [ reflexivity | ]. apply search_hits_spec.
  - split; reflexivity.
Qed.

(** ** Recovery after an exception *)



(** ** The round trip of the section assembler *)

Lemma headings_resolve : forallb heading_resolves _required_final_report_section_order = true.
Proof. vm_compute. reflexivity. Qed.

Lemma heading_resolves_spec id :
  heading_resolves id = true ->
  nonempty id = true
  /\ Forall (fun c => is_linebreak c = false) (heading_of id)
  /\ exists t, heading_match (heading_of id) = Some t
               /\ _resolve_final_report_section_id t = Some id.
Proof.
  unfold heading_resolves. rewrite !andb_true_iff. intros [[Hid Hone] Hres].
  split; [ exact Hid | ]. split.
  - apply List.Forall_forall. intros c Hc.
    rewrite forallb_forall in Hone. specialize (Hone c Hc).
    now apply negb_true_iff in Hone.
  - destruct (heading_match (heading_of id)) as [t|]; [ | discriminate ].
    exists t. split; [ reflexivity | ].
    destruct (_resolve_final_report_section_id t) as [r|]; [ | discriminate ].
    apply eqb_eq in Hres. now subst.
Qed.

Lemma mem_false_get {V} (B : odict V) k : mem B k = false <-> get B k = None.
Proof. unfold mem. destruct (get B k); split; congruence. Qed.

Lemma set_fresh {V} (B : odict V) k v : get B k = None -> set B k v = B ++ [(k, v)].
Proof.
  unfold get. induction B as [|[k' v'] B IH]; simpl; [ reflexivity | ].
  destruct (PyStr.eqb k' k); [ discriminate | ]. intros H. now rewrite IH.
Qed.

Lemma get_app_fresh {V} (B : odict V) k v : get B k = None -> get (B ++ [(k, v)]) k = Some v.
Proof.
  unfold get. induction B as [|[k' v'] B IH]; simpl.
  - now rewrite eqb_refl.
  - destruct (PyStr.eqb k' k); [ discriminate | exact IH ].
Qed.

Lemma set_app_last {V} (B : odict V) k v v' :
  get B k = None -> set (B ++ [(k, v)]) k v' = B ++ [(k, v')].
Proof.
  unfold get. induction B as [|[k0 v0] B IH]; simpl.
  - now rewrite eqb_refl.
  - destruct (PyStr.eqb k0 k); [ discriminate | ]. intros H. now rewrite IH.
Qed.

Lemma get_app_other {V} (B : odict V) k k' v :
  k <> k' -> get (B ++ [(k, v)]) k' = get B k'.
Proof.
  intros Hne. unfold get. induction B as [|[k0 v0] B IH]; simpl.
  - now rewrite eqb_neq.
  - destruct (PyStr.eqb k0 k'); [ reflexivity | exact IH ].
Qed.

(** The scan of one content line of the open section. *)
Lemma scan_content_line B k acc l :
  nonempty k = true -> get B k = None -> heading_match l = None ->
  scan_line (B ++ [(k, acc)], Some k) l = (B ++ [(k, acc ++ [l])], Some k).
Proof.
  intros Hk HB Hl. unfold scan_line. rewrite Hl. simpl truthy_opt. rewrite Hk.
  unfold buffer_append. simpl default at 1.
  rewrite get_app_fresh by exact HB. simpl default.
  now rewrite set_app_last by exact HB.
Qed.

(** The scan of the content lines of the open section. *)
Lemma scan_content_lines B k acc ls :
  nonempty k = true -> get B k = None ->
  Forall (fun line => heading_match line = None) ls ->
  fold_left scan_line ls (B ++ [(k, acc)], Some k) = (B ++ [(k, acc ++ ls)], Some k).
Proof.
  intros Hk HB Hls. revert acc.
  induction Hls as [|l ls Hl _ IH]; intros acc; cbn [fold_left].
  - now rewrite app_nil_r.
  - rewrite scan_content_line by assumption.
    rewrite IH, <- app_assoc. reflexivity.
Qed.

(** The scan of the heading line of a section that has no buffer yet. *)
Lemma scan_heading_line B active id :
  heading_resolves id = true -> get B id = None ->
  scan_line (B, active) (heading_of id) = (B ++ [(id, [])], Some id).
Proof.
  intros Hok HB. destruct (heading_resolves_spec id Hok) as (Hid & _ & t & Hm & Hr).
  unfold scan_line. rewrite Hm, Hr. simpl truthy_opt. rewrite Hid. simpl default.
  rewrite (proj2 (mem_false_get B id) HB). simpl.
  now rewrite set_fresh.
Qed.

Lemma heading_match_blank : heading_match [] = None.
Proof. reflexivity. Qed.

Lemma plain_content_open v : plain_content v -> open_ended v.
Proof.
  intros (Hne & Hstrip & _).
  destruct (exists_last Hne) as (r & c & ->).
  exists r, c. split; [ reflexivity | ].
  pose proof (strip_by_trimmed isspace (r ++ [c])) as [_ Hlast].
  fold (strip (r ++ [c])) in Hlast. rewrite Hstrip in Hlast.
  specialize (Hlast r c eq_refl).
  destruct (is_linebreak c) eqn:Hb; [ | reflexivity ].
  apply linebreak_isspace in Hb. congruence.
Qed.

Lemma heading_one_line id :
  heading_resolves id = true ->
  splitlines (heading_of id) = [heading_of id]
  /\ lf_only (heading_of id) /\ open_ended (heading_of id).
Proof.
  intros Hok. destruct (heading_resolves_spec id Hok) as (_ & Hone & _).
  assert (Hne : heading_of id <> []) by (unfold heading_of; discriminate).
  split; [ now apply splitlines_one_line | ]. split.
  - eapply List.Forall_impl; [ | exact Hone ]. intros c Hc Hb. congruence.
  - destruct (exists_last Hne) as (r & c & Heq). exists r, c. split; [ exact Heq | ].
    rewrite Heq in Hone. apply Forall_app in Hone. destruct Hone as [_ Hc].
    now inversion Hc.
Qed.

Lemma block_lines_of e :
  plain_entry e ->
  splitlines (block_of e) = heading_of (fst e) :: splitlines (snd e)
  /\ lf_only (block_of e) /\ open_ended (block_of e).
Proof.
  intros [Hok Hc]. destruct (heading_one_line _ Hok) as (Hone & Hlf & Hopen).
  pose proof (plain_content_open _ Hc) as Hcopen.
  destruct Hc as (Hne & _ & Hclf & _).
  unfold block_of. split; [ | split ].
  - rewrite splitlines_app_lf by assumption. now rewrite Hone.
  - apply Forall_app. split; [ exact Hlf | ]. constructor; [ reflexivity | exact Hclf ].
  - destruct Hcopen as (r & c & Heq & Hb).
    exists (heading_of (fst e) ++ LF :: r), c. split; [ | exact Hb ].
    rewrite Heq, <- app_assoc. reflexivity.
Qed.

Lemma splitlines_blocks es :
  Forall plain_entry es ->
  splitlines (join [LF; LF] (map block_of es)) = block_lines es.
Proof.
  induction 1 as [|e es He Hes IH]; [ reflexivity | ].
  destruct (block_lines_of e He) as (Hlines & Hlf & Hopen).
  destruct es as [|e' es'].
  - simpl. exact Hlines.
  - change (map block_of (e :: e' :: es')) with (block_of e :: map block_of (e' :: es')).
    change (map block_of (e' :: es')) with (block_of e' :: map block_of es') in *.
    rewrite join_cons2.
    change ([LF; LF] ++ join [LF; LF] (block_of e' :: map block_of es'))
      with (LF :: (LF :: join [LF; LF] (block_of e' :: map block_of es'))).
    rewrite splitlines_app_lf by assumption.
    rewrite splitlines_lf_cons, IH, Hlines. reflexivity.
Qed.

Lemma scan_block B active e tail :
  plain_entry e -> get B (fst e) = None ->
  Forall (fun line => heading_match line = None) tail ->
  fold_left scan_line (heading_of (fst e) :: splitlines (snd e) ++ tail) (B, active)
  = (B ++ [(fst e, splitlines (snd e) ++ tail)], Some (fst e)).
Proof.
  intros [Hok (_ & _ & _ & Hplain)] HB Htail.
  cbn [fold_left]. rewrite scan_heading_line by assumption.
  destruct (heading_resolves_spec _ Hok) as (Hid & _).
  rewrite scan_content_lines; [ reflexivity | exact Hid | exact HB | ].
  apply Forall_app. split; [ exact Hplain | exact Htail ].
Qed.

Lemma scan_blocks es : forall B active,
  Forall plain_entry es ->
  NoDup (map fst es) ->
  Forall (fun e => get B (fst e) = None) es ->
  fst (fold_left scan_line (block_lines es) (B, active)) = B ++ block_buffers es.
Proof.
  induction es as [|e es IH]; intros B active Hes Hnd HB.
  - simpl. now rewrite app_nil_r.
  - inversion Hes as [|? ? He Hes']; subst.
    inversion HB as [|? ? HBe HB']; subst.
    apply NoDup_cons in Hnd. destruct Hnd as [Hfresh Hnd].
    assert (Hother : forall x, In x es -> fst e <> fst x).
    { intros x Hx Heq. apply Hfresh. rewrite Heq. apply list_elem_of_In, in_map, Hx. }
    clear Hfresh.
    destruct es as [|e' es'].
    + cbn [block_lines block_buffers].
      rewrite <- (app_nil_r (splitlines (snd e))) at 1.
      rewrite scan_block by (assumption || constructor).
      now rewrite app_nil_r.
    + assert (Hlines : block_lines (e :: e' :: es')
                       = (heading_of (fst e) :: splitlines (snd e) ++ [[]])
                         ++ block_lines (e' :: es')).
      { change (block_lines (e :: e' :: es'))
          with ((heading_of (fst e) :: splitlines (snd e))
                ++ [[]] ++ block_lines (e' :: es')).
        simpl app. now rewrite <- app_assoc. }
      rewrite Hlines. clear Hlines.
      change (block_buffers (e :: e' :: es'))
        with ((fst e, splitlines (snd e) ++ [[]]) :: block_buffers (e' :: es')).
      rewrite fold_left_app.
      rewrite scan_block by (assumption || (repeat constructor)).
      rewrite IH; [ now rewrite <- app_assoc | exact Hes' | exact Hnd | ].
      apply List.Forall_forall. intros x Hx.
      rewrite get_app_other by (apply Hother, Hx).
      rewrite List.Forall_forall in HB'. now apply HB'.
Qed.

Lemma strip_snoc_lf v : strip (v ++ [LF]) = strip v.
Proof. unfold strip, strip_by. now rewrite rstrip_by_snoc. Qed.

Lemma buffer_content v :
  plain_content v ->
  strip (join [LF] (splitlines v)) = v /\ strip (join [LF] (splitlines v ++ [[]])) = v.
Proof.
  intros Hv. pose proof (plain_content_open _ Hv) as Hopen.
  destruct Hv as (Hne & Hstrip & Hlf & _).
  assert (Hlines : splitlines v <> []) by (intros H; apply splitlines_nil_iff in H; congruence).
  rewrite join_snoc_empty by exact Hlines.
  rewrite join_splitlines by assumption.
  now rewrite strip_snoc_lf, Hstrip.
Qed.

Lemma collect_step_plain extracted e buffer :
  plain_content (snd e) ->
  get extracted (fst e) = None ->
  strip (join [LF] buffer) = snd e ->
  collect_step extracted (fst e, buffer) = extracted ++ [e].
Proof.
  intros (Hne & _) Hfresh Hbuf. unfold collect_step. cbn [fst snd]. rewrite Hbuf.
  apply nonempty_true in Hne. rewrite Hne, set_fresh by exact Hfresh.
  now destruct e.
Qed.

Lemma collect_buffers es : forall extracted,
  Forall plain_entry es ->
  NoDup (map fst es) ->
  Forall (fun e => get extracted (fst e) = None) es ->
  fold_left collect_step (block_buffers es) extracted = extracted ++ es.
Proof.
  induction es as [|e es IH]; intros extracted Hes Hnd Hfresh.
  - simpl. now rewrite app_nil_r.
  - inversion Hes as [|? ? He Hes']; subst.
    inversion Hfresh as [|? ? Hfe Hfresh']; subst.
    apply NoDup_cons in Hnd. destruct Hnd as [Hnew Hnd].
    assert (Hother : forall x, In x es -> fst e <> fst x).
    { intros x Hx Heq. apply Hnew. rewrite Heq. apply list_elem_of_In, in_map, Hx. }
    clear Hnew.
    destruct (buffer_content (snd e) (proj2 He)) as [Hlast Hmid].
    assert (Hnext : Forall (fun x => get (extracted ++ [e]) (fst x) = None) es).
    { apply List.Forall_forall. intros x Hx.
      destruct e as [k v]. rewrite get_app_other by (apply (Hother x Hx)).
      rewrite List.Forall_forall in Hfresh'. now apply Hfresh'. }
    destruct es as [|e' es'].
    + cbn [block_buffers fold_left].
      now rewrite (collect_step_plain extracted e _ (proj2 He) Hfe Hlast).
    + change (block_buffers (e :: e' :: es'))
        with ((fst e, splitlines (snd e) ++ [[]]) :: block_buffers (e' :: es')).
      cbn [fold_left].
      rewrite (collect_step_plain extracted e _ (proj2 He) Hfe Hmid).
      rewrite IH by assumption. now rewrite <- app_assoc.
Qed.

Lemma blocks_of_present M ids :
  omap (section_block M) ids = map block_of (present_in M ids).
Proof.
  unfold present_in. induction ids as [|id ids IH]; [ reflexivity | ].
  cbn [omap list_omap]. unfold section_block at 1. cbv zeta.
  destruct (nonempty (strip (default [] (get M id)))); simpl; now rewrite IH.
Qed.

Lemma present_in_sound M ids e :
  In e (present_in M ids) ->
  In (fst e) ids /\ snd e = strip (default [] (get M (fst e))) /\ snd e <> [].
Proof.
  unfold present_in. induction ids as [|id ids IH]; [ intros [] | ].
  cbn [omap list_omap]. cbv zeta.
  destruct (nonempty (strip (default [] (get M id)))) eqn:Hc; simpl.
  - intros [<- | H].
    + simpl. apply nonempty_true in Hc. auto.
    + destruct (IH H) as (? & ? & ?). auto.
  - intros H. destruct (IH H) as (? & ? & ?). auto.
Qed.

Lemma present_in_plain M ids :
  plain_section_map M ->
  Forall (fun id => heading_resolves id = true) ids ->
  Forall plain_entry (present_in M ids).
Proof.
  intros HM Hids. apply List.Forall_forall. intros e He.
  destruct (present_in_sound M ids e He) as (Hin & Hc & Hne).
  rewrite List.Forall_forall in Hids. split; [ now apply Hids | ].
  destruct (get M (fst e)) as [v|] eqn:Hget.
  - destruct (HM _ _ Hget) as (_ & Hv & Hstrip & Hlf & Hplain).
    simpl in Hc. rewrite Hstrip in Hc. rewrite Hc. repeat split; assumption.
  - simpl in Hc. rewrite Hc in Hne. now contradiction Hne.
Qed.

Lemma present_in_NoDup M ids : NoDup ids -> NoDup (map fst (present_in M ids)).
Proof.
  induction 1 as [|id ids Hnew Hnd IH]; [ constructor | ].
  unfold present_in in *. cbn [omap list_omap]. cbv zeta.
  destruct (nonempty (strip (default [] (get M id)))); simpl; [ | exact IH ].
  constructor; [ | exact IH ].
  intros Hin. apply Hnew. apply list_elem_of_In in Hin. apply in_map_iff in Hin.
  destruct Hin as (e & <- & He). apply list_elem_of_In.
  now destruct (present_in_sound M ids e He).
Qed.

Lemma get_present_in M ids k :
  get (present_in M ids) k
  = if mem_str k ids
    then (if nonempty (strip (default [] (get M k)))
          then Some (strip (default [] (get M k))) else None)
    else None.
Proof.
  unfold present_in. induction ids as [|id ids IH]; [ reflexivity | ].
  cbn [omap list_omap]. cbv zeta. unfold mem_str in *. cbn [existsb].
  destruct (PyStr.eqb k id) eqn:Hk.
  - apply eqb_eq in Hk. subst id. simpl orb.
    destruct (nonempty (strip (default [] (get M k)))) eqn:Hc.
    + unfold get. simpl. now rewrite eqb_refl.
    + rewrite IH. destruct (existsb (PyStr.eqb k) ids); reflexivity.
  - simpl orb.
    destruct (nonempty (strip (default [] (get M id)))); [ | exact IH ].
    unfold get in *. simpl.
    assert (Hid : PyStr.eqb id k = false).
    { apply eqb_neq. intros ->. now rewrite eqb_refl in Hk. }
    rewrite Hid. exact IH.
Qed.

(** The joined blocks start with a [#] and end with a content. *)
Lemma joined_blocks_shape es :
  es <> [] -> Forall plain_entry es ->
  (exists rest, join [LF; LF] (map block_of es) = "#"%char :: rest)
  /\ (exists before v, join [LF; LF] (map block_of es) = before ++ v /\ plain_content v).
Proof.
  intros Hne Hes. split.
  - destruct es as [|e es]; [ congruence | ].
    destruct es; eexists; reflexivity.
  - induction Hes as [|e es He Hes IH]; [ congruence | ].
    destruct es as [|e' es'].
    + exists (heading_of (fst e) ++ [LF]), (snd e). split; [ | exact (proj2 He) ].
      simpl. unfold block_of. now rewrite <- app_assoc.
    + destruct IH as (before & v & Heq & Hv); [ discriminate | ].
      exists (block_of e ++ [LF; LF] ++ before), v. split; [ | exact Hv ].
      change (map block_of (e :: e' :: es')) with (block_of e :: map block_of (e' :: es')).
      change (map block_of (e' :: es')) with (block_of e' :: map block_of es') in *.
      rewrite join_cons2, Heq, <- !app_assoc. reflexivity.
Qed.

Lemma joined_blocks_stripped es :
  es <> [] -> Forall plain_entry es ->
  strip (join [LF; LF] (map block_of es)) = join [LF; LF] (map block_of es).
Proof.
  intros Hne Hes.
  destruct (joined_blocks_shape es Hne Hes) as [(rest & Hhead) (before & v & Htail & Hv)].
  apply trimmed_strip_by. split.
  - intros c r Heq. rewrite Hhead in Heq. inversion Heq; subst. reflexivity.
  - intros r c Heq. rewrite Htail in Heq.
    destruct Hv as (Hvne & Hstrip & _).
    destruct (exists_last Hvne) as (r' & c' & Hv').
    pose proof (strip_by_trimmed isspace v) as [_ Hlast].
    fold (strip v) in Hlast. rewrite Hstrip in Hlast.
    specialize (Hlast r' c' Hv').
    rewrite Hv', app_assoc in Heq. apply app_inj_tail in Heq. destruct Heq as [_ ->].
    exact Hlast.
Qed.

Lemma section_order_NoDup : NoDup _required_final_report_section_order.
Proof. apply (bool_decide_unpack _). vm_compute. exact I. Qed.

Lemma heading_resolves_all :
  Forall (fun id => heading_resolves id = true) _required_final_report_section_order.
Proof. apply List.Forall_forall. apply forallb_forall. exact headings_resolve. Qed.

Lemma extract_of_build M :
  plain_section_map M ->
  _extract_required_sections_from_markdown (_build_final_report_markdown_from_sections M)
  = present_sections M.
Proof.
  intros HM.
  pose proof (present_in_plain M _ HM heading_resolves_all) as Hplain.
  pose proof (present_in_NoDup M _ section_order_NoDup) as Hnd.
  unfold _build_final_report_markdown_from_sections. cbv zeta.
  rewrite blocks_of_present.
  change (present_sections M) with (present_in M _required_final_report_section_order).
  destruct (present_in M _required_final_report_section_order) as [|e es] eqn:Epresent.
  - reflexivity.
  - change (map block_of (e :: es)) with (block_of e :: map block_of es).
    cbv iota.
    change (block_of e :: map block_of es) with (map block_of (e :: es)).
    rewrite joined_blocks_stripped by (assumption || discriminate).
    unfold _extract_required_sections_from_markdown.
    rewrite splitlines_blocks by exact Hplain.
    rewrite scan_blocks;
      [ | exact Hplain | exact Hnd | apply List.Forall_forall; reflexivity ].
    rewrite app_nil_l.
    unfold collect_sections. fold collect_step.
    rewrite collect_buffers;
      [ reflexivity | exact Hplain | exact Hnd | apply List.Forall_forall; reflexivity ].
Qed.

(** C8. For a section map whose keys are required section ids and whose
    contents are non-empty, stripped, broken into lines by LF only and free
    of heading lines, extracting the sections of the assembled report gives
    the map back: every key has the content it had. *)
Theorem section_round_trip M :
  plain_section_map M ->
  forall k,
    get (_extract_required_sections_from_markdown
           (_build_final_report_markdown_from_sections M)) k
    = get M k.
Proof.
  intros HM k. rewrite extract_of_build by exact HM.
  unfold present_sections. fold (present_in M _required_final_report_section_order).
  rewrite get_present_in.
  destruct (get M k) as [v|] eqn:Hget.
  - destruct (HM _ _ Hget) as (Hk & Hv & Hstrip & _).
    apply mem_str_In in Hk. rewrite Hk. simpl default. rewrite Hstrip.
    apply nonempty_true in Hv. now rewrite Hv.
  - simpl default. destruct (mem_str k _); reflexivity.
Qed.

(** ** Decidable forms of the side conditions *)

Lemma lf_only_check (s : str) :
  forallb (fun c => implb (is_linebreak c) (Ascii.eqb c LF)) s = true -> lf_only s.
Proof.
  intros H. apply List.Forall_forall. intros c Hc Hbreak.
  apply (proj1 (forallb_forall _ _) H) in Hc. rewrite Hbreak in Hc.
  now apply Ascii.eqb_eq.
Qed.

Lemma no_heading_line_check (s : str) :
  forallb (fun line => match heading_match line with None => true | Some _ => false end)
    (splitlines s) = true ->
  no_heading_line s.
Proof.
  intros H. apply List.Forall_forall. intros line Hline.
  apply (proj1 (forallb_forall _ _) H) in Hline.
  now destruct (heading_match line).
Qed.


(** The sample map with two plain sections is a plain section map. *)
Lemma plain_map_is_plain : plain_section_map plain_map.
Proof.
  intros k v. unfold plain_map, get. cbn [assoc_get].
  destruct (PyStr.eqb (lit "scores") k) eqn:H1.
  - apply eqb_eq in H1. subst k. intros Hv.
    assert (Hval : v = lit "overall: 7") by congruence. clear Hv. subst v.
    split; [ apply mem_str_In; vm_compute; reflexivity | ].
    split; [ vm_compute; intros HF; discriminate HF | ].
    split; [ vm_compute; reflexivity | ].
    split; [ apply lf_only_check | apply no_heading_line_check ]; vm_compute; reflexivity.
  - destruct (PyStr.eqb (lit "summary") k) eqn:H2; [ | intros HF; discriminate HF ].
    apply eqb_eq in H2. subst k. intros Hv.
    assert (Hval : v = lit "a" ++ [LF] ++ lit "b") by congruence. clear Hv. subst v.
    split; [ apply mem_str_In; vm_compute; reflexivity | ].
    split; [ vm_compute; intros HF; discriminate HF | ].
    split; [ vm_compute; reflexivity | ].
    split; [ apply lf_only_check | apply no_heading_line_check ]; vm_compute; reflexivity.
Qed.

(** ** Worked instances *)

(** C1, instance: on the sample job, after the eleven sections are
    committed, one more write of a fresh summary answers [ok] and leaves the
    event log as it was. *)
Lemma final_write_after_commit_witness :
  status_of (snd (Tools.review_final_markdown_write sample_externals zero_tokens
                    (section_call "summary" "fresh") committed_world))
  = Some (jstr "ok")
  /\ events (fst (Tools.review_final_markdown_write sample_externals zero_tokens
                    (section_call "summary" "fresh") committed_world))
     = events committed_world.
Proof.
  destruct (final_write_after_commit_is_inert sample_externals zero_tokens
              (section_call "summary" "fresh") committed_world)
    as ((p & Hout & Hstatus & _) & _ & _ & _ & _ & _ & Hevents).
  - vm_compute. reflexivity.
  - split; [ rewrite Hout; exact Hstatus | exact Hevents ].
Defined.

(** C1, counterexample: the same call emits no event named
    [final_report_write_ignored_after_commit]; the log is unchanged. *)
Lemma no_event_after_commit :
  committed committed_world = true
  /\ count_events "final_report_write_ignored_after_commit"
       (events (fst (Tools.review_final_markdown_write sample_externals zero_tokens
                       (section_call "summary" "fresh") committed_world)))
     = 0%nat
  /\ length (events (fst (Tools.review_final_markdown_write sample_externals zero_tokens
                            (section_call "summary" "fresh") committed_world)))
     = length (events committed_world).
Proof. vm_compute. repeat split. Qed.

(** C3, counterexample: with the default settings (gates off, threshold 3)
    and no paper search yet, [pdf_annotate] is refused for want of paper
    searches. *)
Lemma annotate_gate_with_gates_off :
  enable_final_gates (settings (rt sample_world)) = false
  /\ reason_of (snd (Tools.pdf_annotate zero_tokens (lit "id-1") 1 1 1 (lit "typo") None
                       (lit "suggestion") None sample_world))
     = Some (jstr "paper_search_calls_not_met").
Proof. vm_compute. split; reflexivity. Qed.


(** C6, counterexample: a result that reports back one empty question puts
    one signature, the empty one, in the set, and [distinct_queries] stays 0. *)
Lemma empty_question_not_counted :
  size (signature_set (encountered sample_externals (inl result_with_empty_question)
                         None QNone)) = 1%nat
  /\ size (paper_search_signatures
             (rt (fst (Tools.paper_search sample_externals zero_tokens
                         (inl result_with_empty_question) None QNone sample_world)))) = 1%nat
  /\ distinct_queries
       (paper_search_usage
          (rt (fst (Tools.paper_search sample_externals zero_tokens
                      (inl result_with_empty_question) None QNone sample_world)))) = 0.
Proof. vm_compute. repeat split. Qed.

(** C9, counterexample: with [top_k = 0] the search returns three hits,
    though [clamp(0, 1, 50)] is 1. *)
Lemma three_hits_for_top_k_zero :
  clamp 0 1 50 = 1
  /\ (exists p, snd (Tools.pdf_search zero_tokens (lit "deep") 0 sample_world) = Returned p
                /\ field p "status" = Some (jstr "ok")
                /\ field p "count" = Some (JInt 3)).
Proof. split; [ reflexivity | ]. eexists. vm_compute. repeat split. Qed.



(** C8, counterexample: a summary that holds a sub-heading loses the
    heading and what follows it. *)
Lemma subheading_breaks_round_trip :
  strip (lit "a" ++ [LF] ++ lit "### Notes" ++ [LF] ++ lit "b")
  = lit "a" ++ [LF] ++ lit "### Notes" ++ [LF] ++ lit "b"
  /\ get map_with_subheading (lit "summary")
     = Some (lit "a" ++ [LF] ++ lit "### Notes" ++ [LF] ++ lit "b")
  /\ get (_extract_required_sections_from_markdown
            (_build_final_report_markdown_from_sections map_with_subheading))
         (lit "summary")
     = Some (lit "a").
Proof. vm_compute. repeat split. Qed.



(** C8, instance: the summary of the sample plain map survives the round
    trip. *)
Lemma plain_map_round_trip :
  get (_extract_required_sections_from_markdown
         (_build_final_report_markdown_from_sections plain_map))
      (lit "summary")
  = get plain_map (lit "summary").
Proof. exact (section_round_trip plain_map plain_map_is_plain (lit "summary")). Defined.

(** * Further properties of the code *)

(** ** Words, whitespace and letter case *)

Lemma isspace_lower c : isspace (lower_char c) = isspace c.
Proof. destruct c as [[] [] [] [] [] [] [] []]; reflexivity. Qed.

Lemma lower_char_idem c : lower_char (lower_char c) = lower_char c.
Proof. destruct c as [[] [] [] [] [] [] [] []]; reflexivity. Qed.

Lemma lower_idem s : lower (lower s) = lower s.
Proof.
  unfold lower. rewrite map_map. apply map_ext. intros c. apply lower_char_idem.
Qed.

Lemma lstrip_lower s : lstrip (lower s) = lower (lstrip s).
Proof.
  unfold lstrip, lower. induction s as [|c r IH]; [ reflexivity | ].
  simpl. rewrite isspace_lower. destruct (isspace c); [ exact IH | reflexivity ].
Qed.

Lemma rstrip_lower s : rstrip (lower s) = lower (rstrip s).
Proof.
  unfold rstrip, lower. induction s as [|c r IH]; [ reflexivity | ].
  simpl. rewrite IH, isspace_lower.
  destruct (rstrip_by isspace r); simpl; [ destruct (isspace c) | ]; reflexivity.
Qed.

Lemma strip_lower s : strip (lower s) = lower (strip s).
Proof.
  unfold strip, strip_by.
  change (rstrip_by isspace (lower s)) with (rstrip (lower s)).
  rewrite rstrip_lower. apply lstrip_lower.
Qed.

Lemma nonspace_false c : isspace c = true -> nonspace c = false.
Proof. intros H. unfold nonspace. now rewrite H. Qed.

Lemma nonspace_true c : isspace c = false -> nonspace c = true.
Proof. intros H. unfold nonspace. now rewrite H. Qed.

Lemma span_space c r : isspace c = true -> span nonspace (c :: r) = ([], c :: r).
Proof. intros H. simpl. now rewrite (nonspace_false _ H). Qed.

Lemma span_nonspace c r :
  isspace c = false ->
  span nonspace (c :: r) = (c :: fst (span nonspace r), snd (span nonspace r)).
Proof.
  intros H. simpl. rewrite (nonspace_true _ H). now destruct (span nonspace r).
Qed.

Lemma split_ws_from_cur s : forall cur,
  cur <> [] ->
  split_ws_from cur s
  = (rev cur ++ fst (span nonspace s)) :: split_ws (snd (span nonspace s)).
Proof.
  induction s as [|c r IH]; intros cur Hcur.
  - simpl. rewrite app_nil_r. destruct cur; [ contradiction | reflexivity ].
  - destruct (isspace c) eqn:Hc.
    + rewrite (span_space _ _ Hc). cbn [fst snd]. rewrite app_nil_r.
      unfold split_ws. cbn [split_ws_from]. rewrite Hc.
      destruct cur; [ contradiction | reflexivity ].
    + rewrite (span_nonspace _ _ Hc). cbn [fst snd split_ws_from]. rewrite Hc.
      rewrite IH by discriminate. cbn [rev]. rewrite <- app_assoc. reflexivity.
Qed.

Lemma split_ws_space c r : isspace c = true -> split_ws (c :: r) = split_ws r.
Proof. intros H. unfold split_ws. simpl. now rewrite H. Qed.

Lemma split_ws_word c r :
  isspace c = false ->
  split_ws (c :: r) = (c :: fst (span nonspace r)) :: split_ws (snd (span nonspace r)).
Proof.
  intros H. unfold split_ws at 1. simpl. rewrite H.
  now rewrite split_ws_from_cur by discriminate.
Qed.

Lemma split_ws_from_words s : forall cur,
  Forall (fun c => nonspace c = true) cur ->
  Forall (word_of nonspace) (split_ws_from cur s).
Proof.
  assert (Hrev : forall cur, cur <> [] -> Forall (fun c => nonspace c = true) cur ->
                             word_of nonspace (rev cur)).
  { intros cur Hne Hcur. split.
    - intros HF. apply Hne. rewrite <- (rev_involutive cur), HF. reflexivity.
    - apply List.Forall_forall. intros x Hx. apply in_rev in Hx.
      exact (proj1 (List.Forall_forall _ _) Hcur x Hx). }
  induction s as [|c r IH]; intros cur Hcur; simpl.
  - destruct cur as [|x cur']; constructor; [ | constructor ].
    apply Hrev; [ discriminate | exact Hcur ].
  - destruct (isspace c) eqn:Hc.
    + destruct cur as [|x cur']; [ apply IH; constructor | ].
      constructor; [ apply Hrev; [ discriminate | exact Hcur ] | apply IH; constructor ].
    + apply IH. constructor; [ unfold nonspace; now rewrite Hc | exact Hcur ].
Qed.

Lemma split_ws_words s : Forall (word_of nonspace) (split_ws s).
Proof. apply split_ws_from_words. constructor. Qed.

Lemma split_ws_from_app w : forall cur t,
  Forall (fun c => nonspace c = true) w ->
  split_ws_from cur (w ++ t) = split_ws_from (rev w ++ cur) t.
Proof.
  induction w as [|c w IH]; intros cur t Hw; [ reflexivity | ].
  inversion Hw as [|? ? Hc Hw']; subst. simpl.
  unfold nonspace in Hc. apply negb_true_iff in Hc. rewrite Hc.
  rewrite IH by exact Hw'. now rewrite <- app_assoc.
Qed.

Lemma split_ws_join ws :
  Forall (word_of nonspace) ws -> split_ws (join [" "%char] ws) = ws.
Proof.
  induction ws as [|w ws IH]; intros H; [ reflexivity | ].
  inversion H as [|? ? [Hne Hw] Hws]; subst.
  destruct ws as [|w' ws'].
  - simpl. unfold split_ws. rewrite <- (app_nil_r w) at 1.
    rewrite split_ws_from_app by exact Hw. rewrite app_nil_r. simpl.
    destruct (rev w) eqn:Hr; [ | now rewrite <- Hr, rev_involutive ].
    exfalso. apply Hne. rewrite <- (rev_involutive w), Hr. reflexivity.
  - rewrite join_cons2. unfold split_ws.
    rewrite split_ws_from_app by exact Hw. rewrite app_nil_r.
    cbn [app split_ws_from]. change (isspace " "%char) with true. cbv iota.
    change (split_ws_from [] (join [" "%char] (w' :: ws')))
      with (split_ws (join [" "%char] (w' :: ws'))).
    rewrite IH by exact Hws.
    destruct (rev w) eqn:Hr; [ | now rewrite <- Hr, rev_involutive ].
    exfalso. apply Hne. rewrite <- (rev_involutive w), Hr. reflexivity.
Qed.

Lemma split_ws_from_lower s : forall cur,
  split_ws_from (lower cur) (lower s) = map lower (split_ws_from cur s).
Proof.
  unfold lower.
  induction s as [|c r IH]; intros cur; cbn [split_ws_from map].
  - destruct cur as [|x cur']; [ reflexivity | ].
    cbn [map]. rewrite map_rev. reflexivity.
  - rewrite isspace_lower. destruct (isspace c).
    + destruct cur as [|x cur']; [ apply (IH []) | ].
      cbn [map]. rewrite map_rev. cbn [map]. f_equal. apply (IH []).
    + apply (IH (c :: cur)).
Qed.

Lemma split_ws_lower s : split_ws (lower s) = map lower (split_ws s).
Proof. apply (split_ws_from_lower s []). Qed.

Lemma rstrip_cons_nonspace c s : isspace c = false -> rstrip (c :: s) = c :: rstrip s.
Proof.
  intros H. unfold rstrip. simpl. rewrite H. now destruct (rstrip_by isspace s).
Qed.

(** What is left of a collapsed text once its trailing space is removed. *)
Lemma rstrip_collapse s :
  rstrip (collapse_ws s)
  = join [" "%char] (fst (span nonspace s) :: split_ws (snd (span nonspace s))).
Proof.
  induction s as [|c r IH]; [ reflexivity | ].
  destruct (isspace c) eqn:Hc.
  - rewrite (span_space _ _ Hc). cbn [fst snd]. rewrite (split_ws_space _ _ Hc).
    destruct r as [|c' r'].
    + cbn [collapse_ws]. rewrite Hc. reflexivity.
    + destruct (isspace c') eqn:Hc'.
      * replace (collapse_ws (c :: c' :: r')) with (collapse_ws (c' :: r'))
          by (cbn [collapse_ws]; now rewrite Hc, Hc').
        rewrite IH, (span_space _ _ Hc'). reflexivity.
      * replace (collapse_ws (c :: c' :: r')) with (" "%char :: collapse_ws (c' :: r'))
          by (cbn [collapse_ws]; now rewrite Hc, Hc').
        rewrite (span_nonspace _ _ Hc') in IH. cbn [fst snd] in IH.
        rewrite (split_ws_word _ _ Hc'), join_cons2.
        unfold rstrip in *. cbn [rstrip_by]. rewrite IH, join_cons_head. reflexivity.
  - rewrite (span_nonspace _ _ Hc). cbn [fst snd].
    replace (collapse_ws (c :: r)) with (c :: collapse_ws r)
      by (cbn [collapse_ws]; now rewrite Hc).
    rewrite (rstrip_cons_nonspace _ _ Hc), IH, join_cons_head. reflexivity.
Qed.

Lemma word_head w :
  word_of nonspace w -> exists c r, w = c :: r /\ isspace c = false.
Proof.
  intros [Hne Hw]. destruct w as [|c r]; [ contradiction | ].
  exists c, r. split; [ reflexivity | ].
  inversion Hw as [|? ? Hc _]; subst. unfold nonspace in Hc. now apply negb_true_iff in Hc.
Qed.

Lemma join_words_head ws :
  Forall (word_of nonspace) ws -> ws <> [] ->
  exists c r, join [" "%char] ws = c :: r /\ isspace c = false.
Proof.
  intros H Hne. destruct ws as [|w ws']; [ contradiction | ].
  inversion H as [|? ? Hw _]; subst.
  destruct (word_head _ Hw) as (c & r & -> & Hc).
  exists c. rewrite join_cons_head. eauto.
Qed.

Lemma lstrip_nonspace c r : isspace c = false -> lstrip (c :: r) = c :: r.
Proof. intros H. unfold lstrip. cbn [lstrip_by]. now rewrite H. Qed.

(** [re.sub(r'\s+', ' ', s).strip()] is [' '.join(s.split())]. *)
Lemma strip_collapse s : strip (collapse_ws s) = join [" "%char] (split_ws s).
Proof.
  unfold strip, strip_by.
  change (rstrip_by isspace (collapse_ws s)) with (rstrip (collapse_ws s)).
  change (lstrip_by isspace) with lstrip.
  rewrite rstrip_collapse.
  destruct s as [|c r]; [ reflexivity | ].
  destruct (isspace c) eqn:Hc.
  - rewrite (span_space _ _ Hc). cbn [fst snd].
    pose proof (split_ws_words (c :: r)) as Hwords.
    destruct (split_ws (c :: r)) as [|w ws] eqn:Hsplit; [ reflexivity | ].
    destruct (join_words_head (w :: ws) Hwords) as (c0 & r0 & Hj & Hc0); [ discriminate | ].
    rewrite join_cons2, Hj. cbn [app]. unfold lstrip. cbn [lstrip_by].
    change (isspace " "%char) with true. cbv iota. now rewrite Hc0.
  - rewrite (span_nonspace _ _ Hc). cbn [fst snd].
    rewrite (split_ws_word _ _ Hc), join_cons_head. apply (lstrip_nonspace _ _ Hc).
Qed.

Lemma strip_join_words ws :
  Forall (word_of nonspace) ws -> strip (join [" "%char] ws) = join [" "%char] ws.
Proof.
  intros H.
  rewrite <- (split_ws_join ws H) at 2.
  rewrite <- strip_collapse, <- (strip_idem (collapse_ws _)), strip_collapse.
  now rewrite (split_ws_join ws H).
Qed.

Lemma lower_app a b : lower (a ++ b) = lower a ++ lower b.
Proof. apply map_app. Qed.

Lemma lower_join ws : lower (join [" "%char] ws) = join [" "%char] (map lower ws).
Proof.
  induction ws as [|w ws IH]; [ reflexivity | ].
  destruct ws as [|w' ws']; [ reflexivity | ].
  rewrite join_cons2. cbn [map]. rewrite join_cons2, !lower_app, IH. reflexivity.
Qed.

Lemma split_ws_from_rstrip s : forall cur,
  split_ws_from cur (rstrip s) = split_ws_from cur s.
Proof.
  unfold rstrip.
  induction s as [|c r IH]; intros cur; [ reflexivity | ].
  cbn [rstrip_by]. destruct (rstrip_by isspace r) as [|x xs] eqn:Hr.
  - destruct (isspace c) eqn:Hc; cbn [split_ws_from]; rewrite Hc.
    + destruct cur as [|y cur']; rewrite <- IH; reflexivity.
    + rewrite <- IH. reflexivity.
  - cbn [split_ws_from]. destruct (isspace c); [ destruct cur | ]; now rewrite <- IH.
Qed.

Lemma split_ws_lstrip s : split_ws (lstrip s) = split_ws s.
Proof.
  unfold lstrip. induction s as [|c r IH]; [ reflexivity | ].
  cbn [lstrip_by]. destruct (isspace c) eqn:Hc; [ | reflexivity ].
  now rewrite (split_ws_space _ _ Hc).
Qed.

Lemma split_ws_strip s : split_ws (strip s) = split_ws s.
Proof.
  unfold strip, strip_by. change (lstrip_by isspace) with lstrip.
  rewrite split_ws_lstrip. apply (split_ws_from_rstrip s []).
Qed.

Lemma word_lower w : word_of nonspace w -> word_of nonspace (lower w).
Proof.
  intros [Hne Hw]. split.
  - destruct w; [ contradiction | discriminate ].
  - unfold lower. apply List.Forall_forall. intros c Hc.
    apply in_map_iff in Hc. destruct Hc as (x & <- & Hx).
    unfold nonspace. rewrite isspace_lower.
    exact (proj1 (List.Forall_forall _ _) Hw x Hx).
Qed.

(** ** Query signatures *)

Lemma signature_words t :
  _normalize_signature t = join [" "%char] (map lower (split_ws t)).
Proof.
  unfold _normalize_signature. now rewrite split_ws_lower, split_ws_strip.
Qed.

Lemma lowered_words t : Forall (word_of nonspace) (map lower (split_ws t)).
Proof.
  apply List.Forall_forall. intros w Hw. apply in_map_iff in Hw.
  destruct Hw as (x & <- & Hx). apply word_lower.
  exact (proj1 (List.Forall_forall _ _) (split_ws_words t) x Hx).
Qed.

(** X1. Two texts have the same query signature exactly when their words,
    lower-cased, are the same; and the signature of a signature is the
    signature itself. *)
Theorem signature_equal_iff (a b : str) :
  (_normalize_signature a = _normalize_signature b
   <-> map lower (split_ws a) = map lower (split_ws b))
  /\ _normalize_signature (_normalize_signature a) = _normalize_signature a.
Proof.
  split.
  - rewrite !signature_words. split; [ | now intros -> ].
    intros H. apply (f_equal split_ws) in H.
    now rewrite !split_ws_join in H by apply lowered_words.
  - rewrite (signature_words (_normalize_signature a)), signature_words.
    rewrite split_ws_join by apply lowered_words.
    rewrite map_map. f_equal. apply map_ext. intros w. apply lower_idem.
Qed.

(** ** Section names *)

Lemma plain_char_facts c :
  plain_char c = true ->
  lower_char c = c
  /\ is_token_char c = true
  /\ (isspace c = true -> c = " "%char)
  /\ Ascii.eqb c "&"%char = false /\ Ascii.eqb c "+"%char = false
  /\ Ascii.eqb c "/"%char = false /\ Ascii.eqb c "\"%char = false
  /\ Ascii.eqb c "_"%char = false /\ Ascii.eqb c "-"%char = false.
Proof.
  destruct c as [[] [] [] [] [] [] [] []]; intros H;
    try (exfalso; vm_compute in H; discriminate H);
    repeat split; try reflexivity; intros HF; vm_compute in HF; discriminate HF.
Qed.

Lemma token_word_char c :
  is_token_char c = true -> nonspace c = true -> is_lower_alnum c = true.
Proof.
  unfold is_token_char, nonspace, is_lower_alnum. intros H Hn.
  apply negb_true_iff in Hn. rewrite Hn, orb_false_r in H. exact H.
Qed.

Lemma alnum_nonspace c : is_lower_alnum c = true -> nonspace c = true.
Proof.
  destruct c as [[] [] [] [] [] [] [] []]; intros H;
    try reflexivity; vm_compute in H; discriminate H.
Qed.

Lemma alnum_plain c : is_lower_alnum c = true -> plain_char c = true.
Proof. intros H. unfold plain_char. now rewrite H. Qed.

Lemma split_ws_from_chars s : forall cur w c,
  In w (split_ws_from cur s) -> In c w -> In c cur \/ In c s.
Proof.
  induction s as [|x r IH]; intros cur w c Hw Hc; cbn [split_ws_from] in Hw.
  - destruct cur as [|y cur']; [ contradiction | ].
    destruct Hw as [<- | []]. left. now apply in_rev.
  - destruct (isspace x).
    + destruct cur as [|y cur'].
      * destruct (IH [] w c Hw Hc) as [[] | H]. right. now right.
      * destruct Hw as [<- | Hw]; [ left; now apply in_rev | ].
        destruct (IH [] w c Hw Hc) as [[] | H]. right. now right.
    + destruct (IH (x :: cur) w c Hw Hc) as [[<- | H] | H].
      * right. now left.
      * now left.
      * right. now right.
Qed.

Lemma split_ws_word_class (p : ascii -> bool) s :
  Forall (fun c => p c = true) s ->
  (forall c, p c = true -> nonspace c = true -> is_lower_alnum c = true) ->
  Forall (word_of is_lower_alnum) (split_ws s).
Proof.
  intros Hs Hp. apply List.Forall_forall. intros w Hw.
  destruct (proj1 (List.Forall_forall _ _) (split_ws_words s) w Hw) as [Hne Hns].
  split; [ exact Hne | ].
  apply List.Forall_forall. intros c Hc.
  destruct (split_ws_from_chars s [] w c Hw Hc) as [[] | Hin].
  apply Hp.
  - exact (proj1 (List.Forall_forall _ _) Hs c Hin).
  - exact (proj1 (List.Forall_forall _ _) Hns c Hc).
Qed.

Lemma alnum_words_nonspace ws :
  Forall (word_of is_lower_alnum) ws -> Forall (word_of nonspace) ws.
Proof.
  apply List.Forall_impl. intros w [Hne Hw]. split; [ exact Hne | ].
  revert Hw. apply List.Forall_impl. apply alnum_nonspace.
Qed.

Lemma join_plain ws :
  Forall (word_of is_lower_alnum) ws ->
  Forall (fun c => plain_char c = true) (join [" "%char] ws).
Proof.
  induction ws as [|w ws IH]; intros H; [ constructor | ].
  inversion H as [|? ? [_ Hw] Hws]; subst.
  assert (Hpw : Forall (fun c => plain_char c = true) w).
  { revert Hw. apply List.Forall_impl. apply alnum_plain. }
  destruct ws as [|w' ws']; [ exact Hpw | ].
  rewrite join_cons2. apply Forall_app. split; [ exact Hpw | ].
  apply Forall_app. split; [ repeat constructor | apply IH, Hws ].
Qed.

Lemma replace_char_absent c by_ s :
  Forall (fun x => Ascii.eqb x c = false) s -> replace_char c by_ s = s.
Proof.
  unfold replace_char. induction 1 as [|x r Hx _ IH]; [ reflexivity | ].
  cbn [flat_map]. now rewrite Hx, IH.
Qed.

(** The normal form of a section name: words of lower-case letters and
    digits, one space between two words. *)
Lemma section_token_words value :
  exists words,
    _normalize_final_report_section_token value = join [" "%char] words
    /\ Forall (word_of is_lower_alnum) words.
Proof.
  unfold _normalize_final_report_section_token.
  destruct (nonempty (lower (strip value))); [ | exists []; split; [ reflexivity | constructor ] ].
  rewrite strip_collapse. eexists. split; [ reflexivity | ].
  apply (split_ws_word_class is_token_char).
  - apply List.Forall_forall. intros c Hc. apply in_map_iff in Hc.
    destruct Hc as (x & <- & _). destruct (is_token_char x) eqn:Hx; [ exact Hx | reflexivity ].
  - apply token_word_char.
Qed.

Lemma section_token_fixed ws :
  Forall (word_of is_lower_alnum) ws ->
  _normalize_final_report_section_token (join [" "%char] ws) = join [" "%char] ws.
Proof.
  intros Hws.
  pose proof (join_plain ws Hws) as Hplain.
  pose proof (alnum_words_nonspace ws Hws) as Hns.
  unfold _normalize_final_report_section_token.
  rewrite (strip_join_words ws Hns).
  assert (Hlow : lower (join [" "%char] ws) = join [" "%char] ws).
  { unfold lower. rewrite <- (map_id (join [" "%char] ws)) at 2.
    apply map_ext_Forall. revert Hplain. apply List.Forall_impl.
    intros c Hc. apply (plain_char_facts c Hc). }
  rewrite Hlow.
  destruct (nonempty (join [" "%char] ws)) eqn:Hne;
    [ | symmetry; now apply nonempty_false ].
  unfold space_for.
  assert (Habsent : forall x by_,
             In x ["&"; "+"; "/"; "\"; "_"; "-"]%char ->
             replace_char x by_ (join [" "%char] ws) = join [" "%char] ws).
  { intros x by_ Hx. apply replace_char_absent. revert Hplain. apply List.Forall_impl.
    intros c Hc. pose proof (plain_char_facts c Hc) as Hf.
    cbn [In] in Hx. intuition (subst; assumption). }
  rewrite !Habsent by (cbn [In]; tauto).
  assert (Hmap : map (fun c => if is_token_char c then c else " "%char) (join [" "%char] ws)
                 = join [" "%char] ws).
  { rewrite <- (map_id (join [" "%char] ws)) at 2.
    apply map_ext_Forall. revert Hplain. apply List.Forall_impl.
    intros c Hc. now rewrite (proj1 (proj2 (plain_char_facts c Hc))). }
  rewrite Hmap, strip_collapse. now rewrite (split_ws_join ws Hns).
Qed.

(** X2. The normalized form of a section name consists of words of
    lower-case ASCII letters and digits separated by single spaces, and
    normalizing it again changes nothing. *)
Theorem section_token_normal_form (value : str) :
  (exists words,
     _normalize_final_report_section_token value = join [" "%char] words
     /\ Forall (word_of is_lower_alnum) words)
  /\ _normalize_final_report_section_token (_normalize_final_report_section_token value)
     = _normalize_final_report_section_token value.
Proof.
  destruct (section_token_words value) as (ws & Hout & Hws).
  split; [ now exists ws | ].
  rewrite Hout. now apply section_token_fixed.
Qed.

Lemma first_some_In {A B} (f : A -> option B) l y :
  first_some f l = Some y -> exists x, In x l /\ f x = Some y.
Proof.
  induction l as [|x l IH]; [ intros HF; discriminate HF | ].
  cbn [first_some]. destruct (f x) as [y'|] eqn:Hx.
  - intros Hy. inversion Hy; subst. exists x. split; [ now left | exact Hx ].
  - intros Hy. destruct (IH Hy) as (x' & Hin & Hf). exists x'. split; [ now right | exact Hf ].
Qed.

Lemma assoc_get_In {V} (d : list (str * V)) k v :
  assoc_get d k = Some v -> In (k, v) d.
Proof.
  induction d as [|[k' v'] d IH]; [ intros HF; discriminate HF | ].
  cbn [assoc_get]. destruct (PyStr.eqb k' k) eqn:Hk.
  - intros Hv. inversion Hv; subst. apply eqb_eq in Hk. subst. now left.
  - intros Hv. right. apply IH, Hv.
Qed.

Lemma alias_map_targets :
  forall kv, In kv _required_final_report_alias_map ->
             snd kv ∈ _required_final_report_section_order.
Proof.
  assert (H : forallb (fun kv => mem_str (snd kv) _required_final_report_section_order)
                _required_final_report_alias_map = true) by (vm_compute; reflexivity).
  intros kv Hkv. apply mem_str_In. exact (proj1 (forallb_forall _ _) H kv Hkv).
Qed.

Lemma resolve_in_order key id :
  _resolve_final_report_section_id key = Some id ->
  id ∈ _required_final_report_section_order.
Proof.
  unfold _resolve_final_report_section_id.
  destruct (nonempty (_normalize_final_report_section_token key));
    [ | intros HF; discriminate HF ].
  destruct (get _required_final_report_alias_map
              (_normalize_final_report_section_token key)) as [direct|] eqn:Hget.
  - destruct (nonempty direct).
    + intros Hid. inversion Hid; subst.
      apply (alias_map_targets (_normalize_final_report_section_token key, id)),
        assoc_get_In, Hget.
    + intros Hid. apply first_some_In in Hid. destruct Hid as (kv & Hin & Hkv).
      destruct (nonempty (fst kv) && contains (fst kv) _); inversion Hkv; subst.
      apply alias_map_targets. exact Hin.
  - intros Hid. apply first_some_In in Hid. destruct Hid as (kv & Hin & Hkv).
    destruct (nonempty (fst kv) && contains (fst kv) _); inversion Hkv; subst.
    apply alias_map_targets. exact Hin.
Qed.

(** X3. The section a name resolves to is always one of the eleven
    required sections; and every entry of the table of required sections is
    found again: its id, its title and each of its aliases resolve to its
    id. *)
Theorem resolve_section_id_sound :
  (forall key id,
     _resolve_final_report_section_id key = Some id ->
     id ∈ _required_final_report_section_order)
  /\ Forall
       (fun e =>
          Forall (fun name => _resolve_final_report_section_id name = Some (fst (fst e)))
            (fst (fst e) :: snd (fst e) :: snd e))
       _REQUIRED_FINAL_REPORT_SECTIONS.
Proof.
  split; [ exact resolve_in_order | ].
  assert (H : forallb
                (fun e =>
                   forallb
                     (fun name =>
                        match _resolve_final_report_section_id name with
                        | Some id => PyStr.eqb id (fst (fst e))
                        | None => false
                        end)
                     (fst (fst e) :: snd (fst e) :: snd e))
                _REQUIRED_FINAL_REPORT_SECTIONS = true) by (vm_compute; reflexivity).
  apply List.Forall_forall. intros e He.
  apply List.Forall_forall. intros name Hname.
  pose proof (proj1 (forallb_forall _ _) (proj1 (forallb_forall _ _) H e He) name Hname) as Hr.
  cbv beta in Hr.
  clear H. destruct (_resolve_final_report_section_id name) as [id|]; [ | discriminate Hr ].
  apply eqb_eq in Hr. subst id. reflexivity.
Qed.

Lemma section_token_lower s :
  _normalize_final_report_section_token (lower s) = _normalize_final_report_section_token s.
Proof.
  unfold _normalize_final_report_section_token. now rewrite strip_lower, lower_idem.
Qed.

Lemma section_token_strip s :
  _normalize_final_report_section_token (strip s) = _normalize_final_report_section_token s.
Proof.
  unfold _normalize_final_report_section_token. now rewrite strip_idem.
Qed.

Lemma section_token_idem s :
  _normalize_final_report_section_token (_normalize_final_report_section_token s)
  = _normalize_final_report_section_token s.
Proof.
  destruct (section_token_words s) as (ws & -> & Hws). now apply section_token_fixed.
Qed.

(** X4. The resolution of a section name does not depend on its
    letter case or on the whitespace around it, and a name resolves as its
    normalized form does. *)
Theorem resolve_ignores_case_and_padding (key : str) :
  _resolve_final_report_section_id (lower key) = _resolve_final_report_section_id key
  /\ _resolve_final_report_section_id (strip key) = _resolve_final_report_section_id key
  /\ _resolve_final_report_section_id (_normalize_final_report_section_token key)
     = _resolve_final_report_section_id key.
Proof.
  unfold _resolve_final_report_section_id.
  now rewrite section_token_lower, section_token_strip, section_token_idem.
Qed.

(** ** Section maps: extraction, normalization, assembly *)

Lemma set_In {V} (d : odict V) k v kv :
  In kv (set d k v) -> (fst kv = k /\ snd kv = v) \/ In kv d.
Proof.
  induction d as [|[k' v'] d IH]; cbn [set].
  - intros [<- | []]. now left.
  - destruct (PyStr.eqb k' k) eqn:Hk.
    + intros [<- | H]; [ left; apply eqb_eq in Hk; now split | right; now right ].
    + intros [<- | H]; [ right; now left | ].
      destruct (IH H) as [? | ?]; [ now left | right; now right ].
Qed.

Lemma set_keys_NoDup {V} (d : odict V) k v : NoDup (keys d) -> NoDup (keys (set d k v)).
Proof.
  unfold keys. induction d as [|[k' v'] d IH]; cbn [set map fst]; intros Hnd.
  - repeat constructor. intros HF. inversion HF.
  - inversion Hnd as [|? ? Hnot Hnd']; subst.
    destruct (PyStr.eqb k' k) eqn:Hk; cbn [map fst]; [ now constructor | ].
    constructor; [ | now apply IH ].
    intros Hin. apply list_elem_of_In, in_map_iff in Hin. destruct Hin as (kv & Hfst & Hkv).
    destruct (set_In _ _ _ _ Hkv) as [[Hk' _] | Hold].
    + rewrite Hfst in Hk'. subst k. rewrite eqb_refl in Hk. discriminate Hk.
    + apply Hnot. apply list_elem_of_In, in_map_iff. now exists kv.
Qed.

(** Storing a good entry keeps a section map in normal form. *)
Lemma wellformed_set S k v :
  wellformed_sections S ->
  k ∈ _required_final_report_section_order -> v <> [] -> strip v = v ->
  wellformed_sections (set S k v).
Proof.
  intros [Hnd Hall] Hk Hv Hs. split; [ now apply set_keys_NoDup | ].
  apply List.Forall_forall. intros kv Hkv.
  destruct (set_In _ _ _ _ Hkv) as [[-> ->] | Hold]; [ now repeat split | ].
  exact (proj1 (List.Forall_forall _ _) Hall kv Hold).
Qed.

Lemma wellformed_empty : wellformed_sections [].
Proof. split; constructor. Qed.

Lemma scan_line_keys st line :
  Forall (fun kv => fst kv ∈ _required_final_report_section_order) (fst st) ->
  (forall k, snd st = Some k -> k ∈ _required_final_report_section_order) ->
  Forall (fun kv => fst kv ∈ _required_final_report_section_order) (fst (scan_line st line))
  /\ (forall k, snd (scan_line st line) = Some k ->
                k ∈ _required_final_report_section_order).
Proof.
  destruct st as [B active]. cbn [fst snd]. intros HB Hactive.
  assert (Hset : forall k (v : list str),
             k ∈ _required_final_report_section_order ->
             Forall (fun kv => fst kv ∈ _required_final_report_section_order) (set B k v)).
  { intros k v Hk. apply List.Forall_forall. intros kv Hkv.
    destruct (set_In _ _ _ _ Hkv) as [[-> _] | Hold]; [ exact Hk | ].
    exact (proj1 (List.Forall_forall _ _) HB kv Hold). }
  unfold scan_line.
  destruct (heading_match line) as [h|].
  - assert (Hres : forall k, _resolve_final_report_section_id h = Some k ->
                             k ∈ _required_final_report_section_order)
      by (intros k; apply resolve_in_order).
    destruct (_resolve_final_report_section_id h) as [sid|].
    + change (default [] (Some sid)) with sid.
      destruct (truthy_opt (Some sid) && negb (mem B sid)); cbn [fst snd].
      * split; [ apply Hset, Hres; reflexivity | exact Hres ].
      * split; [ exact HB | exact Hres ].
    + cbn [truthy_opt andb fst snd]. split; [ exact HB | exact Hres ].
  - destruct active as [k|].
    + change (default [] (Some k)) with k.
      destruct (truthy_opt (Some k)); cbn [fst snd].
      * split; [ apply Hset, Hactive; reflexivity | exact Hactive ].
      * split; [ exact HB | exact Hactive ].
    + cbn [truthy_opt fst snd]. split; [ exact HB | exact Hactive ].
Qed.

Lemma scan_keys lines : forall st,
  Forall (fun kv => fst kv ∈ _required_final_report_section_order) (fst st) ->
  (forall k, snd st = Some k -> k ∈ _required_final_report_section_order) ->
  Forall (fun kv => fst kv ∈ _required_final_report_section_order)
    (fst (fold_left scan_line lines st)).
Proof.
  induction lines as [|l lines IH]; intros st HB Ha; [ exact HB | ].
  cbn [fold_left]. destruct (scan_line_keys st l HB Ha) as [HB' Ha']. now apply IH.
Qed.

Lemma collect_wellformed buffers : forall extracted,
  Forall (fun kv => fst kv ∈ _required_final_report_section_order) buffers ->
  wellformed_sections extracted ->
  wellformed_sections (fold_left collect_step buffers extracted).
Proof.
  induction buffers as [|[k lines] buffers IH]; intros extracted HB Hext; [ exact Hext | ].
  inversion HB as [|? ? Hk HB']; subst. cbn [fold_left]. apply IH; [ exact HB' | ].
  unfold collect_step. cbn [fst snd].
  destruct (nonempty (strip (join [LF] lines))) eqn:Hne; [ | exact Hext ].
  apply wellformed_set; [ exact Hext | exact Hk | now apply nonempty_true | apply strip_idem ].
Qed.

(** X5. Whatever the markdown, the sections extracted from it form a
    map in normal form: distinct keys, each a required section id, each with
    a content that is non-empty and stripped. *)
Theorem extracted_sections_wellformed (markdown_text : str) :
  wellformed_sections (_extract_required_sections_from_markdown markdown_text).
Proof.
  unfold _extract_required_sections_from_markdown, collect_sections.
  fold collect_step.
  apply collect_wellformed; [ | apply wellformed_empty ].
  apply scan_keys; [ constructor | intros k HF; discriminate HF ].
Qed.

Lemma normalize_step_wellformed normalized kv :
  wellformed_sections normalized ->
  wellformed_sections
    (match _resolve_final_report_section_id (fst kv) with
     | Some section_id =>
         if nonempty section_id then
           let content := strip (_coerce_section_markdown (VStr (snd kv)) true) in
           if nonempty content then set normalized section_id content else normalized
         else normalized
     | None => normalized
     end).
Proof.
  intros H.
  destruct (_resolve_final_report_section_id (fst kv)) as [sid|] eqn:Hid; [ | exact H ].
  destruct (nonempty sid); [ | exact H ]. cbv zeta.
  destruct (nonempty (strip (_coerce_section_markdown (VStr (snd kv)) true))) eqn:Hne;
    [ | exact H ].
  apply wellformed_set;
    [ exact H | now apply (resolve_in_order (fst kv)) | now apply nonempty_true
    | apply strip_idem ].
Qed.

Lemma normalize_wellformed raw : forall acc,
  wellformed_sections acc ->
  wellformed_sections
    (fold_left
       (fun normalized kv =>
          match _resolve_final_report_section_id (fst kv) with
          | Some section_id =>
              if nonempty section_id then
                let content := strip (_coerce_section_markdown (VStr (snd kv)) true) in
                if nonempty content then set normalized section_id content else normalized
              else normalized
          | None => normalized
          end)
       raw acc).
Proof.
  induction raw as [|kv raw IH]; intros acc Hacc; [ exact Hacc | ].
  cbn [fold_left]. apply IH. now apply normalize_step_wellformed.
Qed.

Lemma order_resolves id :
  id ∈ _required_final_report_section_order ->
  _resolve_final_report_section_id id = Some id /\ nonempty id = true.
Proof.
  assert (H : forallb
                (fun id => match _resolve_final_report_section_id id with
                           | Some r => PyStr.eqb r id && nonempty id
                           | None => false
                           end)
                _required_final_report_section_order = true) by (vm_compute; reflexivity).
  intros Hid. apply list_elem_of_In in Hid.
  pose proof (proj1 (forallb_forall _ _) H id Hid) as Hr. cbv beta in Hr.
  destruct (_resolve_final_report_section_id id) as [r|]; [ | discriminate Hr ].
  clear H. apply andb_true_iff in Hr. destruct Hr as [Hr Hne]. apply eqb_eq in Hr.
  subst r. split; [ reflexivity | exact Hne ].
Qed.

Lemma normalize_fixed S : forall acc,
  NoDup (keys S) ->
  Forall (fun kv => fst kv ∈ _required_final_report_section_order
                    /\ snd kv <> [] /\ strip (snd kv) = snd kv) S ->
  (forall kv, In kv S -> get acc (fst kv) = None) ->
  fold_left
    (fun normalized kv =>
       match _resolve_final_report_section_id (fst kv) with
       | Some section_id =>
           if nonempty section_id then
             let content := strip (_coerce_section_markdown (VStr (snd kv)) true) in
             if nonempty content then set normalized section_id content else normalized
           else normalized
       | None => normalized
       end)
    S acc
  = acc ++ S.
Proof.
  induction S as [|[k v] S IH]; intros acc Hnd Hall Hfresh; [ now rewrite app_nil_r | ].
  inversion Hnd as [|? ? Hnot Hnd']; subst.
  inversion Hall as [|? ? (Hk & Hv & Hs) Hall']; subst. cbn [fst snd] in *.
  cbn [fold_left fst snd].
  destruct (order_resolves k Hk) as [-> ->]. cbv zeta.
  cbn [_coerce_section_markdown]. rewrite strip_idem, Hs.
  rewrite (proj2 (nonempty_true v) Hv).
  rewrite set_fresh by apply (Hfresh (k, v)), in_eq.
  rewrite IH; [ now rewrite <- app_assoc | exact Hnd' | exact Hall' | ].
  intros kv Hkv. rewrite get_app_other.
  - apply Hfresh. now right.
  - intros ->. apply Hnot. apply list_elem_of_In, in_map_iff. now exists kv.
Qed.

(** X6. Whatever the stored draft, its normalization is a section
    map in normal form; a map in normal form is its own normalization, so
    normalizing twice is the same as normalizing once. *)
Theorem normalized_sections_wellformed (raw_sections : odict str) :
  wellformed_sections (_normalize_final_report_sections raw_sections)
  /\ _normalize_final_report_sections (_normalize_final_report_sections raw_sections)
     = _normalize_final_report_sections raw_sections.
Proof.
  assert (H : wellformed_sections (_normalize_final_report_sections raw_sections))
    by (apply normalize_wellformed, wellformed_empty).
  split; [ exact H | ].
  destruct H as [Hnd Hall].
  unfold _normalize_final_report_sections at 1.
  now rewrite normalize_fixed.
Qed.

Lemma present_keys M ids :
  map fst (present_in M ids)
  = List.filter (fun key => nonempty (strip (default [] (get M key)))) ids.
Proof.
  unfold present_in. induction ids as [|id ids IH]; [ reflexivity | ].
  cbn [omap list_omap List.filter]. cbv zeta.
  destruct (nonempty (strip (default [] (get M id)))); simpl; now rewrite IH.
Qed.

Lemma completed_present M :
  Tools.completed_section_ids M
  = map fst (present_in M _required_final_report_section_order).
Proof. unfold Tools.completed_section_ids. now rewrite present_keys. Qed.

Lemma strip_cons_nonspace c s : isspace c = false -> strip (c :: s) = c :: rstrip s.
Proof.
  intros H. unfold strip, strip_by.
  change (rstrip_by isspace (c :: s)) with (rstrip (c :: s)).
  rewrite (rstrip_cons_nonspace _ _ H). apply (lstrip_nonspace _ _ H).
Qed.

Lemma build_of_present M :
  _build_final_report_markdown_from_sections M
  = match present_in M _required_final_report_section_order with
    | [] => []
    | es => strip (join [LF; LF] (map block_of es))
    end.
Proof.
  unfold _build_final_report_markdown_from_sections. cbv zeta.
  rewrite blocks_of_present.
  now destruct (present_in M _required_final_report_section_order).
Qed.

Lemma missing_none_completed M :
  Tools.missing_section_ids M = [] -> Tools.completed_section_ids M <> [].
Proof.
  unfold Tools.missing_section_ids. intros H Hc. rewrite Hc in H.
  vm_compute in H. discriminate H.
Qed.

(** X7. The assembled report is empty exactly when no required
    section has content; it is always stripped; and when no required section
    is missing it is not empty, so that a complete draft never fails for want
    of markdown. *)
Theorem assembled_report_nonempty (sections : odict str) :
  (_build_final_report_markdown_from_sections sections = []
   <-> Tools.completed_section_ids sections = [])
  /\ strip (_build_final_report_markdown_from_sections sections)
     = _build_final_report_markdown_from_sections sections
  /\ (Tools.missing_section_ids sections = [] ->
      _build_final_report_markdown_from_sections sections <> []).
Proof.
  assert (Hiff : _build_final_report_markdown_from_sections sections = []
                 <-> Tools.completed_section_ids sections = []).
  { rewrite build_of_present, completed_present.
    destruct (present_in sections _required_final_report_section_order) as [|e es];
      [ split; reflexivity | ].
    split; [ | intros HF; discriminate HF ].
    cbn [map]. unfold block_of at 1, heading_of at 1.
    change (lit "## " ++ title_of (fst e)) with ("#"%char :: "#"%char :: " "%char :: title_of (fst e)).
    cbn [app]. rewrite join_cons_head, strip_cons_nonspace by reflexivity.
    intros HF; discriminate HF. }
  split; [ exact Hiff | ]. split.
  - rewrite build_of_present.
    destruct (present_in sections _required_final_report_section_order);
      [ reflexivity | apply strip_idem ].
  - intros Hmissing Hempty. apply Hiff in Hempty.
    now apply (missing_none_completed sections).
Qed.

Lemma stripped_ends v :
  v <> [] -> strip v = v ->
  (exists c r, v = c :: r /\ isspace c = false) /\ open_ended v.
Proof.
  intros Hne Hstrip.
  pose proof (strip_by_trimmed isspace v) as [Hfirst Hlast].
  fold (strip v) in Hfirst, Hlast. rewrite Hstrip in Hfirst, Hlast. split.
  - destruct v as [|c r]; [ contradiction | ]. exists c, r. split; [ reflexivity | ].
    now apply (Hfirst c r).
  - destruct (exists_last Hne) as (r & c & ->). exists r, c. split; [ reflexivity | ].
    specialize (Hlast r c eq_refl).
    destruct (is_linebreak c) eqn:Hb; [ | reflexivity ].
    apply linebreak_isspace in Hb. congruence.
Qed.

Lemma heading_stripped id :
  id ∈ _required_final_report_section_order -> strip (heading_of id) = heading_of id.
Proof.
  assert (H : forallb (fun id => PyStr.eqb (strip (heading_of id)) (heading_of id))
                _required_final_report_section_order = true) by (vm_compute; reflexivity).
  intros Hid. apply list_elem_of_In in Hid.
  pose proof (proj1 (forallb_forall _ _) H id Hid) as Hr. clear H.
  now apply eqb_eq in Hr.
Qed.

Lemma first_line_not_blank body :
  body <> [] -> strip body = body ->
  drop_blank_lines (splitlines body) = splitlines body.
Proof.
  intros Hne Hstrip.
  destruct (stripped_ends body Hne Hstrip) as [(c & r & -> & Hc) _].
  assert (Hb : is_linebreak c = false).
  { destruct (is_linebreak c) eqn:Hb; [ | reflexivity ].
    apply linebreak_isspace in Hb. congruence. }
  rewrite (splitlines_plain_cons _ _ Hb).
  destruct (splitlines r) as [|l ls]; cbn [drop_blank_lines];
    now rewrite (strip_cons_nonspace _ _ Hc).
Qed.

(** X8. A section content that opens with the heading of a
    required section, followed by a body that is stripped and broken into
    lines by LF only, is stored without that heading when it is submitted
    for this very section, and as it is when it is submitted for another
    one. *)
Theorem leading_heading_stripped (id section_id body : str) :
  id ∈ _required_final_report_section_order ->
  body <> [] -> strip body = body -> lf_only body ->
  _strip_leading_section_heading section_id (heading_of id ++ LF :: body)
  = if PyStr.eqb id section_id then body else heading_of id ++ LF :: body.
Proof.
  intros Hid Hne Hstrip Hlf.
  assert (Hok : heading_resolves id = true).
  { apply list_elem_of_In in Hid.
    exact (proj1 (List.Forall_forall _ _) heading_resolves_all id Hid). }
  destruct (heading_one_line id Hok) as (Hone & Hhlf & Hhopen).
  destruct (heading_resolves_spec id Hok) as (_ & _ & t & Hmatch & Hres).
  destruct (stripped_ends body Hne Hstrip) as [_ Hopen].
  assert (Htext : strip (heading_of id ++ LF :: body) = heading_of id ++ LF :: body).
  { apply trimmed_strip_by. split.
    - intros c r Heq. unfold heading_of in Heq.
      change (lit "## " ++ title_of id)
        with ("#"%char :: "#"%char :: " "%char :: title_of id) in Heq.
      inversion Heq; subst. reflexivity.
    - intros r c Heq. destruct (exists_last Hne) as (r' & c' & Hbody).
      pose proof (strip_by_trimmed isspace body) as [_ Hlast].
      fold (strip body) in Hlast. rewrite Hstrip in Hlast.
      specialize (Hlast r' c' Hbody).
      rewrite Hbody in Heq.
      change (heading_of id ++ LF :: r' ++ [c'])
        with (heading_of id ++ (LF :: r') ++ [c']) in Heq.
      rewrite app_assoc in Heq. apply app_inj_tail in Heq. destruct Heq as [_ ->].
      exact Hlast. }
  unfold _strip_leading_section_heading. cbv zeta. rewrite Htext.
  assert (Hne' : nonempty (heading_of id ++ LF :: body) = true).
  { apply nonempty_true. unfold heading_of. discriminate. }
  rewrite Hne', (splitlines_app_lf _ _ Hhlf Hhopen), Hone. cbn [app].
  rewrite (heading_stripped id Hid), Hmatch, Hres.
  destruct (PyStr.eqb id section_id); [ | reflexivity ].
  rewrite (first_line_not_blank body Hne Hstrip), (join_splitlines body Hlf Hopen).
  exact Hstrip.
Qed.

(** X8, instance: a summary sent with its own heading. *)
Lemma summary_heading_stripped :
  _strip_leading_section_heading (lit "summary")
    (heading_of (lit "summary") ++ LF :: lit "A careful paper.")
  = lit "A careful paper.".
Proof.
  apply (leading_heading_stripped (lit "summary") (lit "summary") (lit "A careful paper.")).
  - apply mem_str_In. vm_compute. reflexivity.
  - intros HF. discriminate HF.
  - vm_compute. reflexivity.
  - apply lf_only_check. vm_compute. reflexivity.
Defined.

(** ** The tool counters and the usage section of the job record *)

Lemma lit_inj a b : lit a = lit b -> a = b.
Proof.
  unfold lit. intros H. apply (f_equal string_of_list_ascii) in H.
  now rewrite !string_of_list_ascii_of_string in H.
Qed.

Lemma counters_total_set d k :
  counters_total (set d k (default 0 (get d k) + 1)) = counters_total d + 1.
Proof.
  unfold counters_total, get. induction d as [|[k' v'] d IH]; [ reflexivity | ].
  cbn [set assoc_get]. destruct (PyStr.eqb k' k); cbn [map snd fold_right default].
  - change (id v') with v'. lia.
  - rewrite IH. lia.
Qed.

Lemma counter_set d name v other :
  counter (set d (lit name) v) other
  = if String.eqb name other then v else counter d other.
Proof.
  unfold counter. destruct (String.eqb_spec name other) as [-> | Hne].
  - now rewrite get_set_same.
  - rewrite get_set_other; [ reflexivity | ]. intros H. apply Hne. now apply lit_inj.
Qed.

(** What [save_or_commit] leaves as it is in the runtime context. *)
Lemma save_or_commit_runtime E ctx n src d v cur w :
  let w' := fst (Tools.save_or_commit E ctx n src d v cur w) in
  tool_counts (rt w') = tool_counts (rt w)
  /\ annotations (rt w') = annotations (rt w)
  /\ final_report_draft_version (rt w') = final_report_draft_version (rt w)
  /\ status_updates (rt w') = status_updates (rt w)
  /\ job_dir (rt w') = job_dir (rt w)
  /\ page_index (rt w') = page_index (rt w)
  /\ settings (rt w') = settings (rt w)
  /\ disk_annotations w' = disk_annotations w.
Proof.
  unfold Tools.save_or_commit.
  destruct (Tools.missing_section_ids d); [ | repeat split ].
  cbv zeta.
  destruct (enable_final_gates (settings (rt w)) && _); [ repeat split | ].
  destruct (enable_final_gates (settings (rt w)) && _); [ repeat split | ].
  destruct (enable_final_gates (settings (rt w)) && _); [ repeat split | ].
  destruct (negb (nonempty _)); [ repeat split | ].
  destruct (negb (ok _) && _); [ repeat split | ].
  destruct (negb (ok _)); repeat split.
Qed.

(** Every tool call counts itself once, under its own name. *)
Lemma tool_counts_step E c w :
  tool_counts (rt (fst (run_tool E c w)))
  = set (tool_counts (rt w)) (lit (tool_name c))
      (default 0 (get (tool_counts (rt w)) (lit (tool_name c))) + 1).
Proof.
  destruct c; cbn [run_tool tool_name].
  - unfold Tools.mcp_status_update. reflexivity.
  - unfold Tools.pdf_search. destruct (nonempty _); reflexivity.
  - unfold Tools.pdf_read_lines. destruct (Tools.page_lines _ _); reflexivity.
  - unfold Tools.pdf_jump. destruct (Tools.page_lines _ _); reflexivity.
  - unfold Tools.pdf_annotate.
    destruct (_ <? _); [ reflexivity | ].
    destruct (Tools.page_lines _ _); [ | reflexivity ].
    destruct (negb _); [ reflexivity | ].
    destruct (negb _); reflexivity.
  - unfold Tools.paper_search. reflexivity.
  - unfold Tools.read_paper. destruct (List.filter _ _); [ reflexivity | ].
    destruct adapter_result; reflexivity.
  - unfold Tools.question_prompt. reflexivity.
  - unfold Tools.review_final_markdown_write.
    destruct (truthy_opt _); [ reflexivity | ].
    destruct (Tools.read_arguments a); [ reflexivity | ].
    cbv zeta.
    match goal with
    | |- context [ match ?d with [] => _ | _ :: _ => _ end ] => destruct d
    end; [ reflexivity | ].
    match goal with
    | |- context [ Tools.save_or_commit ?E ?c ?n ?s ?d ?v ?cur ?w0 ] =>
        destruct (save_or_commit_runtime E c n s d v cur w0) as (Hc & _)
    end.
    cbv zeta in Hc. rewrite Hc. reflexivity.
Qed.

Lemma run_counters E calls : forall w,
  counters_total (tool_counts (rt (run E calls w)))
  = counters_total (tool_counts (rt w)) + Z.of_nat (length calls)
  /\ forall name,
       counter (tool_counts (rt (run E calls w))) name
       = counter (tool_counts (rt w)) name + Z.of_nat (calls_named name calls).
Proof.
  unfold run. induction calls as [|c calls IH]; intros w.
  - cbn [fold_left length]. split; [ lia | intros name; unfold calls_named; simpl; lia ].
  - cbn [fold_left]. destruct (IH (fst (run_tool E c w))) as [Htotal Hname].
    rewrite Htotal. split.
    + rewrite tool_counts_step, counters_total_set. cbn [length]. lia.
    + intros name. rewrite Hname, tool_counts_step, counter_set.
      unfold calls_named. cbn [List.filter].
      destruct (String.eqb (tool_name c) name) eqn:Hn; cbn [length].
      * apply String.eqb_eq in Hn. subst name. unfold counter. lia.
      * lia.
Qed.

(** X9. After a run of tool calls from a fresh runtime context, the
    counters of the tools add up to the number of calls, and the counter of
    each tool is the number of calls that went to it. *)
Theorem tool_counters_count_calls E dir index cfg j disk log calls :
  let w := run E calls (fresh_world dir index cfg j disk log) in
  counters_total (tool_counts (rt w)) = Z.of_nat (length calls)
  /\ forall name, counter (tool_counts (rt w)) name = Z.of_nat (calls_named name calls).
Proof.
  cbv zeta.
  destruct (run_counters E calls (fresh_world dir index cfg j disk log)) as [Htotal Hname].
  split; [ exact Htotal | intros name; rewrite Hname; reflexivity ].
Qed.

Lemma failure_synced E ctx n p w :
  usage_synced ctx (fst (Tools._return_final_write_failure E ctx n p w)).
Proof. unfold Tools._return_final_write_failure. repeat split. Qed.

Lemma save_or_commit_synced E ctx n src d v cur w :
  usage_synced ctx (fst (Tools.save_or_commit E ctx n src d v cur w)).
Proof.
  unfold Tools.save_or_commit.
  destruct (Tools.missing_section_ids d); [ | repeat split ].
  cbv zeta.
  destruct (enable_final_gates (settings (rt w)) && _); [ apply failure_synced | ].
  destruct (enable_final_gates (settings (rt w)) && _); [ apply failure_synced | ].
  destruct (enable_final_gates (settings (rt w)) && _); [ apply failure_synced | ].
  destruct (negb (nonempty _)); [ apply failure_synced | ].
  destruct (negb (ok _) && _); [ apply failure_synced | ].
  destruct (negb (ok _)); repeat split.
Qed.

(** X10. When a tool call returns, the usage section of the job record
    mirrors the runtime context: the per-tool counters, their sum and their
    number, the paper-search usage, the number of annotations, and the token
    counters handed over with the call. *)
Theorem job_usage_mirrors_runtime E c w p :
  snd (run_tool E c w) = Returned p ->
  usage_synced (tool_tokens c) (fst (run_tool E c w)).
Proof.
  destruct c; cbn [run_tool tool_tokens].
  - intros _. unfold Tools.mcp_status_update. repeat split.
  - intros _. unfold Tools.pdf_search. destruct (nonempty _); repeat split.
  - intros _. unfold Tools.pdf_read_lines. destruct (Tools.page_lines _ _); repeat split.
  - intros _. unfold Tools.pdf_jump. destruct (Tools.page_lines _ _); repeat split.
  - intros _. unfold Tools.pdf_annotate.
    destruct (_ <? _); [ repeat split | ].
    destruct (Tools.page_lines _ _); [ | repeat split ].
    destruct (negb _); [ repeat split | ].
    destruct (negb _); repeat split.
  - intros _. unfold Tools.paper_search. repeat split.
  - unfold Tools.read_paper. destruct (List.filter _ _); [ intros _; repeat split | ].
    destruct adapter_result; [ intros _; repeat split | intros HF; discriminate HF ].
  - intros _. unfold Tools.question_prompt. repeat split.
  - intros _. unfold Tools.review_final_markdown_write.
    destruct (truthy_opt _); [ repeat split | ].
    destruct (Tools.read_arguments a); [ apply failure_synced | ].
    cbv zeta.
    match goal with
    | |- context [ match ?d with [] => _ | _ :: _ => _ end ] => destruct d
    end; [ apply failure_synced | apply save_or_commit_synced ].
Qed.

(** X10, instance: a page jump on the sample job. *)
Lemma page_jump_synced :
  usage_synced zero_tokens
    (fst (run_tool sample_externals (CallPdfJump zero_tokens 1) sample_world)).
Proof.
  eapply (job_usage_mirrors_runtime sample_externals (CallPdfJump zero_tokens 1) sample_world).
  vm_compute. reflexivity.
Defined.

(** X11. The tools that only look something up ([pdf_search],
    [pdf_read_lines], [pdf_jump], [question_prompt]) change nothing but the
    tool counters and the usage section of the job record: no annotation, no
    draft, no committed text, no paper-search usage, no file and no event. *)
Theorem lookup_tools_only_count E c w :
  is_lookup c = true -> only_counted w (fst (run_tool E c w)).
Proof.
  destruct c; cbn [is_lookup run_tool]; intros H; try discriminate H.
  - unfold Tools.pdf_search. destruct (nonempty _); repeat split.
  - unfold Tools.pdf_read_lines. destruct (Tools.page_lines _ _); repeat split.
  - unfold Tools.pdf_jump. destruct (Tools.page_lines _ _); repeat split.
  - unfold Tools.question_prompt. repeat split.
Qed.

(** X11, instance: a search on the sample job. *)
Lemma search_only_counts :
  only_counted sample_world
    (fst (run_tool sample_externals (CallPdfSearch zero_tokens (lit "deep") 3) sample_world)).
Proof.
  apply (lookup_tools_only_count sample_externals
           (CallPdfSearch zero_tokens (lit "deep") 3) sample_world).
  reflexivity.
Defined.

(** ** [pdf_read_lines] *)

Lemma enumerate_from_fst {A} (l : list A) : forall k,
  map fst (enumerate_from k l) = seqZ k (Z.of_nat (length l)).
Proof.
  induction l as [|x l IH]; intros k; [ reflexivity | ].
  cbn [enumerate_from map fst length]. rewrite IH.
  rewrite Nat2Z.inj_succ, (seqZ_cons k) by lia. f_equal. f_equal; lia.
Qed.

Lemma enumerate_from_snd {A} (l : list A) : forall k, map snd (enumerate_from k l) = l.
Proof.
  induction l as [|x l IH]; intros k; [ reflexivity | ].
  cbn [enumerate_from map snd]. now rewrite IH.
Qed.

Lemma slice_length {A} (l : list A) i j :
  0 <= i -> j <= Z.of_nat (length l) ->
  Z.of_nat (length (slice l i j)) = Z.max 0 (j - i).
Proof.
  intros Hi Hj. unfold slice. rewrite length_firstn, length_skipn. lia.
Qed.

Lemma slice_lookup {A} (l : list A) i j n x :
  0 <= i -> slice l i j !! n = Some x -> l !! (Z.to_nat i + n)%nat = Some x.
Proof.
  intros Hi. unfold slice. intros H.
  change (firstn (Z.to_nat (j - i)) (skipn (Z.to_nat i) l))
    with (take (Z.to_nat (j - i)) (drop (Z.to_nat i) l)) in H.
  apply lookup_take_Some in H. destruct H as [H _]. now rewrite lookup_drop in H.
Qed.

(** X12. On a page that has lines, [pdf_read_lines] answers [ok]
    with [start_line = max(1, start_line)] and
    [end_line = min(line count, max(start, end_line))]; the rows it returns
    are numbered consecutively from [start_line], there are
    [max(0, end_line - start_line + 1)] of them, each holds the line of the
    page that bears its number, and [text] joins them with LF. On a page
    that is missing or has no line it answers [page_not_found]. *)
Theorem pdf_read_lines_range ctx page start_line end_line w :
  let out := snd (Tools.pdf_read_lines ctx page start_line end_line w) in
  match page_index (rt w) !! page with
  | Some (l :: ls) =>
      let lines := l :: ls in
      let start := Z.max 1 start_line in
      let stop := Z.min (Z.of_nat (length lines)) (Z.max start end_line) in
      exists rows,
        out = Returned
                (mk_payload
                   [("status", jstr "ok"); ("page", JInt page); ("start_line", JInt start);
                    ("end_line", JInt stop); ("lines", JList (map line_row rows));
                    ("text", JStr (join [LF] (map snd rows)))]%string)
        /\ map fst rows = seqZ start (Z.max 0 (stop - start + 1))
        /\ Forall (fun row => lines !! Z.to_nat (fst row - 1) = Some (snd row)) rows
  | _ =>
      status_of out = Some (jstr "error") /\ reason_of out = Some (jstr "page_not_found")
  end.
Proof.
  cbv zeta. unfold Tools.pdf_read_lines, Tools.page_lines.
  change (page_index (rt (Tools.record_tool "pdf_read_lines" w))) with (page_index (rt w)).
  destruct (page_index (rt w) !! page) as [[|l ls]|]; [ split; reflexivity | | split; reflexivity ].
  cbv zeta. cbn [snd].
  set (lines := l :: ls).
  set (start := Z.max 1 start_line).
  set (stop := Z.min (Z.of_nat (length lines)) (Z.max start end_line)).
  exists (enumerate_from start (slice lines (start - 1) stop)).
  split; [ | split ].
  - rewrite enumerate_from_snd. reflexivity.
  - rewrite enumerate_from_fst, slice_length by lia. f_equal. lia.
  - apply List.Forall_forall. intros [n t] Hin. cbn [fst snd].
    apply enumerate_from_In in Hin. destruct Hin as [Hn Hlook].
    apply slice_lookup in Hlook; [ | lia ].
    rewrite <- Hlook. f_equal. lia.
Qed.

(** ** [pdf_annotate] and the annotations of a run *)

Lemma page_lines_Some w page lines :
  Tools.page_lines w page = Some lines -> page_index (rt w) !! page = Some lines.
Proof.
  unfold Tools.page_lines.
  destruct (page_index (rt w) !! page) as [[|l ls]|]; intros H; inversion H; reflexivity.
Qed.

Lemma slice_nonempty {A} (l : list A) i j : slice l i j <> [] -> i < j.
Proof.
  unfold slice. intros H.
  destruct (Z.to_nat (j - i)) eqn:Hn; [ now elim H | lia ].
Qed.

(** The annotation [pdf_annotate] builds for a span with text and a comment
    points into the page index. *)
Lemma new_annotation_valid index uuid page start_line end_line comment summary_ ot sev lines :
  index !! page = Some lines ->
  let start := Z.max 1 start_line in
  let end_idx := Z.min (Z.of_nat (length lines)) (Z.max start end_line) in
  let text := strip (join [LF] (slice lines (start - 1) end_idx)) in
  nonempty text = true ->
  nonempty (strip comment) = true ->
  valid_annotation index
    {| ann_id := uuid; ann_page := page; ann_start_line := start; ann_end_line := end_idx;
       ann_text := text; ann_comment := strip comment; ann_summary := summary_;
       ann_object_type :=
         (let t := strip (if nonempty ot then ot else lit "suggestion") in
          if nonempty t then t else lit "suggestion");
       ann_severity := sev |}.
Proof.
  intros Hpage start end_idx text Htext Hcomment.
  exists lines. cbn [ann_page ann_start_line ann_end_line ann_text ann_comment ann_object_type].
  assert (Hspan : start - 1 < end_idx).
  { apply (slice_nonempty lines). intros Hs. subst text. rewrite Hs in Htext.
    vm_compute in Htext. discriminate Htext. }
  split; [ exact Hpage | ].
  split; [ subst start; lia | ].
  split; [ lia | ].
  split; [ subst end_idx; lia | ].
  split; [ reflexivity | ].
  split; [ now apply nonempty_true | ].
  split; [ now apply nonempty_true | ].
  split; [ apply strip_idem | ].
  cbv zeta. destruct (nonempty (strip (if nonempty ot then ot else lit "suggestion"))) eqn:Ht.
  - now apply nonempty_true.
  - intros HF. discriminate HF.
Qed.

(** X13. A call to [pdf_annotate] either answers [ok], appends
    exactly one annotation, which bears the identifier drawn for it and
    points into the page index, writes the whole list of annotations to
    disk, brings the annotation count of the job record up to date and logs
    one [annotation_created] event; or it answers [error] and leaves the
    annotations, the file of annotations and the event log as they were. *)
Theorem pdf_annotate_all_or_nothing ctx uuid page start_line end_line comment summary_ ot sev w :
  let w' := fst (Tools.pdf_annotate ctx uuid page start_line end_line comment summary_ ot sev w) in
  let out := snd (Tools.pdf_annotate ctx uuid page start_line end_line comment summary_ ot sev w) in
  (status_of out = Some (jstr "ok")
   /\ exists ann,
        annotations (rt w') = annotations (rt w) ++ [ann]
        /\ ann_id ann = uuid
        /\ valid_annotation (page_index (rt w)) ann
        /\ disk_annotations w' = Some (annotations (rt w'))
        /\ annotation_count (job w') = Z.of_nat (length (annotations (rt w')))
        /\ (match out with
            | Returned p =>
                field p "annotation_count"
                = Some (JInt (Z.of_nat (length (annotations (rt w')))))
            | Raised => False
            end)
        /\ exists ev, events w' = events w ++ [ev] /\ event ev = lit "annotation_created")
  \/ (status_of out = Some (jstr "error")
      /\ annotations (rt w') = annotations (rt w)
      /\ disk_annotations w' = disk_annotations w
      /\ events w' = events w).
Proof.
  cbv zeta.
  destruct (Tools.pdf_annotate ctx uuid page start_line end_line comment summary_ ot sev w)
    as [w' out] eqn:Hrun.
  cbn [fst snd]. revert Hrun. unfold Tools.pdf_annotate.
  destruct (_ <? _); [ intros [= <- <-]; right; repeat split | ].
  destruct (Tools.page_lines _ _) as [lines|] eqn:Hlines;
    [ | intros [= <- <-]; right; repeat split ].
  apply page_lines_Some in Hlines.
  change (page_index (rt (Tools.record_tool "pdf_annotate" w))) with (page_index (rt w))
    in Hlines.
  cbv zeta.
  destruct (nonempty (strip (join [LF] _))) eqn:Htext;
    [ | intros [= <- <-]; right; repeat split ].
  destruct (nonempty (strip comment)) eqn:Hcomment;
    [ | intros [= <- <-]; right; repeat split ].
  cbn [negb]. cbv iota. intros [= <- <-]. left. split; [ reflexivity | ].
  eexists. split; [ reflexivity | ]. split; [ reflexivity | ].
  split; [ | split; [ reflexivity | split; [ reflexivity | split; [ reflexivity | ] ] ] ].
  - now apply new_annotation_valid.
  - eexists. split; reflexivity.
Qed.

(** What one tool call does to the annotations. *)
Lemma annotations_step E c w :
  page_index (rt (fst (run_tool E c w))) = page_index (rt w)
  /\ ((annotations (rt (fst (run_tool E c w))) = annotations (rt w)
       /\ disk_annotations (fst (run_tool E c w)) = disk_annotations w)
      \/ exists ann,
           String.eqb (tool_name c) "pdf_annotate" = true
           /\ annotations (rt (fst (run_tool E c w))) = annotations (rt w) ++ [ann]
           /\ valid_annotation (page_index (rt w)) ann
           /\ disk_annotations (fst (run_tool E c w))
              = Some (annotations (rt w) ++ [ann])).
Proof.
  destruct (run_tool E c w) as [w' out] eqn:Hrun. cbn [fst]. revert Hrun.
  destruct c; cbn [run_tool tool_name].
  - unfold Tools.mcp_status_update. intros [= <- _]. split; [ | left; split ]; reflexivity.
  - unfold Tools.pdf_search. destruct (nonempty _); intros [= <- _];
      (split; [ | left; split ]; reflexivity).
  - unfold Tools.pdf_read_lines. destruct (Tools.page_lines _ _); intros [= <- _];
      (split; [ | left; split ]; reflexivity).
  - unfold Tools.pdf_jump. destruct (Tools.page_lines _ _); intros [= <- _];
      (split; [ | left; split ]; reflexivity).
  - unfold Tools.pdf_annotate.
    destruct (_ <? _); [ intros [= <- _]; split; [ | left; split ]; reflexivity | ].
    destruct (Tools.page_lines _ _) as [lines|] eqn:Hlines;
      [ | intros [= <- _]; split; [ | left; split ]; reflexivity ].
    apply page_lines_Some in Hlines.
    change (page_index (rt (Tools.record_tool "pdf_annotate" w))) with (page_index (rt w))
      in Hlines.
    cbv zeta.
    destruct (nonempty (strip (join [LF] _))) eqn:Htext;
      [ | intros [= <- _]; split; [ | left; split ]; reflexivity ].
    destruct (nonempty (strip comment)) eqn:Hcomment;
      [ | intros [= <- _]; split; [ | left; split ]; reflexivity ].
    cbn [negb]. cbv iota. intros [= <- _]. split; [ reflexivity | ]. right.
    eexists. split; [ reflexivity | ]. split; [ reflexivity | ].
    split; [ | reflexivity ].
    now apply new_annotation_valid.
  - unfold Tools.paper_search. intros [= <- _]. split; [ | left; split ]; reflexivity.
  - unfold Tools.read_paper. destruct (List.filter _ _);
      [ intros [= <- _]; split; [ | left; split ]; reflexivity | ].
    destruct adapter_result; intros [= <- _]; (split; [ | left; split ]; reflexivity).
  - unfold Tools.question_prompt. intros [= <- _]. split; [ | left; split ]; reflexivity.
  - unfold Tools.review_final_markdown_write.
    destruct (truthy_opt _); [ intros [= <- _]; split; [ | left; split ]; reflexivity | ].
    destruct (Tools.read_arguments a);
      [ intros [= <- _]; split; [ | left; split ]; reflexivity | ].
    cbv zeta.
    match goal with
    | |- context [ match ?d with [] => _ | _ :: _ => _ end ] => destruct d
    end; [ intros [= <- _]; split; [ | left; split ]; reflexivity | ].
    match goal with
    | |- context [ Tools.save_or_commit ?E ?c ?n ?s ?d ?v ?cur ?w0 ] =>
        destruct (save_or_commit_runtime E c n s d v cur w0)
          as (_ & Ha & _ & _ & _ & Hp & _ & Hd);
        destruct (Tools.save_or_commit E c n s d v cur w0) as [w1 out1]
    end.
    cbn [fst] in Ha, Hp, Hd. intros [= <- _]. rewrite Ha, Hp, Hd.
    split; [ | left; split ]; reflexivity.
Qed.

Lemma calls_named_cons name c calls :
  calls_named name (c :: calls)
  = ((if String.eqb (tool_name c) name then 1 else 0) + calls_named name calls)%nat.
Proof.
  unfold calls_named. cbn [List.filter].
  destruct (String.eqb (tool_name c) name); reflexivity.
Qed.

Lemma run_annotations E calls : forall w,
  Forall (valid_annotation (page_index (rt w))) (annotations (rt w)) ->
  annotations_persisted w ->
  page_index (rt (run E calls w)) = page_index (rt w)
  /\ Forall (valid_annotation (page_index (rt w))) (annotations (rt (run E calls w)))
  /\ annotations_persisted (run E calls w)
  /\ (length (annotations (rt (run E calls w)))
      <= length (annotations (rt w)) + calls_named "pdf_annotate" calls)%nat.
Proof.
  unfold run. induction calls as [|c calls IH]; intros w Hvalid Hdisk.
  - cbn [fold_left]. repeat split; [ exact Hvalid | exact Hdisk | lia ].
  - cbn [fold_left].
    destruct (annotations_step E c w) as [Hindex Hstep].
    specialize (IH (fst (run_tool E c w))). rewrite Hindex in IH.
    rewrite calls_named_cons.
    destruct Hstep as [[Hsame Hd] | (ann & Hname & Hadd & Hann & Hd)].
    + rewrite Hsame in IH.
      destruct IH as (Hi & Hv & Hp & Hlen).
      * exact Hvalid.
      * unfold annotations_persisted in *. rewrite Hsame, Hd. exact Hdisk.
      * repeat split; [ exact Hi | exact Hv | exact Hp | ].
        destruct (String.eqb (tool_name c) "pdf_annotate"); lia.
    + rewrite Hadd in IH.
      destruct IH as (Hi & Hv & Hp & Hlen).
      * apply Forall_app. split; [ exact Hvalid | ]. constructor; [ exact Hann | constructor ].
      * right. rewrite Hadd. exact Hd.
      * repeat split; [ exact Hi | exact Hv | exact Hp | ].
        rewrite Hname. rewrite length_app in Hlen. cbn [length] in *. lia.
Qed.

(** X14. After a run of tool calls from a fresh runtime context,
    every annotation of the context points into the page index (its page
    has lines, its range lies within them, its text and comment are not
    empty); the file of annotations holds exactly these annotations once
    there is one; and there are at most as many as there were calls to
    [pdf_annotate]. *)
Theorem annotations_valid_and_persisted E dir index cfg j disk log calls :
  let w := run E calls (fresh_world dir index cfg j disk log) in
  Forall (valid_annotation index) (annotations (rt w))
  /\ annotations_persisted w
  /\ (length (annotations (rt w)) <= calls_named "pdf_annotate" calls)%nat.
Proof.
  cbv zeta.
  destruct (run_annotations E calls (fresh_world dir index cfg j disk log))
    as (_ & Hv & Hp & Hlen).
  - constructor.
  - left. split; reflexivity.
  - repeat split; [ exact Hv | exact Hp | exact Hlen ].
Qed.

(** ** [paper_search]: the questions, the counters and the gate *)

Lemma clean_questions_spec raw_items : forall seen,
  Forall (fun q => q <> [] /\ join [" "%char] (split_ws q) = q /\ ~ In (lower q) seen)
    (Tools.clean_questions seen raw_items)
  /\ NoDup (map lower (Tools.clean_questions seen raw_items)).
Proof.
  induction raw_items as [|item rest IH]; intros seen; [ split; constructor | ].
  cbn [Tools.clean_questions]. cbv zeta.
  destruct (nonempty (join [" "%char] (split_ws item))) eqn:Hne; cbn [negb]; [ | apply IH ].
  destruct (mem_str (lower (join [" "%char] (split_ws item))) seen) eqn:Hseen; [ apply IH | ].
  destruct (IH (lower (join [" "%char] (split_ws item)) :: seen)) as [Hall Hnd].
  split.
  - constructor.
    + split; [ now apply nonempty_true | ]. split.
      * now rewrite split_ws_join by apply split_ws_words.
      * intros Hin. apply list_elem_of_In, mem_str_In in Hin. congruence.
    + revert Hall. apply List.Forall_impl. intros q (Hq & Hnorm & Hnot).
      repeat split; [ exact Hq | exact Hnorm | ].
      intros Hin. apply Hnot. now right.
  - cbn [map]. constructor; [ | exact Hnd ].
    intros Hin. apply list_elem_of_In, in_map_iff in Hin. destruct Hin as (q & Hlow & Hq).
    destruct (proj1 (List.Forall_forall _ _) Hall q Hq) as (_ & _ & Hnot).
    apply Hnot. left. now symmetry.
Qed.

(** X15. Whatever the [question_list] argument, the normalized
    list holds at most three questions; each is non-empty and has its words
    separated by single spaces, with no whitespace around; and no two of
    them are equal once lower-cased. *)
Theorem question_list_normal E (raw : question_arg) :
  (length (Tools.normalize_question_list E raw) <= 3)%nat
  /\ Forall (fun q => q <> [] /\ join [" "%char] (split_ws q) = q)
       (Tools.normalize_question_list E raw)
  /\ NoDup (map lower (Tools.normalize_question_list E raw)).
Proof.
  unfold Tools.normalize_question_list. cbv zeta.
  match goal with
  | |- context [ Tools.clean_questions [] ?items ] =>
      destruct (clean_questions_spec items []) as [Hall Hnd];
      generalize dependent (Tools.clean_questions [] items)
  end.
  intros cleaned Hall Hnd. split; [ apply firstn_le_length | ]. split.
  - apply List.Forall_forall. intros q Hq. apply firstn_In in Hq.
    destruct (proj1 (List.Forall_forall _ _) Hall q Hq) as (H1 & H2 & _). now split.
  - rewrite <- firstn_map. eapply sublist_NoDup; [ exact Hnd | apply sublist_take ].
Qed.

Lemma search_usage_step E ctx res q ql w :
  let u := paper_search_usage (rt w) in
  let u' := paper_search_usage (rt (fst (Tools.paper_search E ctx res q ql w))) in
  total_calls u' = total_calls u + 1
  /\ ((successful_calls u' = successful_calls u
       /\ effective_calls u' = effective_calls u /\ papers_found u' = papers_found u)
      \/ (successful_calls u' = successful_calls u + 1
          /\ ((effective_calls u' = effective_calls u /\ papers_found u' = papers_found u)
              \/ (effective_calls u' = effective_calls u + 1
                  /\ papers_found u + 1 <= papers_found u')))).
Proof.
  cbv zeta. unfold Tools.paper_search. cbv zeta.
  cbn [fst rt set_rt append_event Tools.sync_state_usage mutate_job_state
       paper_search_usage rt_with_paper_search total_calls successful_calls
       effective_calls papers_found].
  change (paper_search_usage (rt (Tools.record_tool "paper_search" w)))
    with (paper_search_usage (rt w)).
  split; [ reflexivity | ].
  match goal with
  | |- context [ truthy ?v ] => destruct (truthy v)
  end; cbn [andb]; [ right | left; repeat split; lia ].
  split; [ reflexivity | ].
  match goal with
  | |- context [ 0 <? ?n ] => destruct (Z.ltb_spec 0 n)
  end; [ right; split; [ reflexivity | lia ] | left; split; lia ].
Qed.

Lemma run_search_usage E calls : forall w,
  let u := paper_search_usage (rt w) in
  let u' := paper_search_usage (rt (run E calls w)) in
  total_calls u' = total_calls u + Z.of_nat (calls_named "paper_search" calls)
  /\ successful_calls u <= successful_calls u'
  /\ effective_calls u <= effective_calls u'
  /\ successful_calls u' - successful_calls u <= total_calls u' - total_calls u
  /\ effective_calls u' - effective_calls u <= successful_calls u' - successful_calls u
  /\ effective_calls u' - effective_calls u <= papers_found u' - papers_found u.
Proof.
  unfold run. induction calls as [|c calls IH]; intros w; cbv zeta.
  - cbn [fold_left]. unfold calls_named. cbn [List.filter length]. lia.
  - cbn [fold_left]. specialize (IH (fst (run_tool E c w))). cbv zeta in IH.
    rewrite calls_named_cons.
    destruct c as [ ? ? ? ? ? | ? ? ? | ? ? ? ? | ? ? | ? ? ? ? ? ? ? ? ? | u res q ql
                  | ? ? ? | ? ? ? | ? ? ];
      try (match goal with
           | |- context [ run_tool E ?c w ] =>
               destruct (other_tools_keep_search_state E c w) as [Hu _];
               change (String.eqb (tool_name c) "paper_search") with false
           end;
           cbv iota; rewrite Hu in IH; lia).
    change (String.eqb (tool_name (CallPaperSearch u res q ql)) "paper_search") with true.
    cbv iota. cbn [run_tool] in *.
    pose proof (search_usage_step E u res q ql w) as Hstep.
    cbv zeta in Hstep. lia.
Qed.

(** X16. After a run of tool calls from a fresh runtime context,
    [total_calls] is the number of calls to [paper_search], and
    [0 <= effective_calls <= successful_calls <= total_calls] and
    [effective_calls <= papers_found]. *)
Theorem search_counters_ordered E dir index cfg j disk log calls :
  let u := paper_search_usage (rt (run E calls (fresh_world dir index cfg j disk log))) in
  total_calls u = Z.of_nat (calls_named "paper_search" calls)
  /\ 0 <= effective_calls u
  /\ effective_calls u <= successful_calls u
  /\ successful_calls u <= total_calls u
  /\ effective_calls u <= papers_found u.
Proof.
  pose proof (run_search_usage E calls (fresh_world dir index cfg j disk log)) as H.
  cbv zeta in *.
  change (paper_search_usage (rt (fresh_world dir index cfg j disk log)))
    with {| total_calls := 0; successful_calls := 0; effective_calls := 0;
            papers_found := 0; distinct_queries := 0 |} in H.
  cbn [total_calls successful_calls effective_calls papers_found] in H. lia.
Qed.

(** [pdf_annotate] gives the reason [paper_search_calls_not_met] exactly
    when its first test fails. *)
Lemma annotate_refusal_iff ctx uuid page s e comment summary_ ot sev w :
  reason_of (snd (Tools.pdf_annotate ctx uuid page s e comment summary_ ot sev w))
    = Some (jstr "paper_search_calls_not_met")
  <-> (Tools.current_search_calls w <? Tools.required_search_calls w) = true.
Proof.
  unfold Tools.pdf_annotate.
  set (w1 := Tools.record_tool "pdf_annotate" w).
  change (Tools.current_search_calls w1) with (Tools.current_search_calls w).
  change (Tools.required_search_calls w1) with (Tools.required_search_calls w).
  destruct (Tools.current_search_calls w <? Tools.required_search_calls w).
  - split; reflexivity.
  - split; [ | intros HF; discriminate HF ].
    destruct (Tools.page_lines w1 page) as [lines|]; [ | intros HF; discriminate HF ].
    repeat match goal with
           | |- context [ if ?b then _ else _ ] => destruct b
           end; intros HF; discriminate HF.
Qed.

Lemma lit_neq a b : String.eqb a b = false -> lit a <> lit b.
Proof. intros H Heq. apply lit_inj in Heq. subst. now rewrite String.eqb_refl in H. Qed.

(** X17. The payload of [paper_search] tells the truth about the gate of
    [pdf_annotate]: it carries the usage counters as they are after the
    call, and its [can_start_pdf_annotate] is false exactly when a call to
    [pdf_annotate] made next is refused with [paper_search_calls_not_met];
    [next_action] says the same. *)
Theorem search_hint_matches_gate E ctx res q ql w ctx' uuid page s e comment summary_ ot sev :
  let w' := fst (Tools.paper_search E ctx res q ql w) in
  exists p b,
    snd (Tools.paper_search E ctx res q ql w) = Returned p
    /\ field p "paper_search_usage" = Some (usage_dump (paper_search_usage (rt w')))
    /\ field p "can_start_pdf_annotate" = Some (JBool b)
    /\ field p "next_action"
       = Some (if b then jstr "start_pdf_annotate" else jstr "continue_paper_search")
    /\ (b = false
        <-> reason_of (snd (Tools.pdf_annotate ctx' uuid page s e comment summary_ ot sev w'))
            = Some (jstr "paper_search_calls_not_met")).
Proof.
  cbv zeta.
  pose proof (annotate_refusal_iff ctx' uuid page s e comment summary_ ot sev
                (fst (Tools.paper_search E ctx res q ql w))) as Hgate.
  destruct (Tools.paper_search E ctx res q ql w) as [w' out] eqn:Hrun.
  cbn [fst snd] in *. revert Hrun Hgate. unfold Tools.paper_search. cbv zeta.
  intros [= <- <-] Hgate.
  eexists _, _. split; [ reflexivity | ].
  unfold field.
  split; [ | split; [ | split ] ].
  - rewrite !get_set_other by (apply lit_neq; reflexivity). now rewrite get_set_same.
  - rewrite !get_set_other by (apply lit_neq; reflexivity). now rewrite get_set_same.
  - now rewrite get_set_same.
  - rewrite Hgate.
    match goal with
    | |- (?r <=? ?c) = false <-> (?c' <? ?r') = true =>
        change c' with c; change r' with r;
        destruct (Z.leb_spec r c) as [Hle | Hgt]; destruct (Z.ltb_spec c r) as [Hlt | Hge]
    end; split; intros HF; (reflexivity || discriminate HF || lia).
Qed.

(** ** The final commit *)

Lemma completed_of_empty : Tools.completed_section_ids [] = [].
Proof. vm_compute. reflexivity. Qed.

Lemma complete_draft_assembles d :
  Tools.missing_section_ids d = [] ->
  nonempty (_build_final_report_markdown_from_sections d) = true /\ d <> [].
Proof.
  intros Hmissing. pose proof (missing_none_completed d Hmissing) as Hc. split.
  - apply nonempty_true. intros Hempty. apply Hc.
    rewrite build_of_present in Hempty. rewrite completed_present.
    destruct (present_in d _required_final_report_section_order) as [|e es];
      [ reflexivity | ].
    exfalso. revert Hempty. cbn [map]. unfold block_of at 1, heading_of at 1.
    change (lit "## " ++ title_of (fst e))
      with ("#"%char :: "#"%char :: " "%char :: title_of (fst e)).
    cbn [app]. rewrite join_cons_head, strip_cons_nonspace by reflexivity.
    intros HF. discriminate HF.
  - intros ->. apply Hc, completed_of_empty.
Qed.

Lemma failure_commits_nothing E ctx n p w :
  commits_nothing w (fst (Tools._return_final_write_failure E ctx n p w))
  /\ status_of (snd (Tools._return_final_write_failure E ctx n p w)) = field p "status"
  /\ exists ev,
       events (fst (Tools._return_final_write_failure E ctx n p w)) = events w ++ [ev]
       /\ event ev = lit "final_report_write_failed".
Proof.
  unfold Tools._return_final_write_failure. cbn [fst snd status_of].
  split; [ | split; [ reflexivity | eexists; split; reflexivity ] ].
  unfold commits_nothing. repeat split.
  cbn [events append_event Tools.sync_state_usage mutate_job_state].
  rewrite count_events_snoc. cbn [event]. eval_event_names. cbv iota. lia.
Qed.

Lemma progress_status src c m n u r1 r2 v st rs rr cur :
  field (Tools._build_final_report_progress_payload src c m n u r1 r2 v st rs rr cur) "status"
  = Some (jstr st).
Proof. reflexivity. Qed.

(** What [save_or_commit] does with a draft in which no section is missing. *)
Lemma save_or_commit_complete E ctx n src d v cur w :
  Tools.missing_section_ids d = [] ->
  let text := _build_final_report_markdown_from_sections d in
  let w' := fst (Tools.save_or_commit E ctx n src d v cur w) in
  let out := snd (Tools.save_or_commit E ctx n src d v cur w) in
  if gates_open E w text then
    commits text w w'
    /\ status_of out = Some (jstr "ok")
    /\ (exists p, out = Returned p
                  /\ field p "task_completed" = Some (JBool true)
                  /\ field p "final_report_persisted" = Some (JBool true))
    /\ get (metadata (job w')) (lit "final_report_source") = Some (JStr src)
  else
    commits_nothing w w'
    /\ status_of out = Some (jstr "error")
    /\ exists ev, events w' = events w ++ [ev] /\ event ev = lit "final_report_write_failed".
Proof.
  intros Hmissing. destruct (complete_draft_assembles d Hmissing) as [Htext _].
  cbv zeta.
  destruct (Tools.save_or_commit E ctx n src d v cur w) as [w' out] eqn:Hrun.
  cbn [fst snd]. revert Hrun.
  unfold Tools.save_or_commit, gates_open. rewrite Hmissing. cbv zeta.
  change (Tools.rt_annotation_count (rt w)) with (Z.of_nat (length (annotations (rt w)))).
  rewrite Htext. cbn [negb]. cbv iota.
  set (validation := validate_final_report E _ _ _ _).
  assert (Hfail : forall p st,
             field p "status" = Some (jstr st) ->
             Tools._return_final_write_failure E ctx n p w = (w', out) ->
             commits_nothing w w' /\ status_of out = Some (jstr st)
             /\ exists ev, events w' = events w ++ [ev]
                           /\ event ev = lit "final_report_write_failed").
  { intros p st Hst Hrun.
    destruct (failure_commits_nothing E ctx n p w) as (H1 & H2 & H3).
    rewrite Hrun in H1, H2, H3. cbn [fst snd] in H1, H2, H3. rewrite Hst in H2. auto. }
  destruct (enable_final_gates (settings (rt w))); cbn [negb orb andb].
  - destruct (Z.ltb_spec (total_calls (paper_search_usage (rt w)))
                (Z.max 0 (min_paper_search_calls_for_final (settings (rt w)))))
      as [Hlt | Hge].
    { rewrite (proj2 (Z.leb_gt _ _) Hlt). cbn [andb]. apply Hfail. apply progress_status. }
    rewrite (proj2 (Z.leb_le _ _) Hge). cbn [andb].
    destruct (Z.ltb_spec (distinct_queries (paper_search_usage (rt w)))
                (Z.max 0 (min_distinct_paper_queries_for_final (settings (rt w)))))
      as [Hlt2 | Hge2].
    { rewrite (proj2 (Z.leb_gt _ _) Hlt2). cbn [andb]. apply Hfail. apply progress_status. }
    rewrite (proj2 (Z.leb_le _ _) Hge2). cbn [andb].
    destruct (Z.ltb_spec (Z.of_nat (length (annotations (rt w))))
                (Z.max 1 (min_annotations_for_final (settings (rt w)))))
      as [Hlt3 | Hge3].
    { rewrite (proj2 (Z.leb_gt _ _) Hlt3). cbn [andb]. apply Hfail. apply progress_status. }
    rewrite (proj2 (Z.leb_le _ _) Hge3). cbn [andb].
    rewrite andb_true_r.
    destruct (ok validation); cbn [negb]; cbv iota.
    + unfold Tools.commit_final_report. intros [= <- <-].
      split; [ | split; [ reflexivity | split; [ eexists; repeat split | ] ] ].
      * unfold commits. repeat split.
        cbn [events append_event Tools.sync_state_usage mutate_job_state
             Tools.set_final_markdown set_rt write_text_atomic].
        rewrite count_events_snoc. cbn [event]. eval_event_names. cbv iota. lia.
      * cbn [fst job mutate_job_state metadata job_with_message_metadata].
        rewrite !get_set_other by (apply lit_neq; reflexivity). apply get_set_same.
    + apply Hfail. unfold field. rewrite get_set_other by (apply lit_neq; reflexivity).
      reflexivity.
  - rewrite andb_false_r.
    unfold Tools.commit_final_report.
    destruct (ok validation); cbn [negb]; cbv iota; intros [= <- <-].
    + split; [ | split; [ reflexivity | split; [ eexists; repeat split | ] ] ].
      * unfold commits. repeat split.
        cbn [events append_event Tools.sync_state_usage mutate_job_state
             Tools.set_final_markdown set_rt write_text_atomic].
        rewrite count_events_snoc. cbn [event]. eval_event_names. cbv iota. lia.
      * cbn [fst job mutate_job_state metadata job_with_message_metadata].
        rewrite !get_set_other by (apply lit_neq; reflexivity). apply get_set_same.
    + split; [ | split; [ reflexivity | split; [ eexists; repeat split | ] ] ].
      * unfold commits. repeat split.
        cbn [events append_event Tools.sync_state_usage mutate_job_state
             Tools.set_final_markdown set_rt write_text_atomic].
        rewrite !count_events_snoc. cbn [event]. eval_event_names. cbv iota. lia.
      * cbn [fst job mutate_job_state metadata job_with_message_metadata].
        rewrite !get_set_other by (apply lit_neq; reflexivity). apply get_set_same.
Qed.

(** A contributing call that leaves a draft goes on to [save_or_commit],
    with the merged draft stored in the runtime context. *)
Lemma final_write_reaches_save E ctx a w inc req :
  truthy_opt (final_markdown_text (rt w)) = false ->
  Tools.read_arguments a = Tools.Contributed inc req ->
  merged_draft (final_report_draft_sections (rt w)) inc <> [] ->
  exists n src v cur,
    Tools.review_final_markdown_write E ctx a w
    = Tools.save_or_commit E ctx n src
        (merged_draft (final_report_draft_sections (rt w)) inc) v cur
        (set_rt (rt_with_draft (merged_draft (final_report_draft_sections (rt w)) inc) v)
           (Tools.record_tool "review_final_markdown_write" w)).
Proof.
  intros Hopen Hread Hdraft.
  unfold Tools.review_final_markdown_write.
  change (final_markdown_text (rt (Tools.record_tool "review_final_markdown_write" w)))
    with (final_markdown_text (rt w)).
  rewrite Hopen, Hread.
  change (final_report_draft_sections (rt (Tools.record_tool "review_final_markdown_write" w)))
    with (final_report_draft_sections (rt w)).
  cbv zeta.
  assert (Hmerged :
            (if match inc with [] => false | _ :: _ => true end
             then update (_normalize_final_report_sections (final_report_draft_sections (rt w)))
                    inc
             else _normalize_final_report_sections (final_report_draft_sections (rt w)))
            = merged_draft (final_report_draft_sections (rt w)) inc)
    by (unfold merged_draft; now destruct inc).
  rewrite Hmerged.
  destruct (merged_draft (final_report_draft_sections (rt w)) inc) as [|kv rest] eqn:Hd;
    [ now elim Hdraft | ].
  eexists _, _, _, _. reflexivity.
Qed.

(** X18. A call of [review_final_markdown_write] that comes before the
    commit, contributes sections and leaves no required section missing
    from the merged draft stores that draft and assembles a report that is
    not empty. If the gates are open (they are switched off, or the
    paper-search calls, the distinct queries and the annotations reach their
    minimum and the validation passes), the report is committed: it is held
    by the runtime context, written to [final_report.md], the job record is
    marked ready and points to the file, one [final_report_persisted] event
    is logged and the call answers [ok]. Otherwise the call answers [error],
    nothing is committed or written and a [final_report_write_failed] event
    is logged. *)
Theorem complete_draft_commit_iff E ctx a w inc req :
  truthy_opt (final_markdown_text (rt w)) = false ->
  Tools.read_arguments a = Tools.Contributed inc req ->
  let draft := merged_draft (final_report_draft_sections (rt w)) inc in
  Tools.missing_section_ids draft = [] ->
  let text := _build_final_report_markdown_from_sections draft in
  let w' := fst (Tools.review_final_markdown_write E ctx a w) in
  let out := snd (Tools.review_final_markdown_write E ctx a w) in
  final_report_draft_sections (rt w') = draft
  /\ text <> []
  /\ if gates_open E w text then
       commits text w w'
       /\ status_of out = Some (jstr "ok")
       /\ (exists p, out = Returned p
                     /\ field p "task_completed" = Some (JBool true)
                     /\ field p "final_report_persisted" = Some (JBool true))
     else
       commits_nothing w w'
       /\ status_of out = Some (jstr "error")
       /\ exists ev, events w' = events w ++ [ev]
                     /\ event ev = lit "final_report_write_failed".
Proof.
  intros Hopen Hread draft Hmissing. cbv zeta.
  destruct (complete_draft_assembles draft Hmissing) as [Htext Hdraft].
  destruct (final_write_reaches_save E ctx a w inc req Hopen Hread Hdraft)
    as (n & src & v & cur & ->).
  fold draft.
  set (w1 := set_rt (rt_with_draft draft v)
               (Tools.record_tool "review_final_markdown_write" w)).
  split; [ | split; [ now apply nonempty_true | ] ].
  - now rewrite save_or_commit_keeps_draft.
  - pose proof (save_or_commit_complete E ctx n src draft v cur w1 Hmissing) as H.
    cbv zeta in H.
    change (gates_open E w1 (_build_final_report_markdown_from_sections draft))
      with (gates_open E w (_build_final_report_markdown_from_sections draft)) in H.
    destruct (gates_open E w (_build_final_report_markdown_from_sections draft)).
    + destruct H as (Hc & Hs & Hp & _). split; [ exact Hc | split; [ exact Hs | exact Hp ] ].
    + exact H.
Qed.

(** X18, instance: on the sample job, with ten sections in the draft,
    the call that brings the scores commits the report. *)
Lemma last_section_commits :
  status_of (snd (Tools.review_final_markdown_write sample_externals zero_tokens
                    (section_call "scores" "X") ten_sections_world))
  = Some (jstr "ok").
Proof.
  pose proof (complete_draft_commit_iff sample_externals zero_tokens
                (section_call "scores" "X") ten_sections_world
                [(lit "scores", lit "X")] (Some (lit "scores"))) as H.
  cbv zeta in H.
  destruct H as (_ & _ & H).
  - vm_compute. reflexivity.
  - vm_compute. reflexivity.
  - vm_compute. reflexivity.
  - match type of H with
    | if ?b then _ else _ =>
        let v := eval vm_compute in b in change b with v in H
    end.
    cbv iota in H. exact (proj1 (proj2 H)).
Defined.

(** ** The draft and the report file over a run *)

Lemma trimmed_join (sep : str) (parts : list str) :
  parts <> [] ->
  Forall (fun s => s <> [] /\ trimmed isspace s) parts ->
  join sep parts <> [] /\ trimmed isspace (join sep parts).
Proof.
  induction parts as [|s rest IH]; [ contradiction | ]. intros _ Hall.
  inversion Hall as [|? ? [Hs [Hfirst Hlast]] Hrest]; subst.
  destruct rest as [|s' rest']; [ now repeat split | ].
  destruct (IH ltac:(discriminate) Hrest) as (HJ & _ & HJlast).
  rewrite join_cons2. split.
  - destruct s; [ contradiction | discriminate ].
  - split.
    + intros c r Heq. destruct s as [|c0 s0]; [ contradiction | ].
      inversion Heq; subst. now apply (Hfirst c s0).
    + intros r c Heq.
      destruct (exists_last HJ) as (r' & c' & HJ').
      rewrite HJ', !app_assoc in Heq. apply app_inj_tail in Heq. destruct Heq as [_ <-].
      now apply (HJlast r' c').
Qed.

Lemma stripped_trimmed s : strip s = s -> trimmed isspace s.
Proof. intros H. rewrite <- H. apply strip_by_trimmed. Qed.

Lemma stripped_items_spec items :
  Forall (fun s => s <> [] /\ trimmed isspace s) (stripped_items items).
Proof.
  unfold stripped_items. apply List.Forall_forall. intros s Hs.
  apply in_map_iff in Hs. destruct Hs as (x & <- & Hx).
  apply filter_In in Hx. destruct Hx as [_ Hx].
  split; [ now apply nonempty_true | apply strip_by_trimmed ].
Qed.

Lemma bullet_trimmed item :
  item <> [] /\ trimmed isspace item ->
  lit "- " ++ item <> [] /\ trimmed isspace (lit "- " ++ item).
Proof.
  intros [Hne [_ Hlast]]. split; [ discriminate | ]. split.
  - intros c r Heq. inversion Heq; subst. reflexivity.
  - intros r c Heq. destruct (exists_last Hne) as (r' & c' & Hitem).
    rewrite Hitem, app_assoc in Heq. apply app_inj_tail in Heq. destruct Heq as [_ <-].
    now apply (Hlast r' c').
Qed.

Lemma coerce_section_stripped value bullets :
  strip (_coerce_section_markdown value bullets) = _coerce_section_markdown value bullets.
Proof.
  destruct value as [|s|raw]; cbn [_coerce_section_markdown]; [ reflexivity | apply strip_idem | ].
  cbv zeta. pose proof (stripped_items_spec raw) as Hitems.
  destruct (stripped_items raw) as [|i0 items] eqn:Hi; [ reflexivity | ].
  apply trimmed_strip_by. destruct bullets.
  - apply trimmed_join; [ discriminate | ].
    apply List.Forall_forall. intros s Hs. apply in_map_iff in Hs.
    destruct Hs as (x & <- & Hx). apply bullet_trimmed.
    exact (proj1 (List.Forall_forall _ _) Hitems x Hx).
  - apply trimmed_join; [ discriminate | exact Hitems ].
Qed.

Lemma strip_leading_stripped id content :
  strip (_strip_leading_section_heading id content)
  = _strip_leading_section_heading id content.
Proof.
  unfold _strip_leading_section_heading. cbv zeta.
  destruct (nonempty (strip content)); [ | reflexivity ].
  destruct (splitlines (strip content)); [ apply strip_idem | ].
  destruct (heading_match _); [ | apply strip_idem ].
  destruct (_resolve_final_report_section_id _); [ | apply strip_idem ].
  destruct (PyStr.eqb _ _); apply strip_idem.
Qed.

Lemma wellformed_put S key text :
  wellformed_sections S ->
  lit key ∈ _required_final_report_section_order -> strip text = text ->
  wellformed_sections (put_if_nonempty S key text).
Proof.
  intros HS Hkey Htext. unfold put_if_nonempty.
  destruct (nonempty text) eqn:Hne; [ | exact HS ].
  apply wellformed_set; [ exact HS | exact Hkey | now apply nonempty_true | exact Htext ].
Qed.

Lemma legacy_fields_wellformed summary strengths weaknesses issues suggestions storylines :
  wellformed_sections
    (_build_sections_from_legacy_fields summary strengths weaknesses issues suggestions
       storylines).
Proof.
  unfold _build_sections_from_legacy_fields. cbv zeta.
  repeat (apply wellformed_put;
          [ | apply mem_str_In; vm_compute; reflexivity
            | first [ apply coerce_section_stripped
                    | destruct summary; [ apply strip_idem | reflexivity ] ] ]).
  apply wellformed_empty.
Qed.

Lemma update_wellformed other : forall S,
  wellformed_sections S -> wellformed_sections other ->
  wellformed_sections (update S other).
Proof.
  unfold update. induction other as [|[k v] other IH]; intros S HS Hother; [ exact HS | ].
  cbn [fold_left fst snd]. destruct Hother as [Hnd Hall].
  inversion Hnd; subst. inversion Hall as [|? ? (Hk & Hv & Hs) Hall']; subst.
  apply IH; [ now apply wellformed_set | now split ].
Qed.

Lemma extract_wellformed markdown_text :
  wellformed_sections (_extract_required_sections_from_markdown markdown_text).
Proof.
  unfold _extract_required_sections_from_markdown, collect_sections.
  fold collect_step.
  apply collect_wellformed; [ | apply wellformed_empty ].
  apply scan_keys; [ constructor | intros k HF; discriminate HF ].
Qed.

(** The sections a call contributes form a map in normal form. *)
Lemma incoming_wellformed a inc req :
  Tools.read_arguments a = Tools.Contributed inc req -> wellformed_sections inc.
Proof.
  unfold Tools.read_arguments. cbv zeta.
  set (legacy := _build_sections_from_legacy_fields _ _ _ _ _ _).
  set (md := _extract_required_sections_from_markdown _).
  set (raw := _coerce_markdown_text (Tools.markdown a)).
  assert (Hlegacy : wellformed_sections legacy) by apply legacy_fields_wellformed.
  assert (Hmd : wellformed_sections md) by apply extract_wellformed.
  assert (Hraw : strip raw = raw).
  { subst raw. destruct (Tools.markdown a); [ apply strip_idem | reflexivity ]. }
  set (inc0 := match md with
               | [] => match legacy with
                       | [] => if nonempty raw then set legacy (lit "summary") raw else legacy
                       | _ :: _ => legacy
                       end
               | _ :: _ => update legacy md
               end).
  assert (Hinc0 : wellformed_sections inc0).
  { subst inc0. destruct md as [|m0 md'] eqn:Emd.
    - destruct legacy as [|l0 legacy'] eqn:El; [ | exact Hlegacy ].
      destruct (nonempty raw) eqn:Hne; [ | exact Hlegacy ].
      apply wellformed_set;
        [ exact Hlegacy | apply mem_str_In; vm_compute; reflexivity
        | now apply nonempty_true | exact Hraw ].
    - now apply update_wellformed. }
  clearbody inc0. clear Hlegacy Hmd Hraw. clearbody legacy md raw.
  destruct (truthy_opt _ && negb _); [ intros HF; discriminate HF | ].
  destruct (_resolve_final_report_section_id _) as [r|] eqn:Hres;
    cbn [truthy_opt]; [ | intros [= <- _]; exact Hinc0 ].
  destruct (nonempty r) eqn:Hr; [ | intros [= <- _]; exact Hinc0 ].
  change (default [] (Some r)) with r.
  destruct (Tools.section_content a) as [|s|items].
  - destruct (mem inc0 r); intros HF; inversion HF; subst; exact Hinc0.
  - match goal with
    | |- context [ nonempty ?c ] => destruct (nonempty c) eqn:Hc
    end; intros HF; inversion HF; subst.
    apply wellformed_set;
      [ exact Hinc0 | now apply (resolve_in_order _ _ Hres) | now apply nonempty_true
      | apply strip_leading_stripped ].
  - match goal with
    | |- context [ nonempty ?c ] => destruct (nonempty c) eqn:Hc
    end; intros HF; inversion HF; subst.
    apply wellformed_set;
      [ exact Hinc0 | now apply (resolve_in_order _ _ Hres) | now apply nonempty_true
      | apply strip_leading_stripped ].
Qed.

Lemma merged_draft_wellformed old inc :
  wellformed_sections inc -> wellformed_sections (merged_draft old inc).
Proof.
  intros Hinc. unfold merged_draft.
  assert (Hn : wellformed_sections (_normalize_final_report_sections old))
    by (apply normalize_wellformed, wellformed_empty).
  destruct inc; [ exact Hn | now apply update_wellformed ].
Qed.

Lemma commits_nothing_keeps w w' : commits_nothing w w' -> keeps_report w w'.
Proof. intros (H1 & H2 & H3 & H4 & H5 & _). now repeat split. Qed.

Lemma failure_keeps E ctx n p w :
  keeps_report w (fst (Tools._return_final_write_failure E ctx n p w))
  /\ final_report_draft_sections (rt (fst (Tools._return_final_write_failure E ctx n p w)))
     = final_report_draft_sections (rt w)
  /\ job_dir (rt (fst (Tools._return_final_write_failure E ctx n p w))) = job_dir (rt w).
Proof. unfold Tools._return_final_write_failure. repeat split. Qed.

(** What [save_or_commit] does to the report, whatever the draft. *)
Lemma save_or_commit_cases E ctx n src d v cur w :
  let w' := fst (Tools.save_or_commit E ctx n src d v cur w) in
  keeps_report w w'
  \/ (Tools.missing_section_ids d = []
      /\ _build_final_report_markdown_from_sections d <> []
      /\ commits (_build_final_report_markdown_from_sections d) w w').
Proof.
  cbv zeta.
  destruct (Tools.missing_section_ids d) as [|next rest] eqn:Hmissing.
  - pose proof (save_or_commit_complete E ctx n src d v cur w Hmissing) as H.
    cbv zeta in H.
    destruct (gates_open E w (_build_final_report_markdown_from_sections d)).
    + right. split; [ reflexivity | ].
      split; [ apply nonempty_true, (complete_draft_assembles d Hmissing) | apply H ].
    + left. apply commits_nothing_keeps, H.
  - left. unfold Tools.save_or_commit. rewrite Hmissing. repeat split.
Qed.

(** What one tool call does to the draft and to the report. *)
Lemma report_step E c w :
  job_dir (rt (fst (run_tool E c w))) = job_dir (rt w)
  /\ ((final_report_draft_sections (rt (fst (run_tool E c w)))
       = final_report_draft_sections (rt w)
       /\ keeps_report w (fst (run_tool E c w)))
      \/ (truthy_opt (final_markdown_text (rt w)) = false
          /\ exists inc,
               wellformed_sections inc
               /\ final_report_draft_sections (rt (fst (run_tool E c w)))
                  = merged_draft (final_report_draft_sections (rt w)) inc
               /\ (keeps_report w (fst (run_tool E c w))
                   \/ (Tools.missing_section_ids
                         (merged_draft (final_report_draft_sections (rt w)) inc) = []
                       /\ _build_final_report_markdown_from_sections
                            (merged_draft (final_report_draft_sections (rt w)) inc) <> []
                       /\ commits
                            (_build_final_report_markdown_from_sections
                               (merged_draft (final_report_draft_sections (rt w)) inc))
                            w (fst (run_tool E c w)))))).
Proof.
  destruct c; cbn [run_tool].
  - unfold Tools.mcp_status_update. split; [ | left; repeat split ]; reflexivity.
  - unfold Tools.pdf_search. destruct (nonempty _);
      (split; [ | left; repeat split ]; reflexivity).
  - unfold Tools.pdf_read_lines. destruct (Tools.page_lines _ _);
      (split; [ | left; repeat split ]; reflexivity).
  - unfold Tools.pdf_jump. destruct (Tools.page_lines _ _);
      (split; [ | left; repeat split ]; reflexivity).
  - destruct (Tools.pdf_annotate ctx_usage uuid page start_line end_line comment summary_
                object_type severity w) as [w' out] eqn:Hrun.
    cbn [fst]. revert Hrun. unfold Tools.pdf_annotate.
    destruct (_ <? _); [ intros [= <- _]; split; [ | left; repeat split ]; reflexivity | ].
    destruct (Tools.page_lines _ _);
      [ | intros [= <- _]; split; [ | left; repeat split ]; reflexivity ].
    cbv zeta.
    destruct (negb _); [ intros [= <- _]; split; [ | left; repeat split ]; reflexivity | ].
    destruct (negb _); intros [= <- _]; (split; [ | left; repeat split ]; reflexivity).
  - unfold Tools.paper_search. split; [ | left; repeat split ]; reflexivity.
  - unfold Tools.read_paper. destruct (List.filter _ _);
      [ split; [ | left; repeat split ]; reflexivity | ].
    destruct adapter_result; (split; [ | left; repeat split ]; reflexivity).
  - unfold Tools.question_prompt. split; [ | left; repeat split ]; reflexivity.
  - destruct (truthy_opt (final_markdown_text (rt w))) eqn:Hopen.
    { unfold Tools.review_final_markdown_write.
      change (final_markdown_text (rt (Tools.record_tool "review_final_markdown_write" w)))
        with (final_markdown_text (rt w)).
      rewrite Hopen. split; [ | left; repeat split ]; reflexivity. }
    destruct (Tools.read_arguments a) as [p | inc req] eqn:Hread.
    { unfold Tools.review_final_markdown_write.
      change (final_markdown_text (rt (Tools.record_tool "review_final_markdown_write" w)))
        with (final_markdown_text (rt w)).
      rewrite Hopen, Hread. split; [ | left; repeat split ]; reflexivity. }
    destruct (merged_draft (final_report_draft_sections (rt w)) inc) as [|kv rest] eqn:Hd.
    { unfold Tools.review_final_markdown_write.
      change (final_markdown_text (rt (Tools.record_tool "review_final_markdown_write" w)))
        with (final_markdown_text (rt w)).
      rewrite Hopen, Hread. cbv zeta.
      change (final_report_draft_sections
                (rt (Tools.record_tool "review_final_markdown_write" w)))
        with (final_report_draft_sections (rt w)).
      replace (if match inc with [] => false | _ :: _ => true end
               then update (_normalize_final_report_sections
                              (final_report_draft_sections (rt w))) inc
               else _normalize_final_report_sections (final_report_draft_sections (rt w)))
        with (merged_draft (final_report_draft_sections (rt w)) inc)
        by (unfold merged_draft; now destruct inc).
      rewrite Hd. split; [ | left; repeat split ]; reflexivity. }
    destruct (final_write_reaches_save E ctx_usage a w inc req Hopen Hread)
      as (n & src & v & cur & ->); [ rewrite Hd; discriminate | ].
    clear Hd kv rest.
    set (d := merged_draft (final_report_draft_sections (rt w)) inc).
    set (w1 := set_rt (rt_with_draft d v)
                 (Tools.record_tool "review_final_markdown_write" w)).
    destruct (save_or_commit_runtime E ctx_usage n src d v cur w1)
      as (_ & _ & _ & _ & Hdir & _).
    cbv zeta in Hdir. split; [ rewrite Hdir; reflexivity | ].
    right. split; [ reflexivity | ]. exists inc.
    split; [ apply (incoming_wellformed a inc req Hread) | ].
    split; [ now rewrite save_or_commit_keeps_draft | ].
    destruct (save_or_commit_cases E ctx_usage n src d v cur w1) as [Hk | (Hm & Hb & Hc)].
    + left. exact Hk.
    + right. split; [ exact Hm | split; [ exact Hb | exact Hc ] ].
Qed.

Lemma normalize_of_wellformed d :
  wellformed_sections d -> _normalize_final_report_sections d = d.
Proof.
  intros [Hnd Hall]. unfold _normalize_final_report_sections.
  now rewrite normalize_fixed.
Qed.

Lemma set_keeps_content (d : odict str) k' v k :
  strip v <> [] -> has_content d k -> has_content (set d k' v) k.
Proof.
  unfold has_content. intros Hv Hk.
  destruct (PyStr.eqb k' k) eqn:Heq.
  - apply eqb_eq in Heq. subst k'. now rewrite get_set_same.
  - rewrite get_set_other; [ exact Hk | ].
    intros ->. rewrite eqb_refl in Heq. discriminate Heq.
Qed.

Lemma update_keeps_content other k : forall d,
  Forall (fun kv => strip (snd kv) <> []) other ->
  has_content d k -> has_content (update d other) k.
Proof.
  unfold update. induction other as [|[k' v] other IH]; intros d Hall Hk; [ exact Hk | ].
  inversion Hall; subst. cbn [fold_left fst snd].
  apply IH; [ assumption | now apply set_keeps_content ].
Qed.

(** Merging new sections into a draft in normal form loses no content. *)
Lemma merged_keeps_content d inc k :
  wellformed_sections d -> wellformed_sections inc ->
  has_content d k -> has_content (merged_draft d inc) k.
Proof.
  intros Hd [_ Hinc] Hk. unfold merged_draft. rewrite (normalize_of_wellformed d Hd).
  destruct inc as [|kv inc']; [ exact Hk | ].
  apply update_keeps_content; [ | exact Hk ].
  revert Hinc. apply List.Forall_impl. intros e (_ & Hne & Hs). now rewrite Hs.
Qed.

Lemma report_invariant_step E dir disk c w :
  job_dir (rt w) = dir ->
  wellformed_sections (final_report_draft_sections (rt w)) ->
  report_state dir disk w ->
  job_dir (rt (fst (run_tool E c w))) = dir
  /\ wellformed_sections (final_report_draft_sections (rt (fst (run_tool E c w))))
  /\ report_state dir disk (fst (run_tool E c w)).
Proof.
  intros Hdir Hwf Hstate.
  destruct (report_step E c w) as [Hdir' Hstep].
  destruct (run_tool E c w) as [w' out]. cbn [fst] in *.
  split; [ now rewrite Hdir' | ].
  destruct Hstep as [[Hdraft (Ht & Hf & Hl & Hr & Ha)]
                    | (Hopen & inc & Hinc & Hdraft & Hcase)].
  - split; [ now rewrite Hdraft | ].
    unfold report_state in *. now rewrite Ht, Hdraft, Hf, Hl, Hr, Ha.
  - split; [ rewrite Hdraft; now apply merged_draft_wellformed | ].
    assert (Hnone : final_markdown_text (rt w) = None
                    /\ disk_files w = disk /\ disk_write_log w = []).
    { unfold report_state in Hstate.
      destruct (final_markdown_text (rt w)) as [t|]; [ | now split ].
      destruct Hstate as (Hne & _). cbn [truthy_opt] in Hopen.
      apply nonempty_false in Hopen. contradiction. }
    destruct Hnone as (Hnone & Hfiles & Hlog).
    destruct Hcase as [(Ht & Hf & Hl & _) | (Hm & Hb & Hc)].
    + unfold report_state. rewrite Ht, Hnone, Hf, Hl. now split.
    + destruct Hc as (Ht & Hf & Hl & Hr & Ha & _).
      unfold Tools.final_report_path in Hf, Hl, Ha. rewrite Hdir in Hf, Hl, Ha.
      unfold report_state. rewrite Ht, Hdraft.
      repeat split; [ exact Hb | exact Hm | now rewrite Hf, Hfiles | now rewrite Hl, Hlog
                    | exact Hr | exact Ha ].
Qed.

Lemma run_report E dir disk calls : forall w,
  job_dir (rt w) = dir ->
  wellformed_sections (final_report_draft_sections (rt w)) ->
  report_state dir disk w ->
  job_dir (rt (run E calls w)) = dir
  /\ wellformed_sections (final_report_draft_sections (rt (run E calls w)))
  /\ report_state dir disk (run E calls w).
Proof.
  unfold run. induction calls as [|c calls IH]; intros w Hdir Hwf Hstate.
  { cbn [fold_left]. split; [ exact Hdir | split; [ exact Hwf | exact Hstate ] ]. }
  cbn [fold_left].
  destruct (report_invariant_step E dir disk c w Hdir Hwf Hstate) as (H1 & H2 & H3).
  now apply IH.
Qed.


(** X20. In a run of tool calls from a fresh runtime context the stored
    draft is always a section map in normal form, and no tool call takes a
    section away from it: a required section that is completed before a
    call is completed after it. *)
Theorem draft_wellformed_and_growing E dir index cfg j disk log calls c :
  let w := run E calls (fresh_world dir index cfg j disk log) in
  let w' := fst (run_tool E c w) in
  wellformed_sections (final_report_draft_sections (rt w))
  /\ forall k,
       k ∈ Tools.completed_section_ids (final_report_draft_sections (rt w)) ->
       k ∈ Tools.completed_section_ids (final_report_draft_sections (rt w')).
Proof.
  cbv zeta.
  destruct (run_report E dir disk calls (fresh_world dir index cfg j disk log))
    as (_ & Hwf & _); [ reflexivity | apply wellformed_empty | split; reflexivity | ].
  split; [ exact Hwf | ].
  intros k Hk. apply in_completed in Hk. destruct Hk as [Horder Hk].
  apply in_completed. split; [ exact Horder | ].
  destruct (report_step E c (run E calls (fresh_world dir index cfg j disk log)))
    as [_ [[Hdraft _] | (_ & inc & Hinc & Hdraft & _)]].
  - now rewrite Hdraft.
  - rewrite Hdraft. now apply merged_keeps_content.
Qed.

(** ** [run_job]: what the recovery leaves behind *)

(** X21. When the pipeline raises and the job has no final
    markdown file, nothing is recovered and no export is attempted: the job
    ends [failed] with the exception as its error, its readiness flags,
    artifacts and files as they were, and the log grows by exactly
    [pipeline_exception] and [failed]. *)
Theorem recovery_without_report_fails E root builder n m detail stack (d : JobDir)
    (state : JobState) :
  job_json d = Some state ->
  Runner.file_exists d (Runner.final_md_path_of root state) = false ->
  let res := Runner.run_job_after_exception E root builder n m detail stack d in
  Runner.recovered (snd res) = false
  /\ Runner.export_attempted (snd res) = false
  /\ exists dir j,
       fst res = Some dir
       /\ job_json dir = Some j
       /\ status j = failed
       /\ error j = Some detail
       /\ job_message j = lit "Review pipeline failed."
       /\ final_report_ready j = final_report_ready state
       /\ pdf_ready j = pdf_ready state
       /\ artifacts j = artifacts state
       /\ files dir = files d
       /\ map event (events_jsonl dir)
          = map event (events_jsonl d) ++ [lit "pipeline_exception"; lit "failed"].
Proof.
  intros Hjob Hmd. cbv zeta.
  unfold Runner.run_job_after_exception. cbv zeta.
  set (d1 := Runner.dir_append_event "pipeline_exception" _ d).
  unfold Runner._complete_with_existing_final_report.
  change (job_json d1) with (job_json d). rewrite Hjob.
  change (Runner.file_exists d1 (Runner.final_md_path_of root state))
    with (Runner.file_exists d (Runner.final_md_path_of root state)).
  rewrite Hmd. cbn [negb]. cbv iota.
  cbn [fst snd Runner.after Runner.recovered Runner.export_attempted].
  unfold Runner.fail_job. change (job_json d1) with (job_json d). rewrite Hjob.
  split; [ reflexivity | ]. split; [ reflexivity | ].
  eexists _, _. split; [ reflexivity | ].
  cbn [job_json Runner.dir_append_event Runner.dir_set_job status error job_message
       final_report_ready pdf_ready artifacts files events_jsonl].
  repeat (split; [ reflexivity | ]).
  unfold d1. cbn [events_jsonl Runner.dir_append_event].
  rewrite !map_app, <- app_assoc. reflexivity.
Qed.

(** X21, instance: the sample job before any report file is
    written ends [failed]. *)
Lemma draft_job_fails :
  exists dir j,
    fst (Runner.run_job_after_exception sample_externals (lit "/data/jobs/j1")
           (inl (lit "%PDF-1.4")) 0 0 (lit "boom") (lit "trace") draft_dir) = Some dir
    /\ job_json dir = Some j
    /\ status j = failed.
Proof.
  destruct (recovery_without_report_fails sample_externals (lit "/data/jobs/j1")
              (inl (lit "%PDF-1.4")) 0 0 (lit "boom") (lit "trace") draft_dir sample_job)
    as (_ & _ & dir & j & Hfinal & Hjob & Hstatus & _).
  - reflexivity.
  - vm_compute. reflexivity.
  - exists dir, j. split; [ exact Hfinal | ]. split; [ exact Hjob | exact Hstatus ].
Defined.

(** X22. When the pipeline raises after the report was persisted and
    no report PDF is in place, the job ends [completed] whatever the export
    does. If the export succeeds, its bytes are the only file written and the
    job records the PDF as ready with no error; if it raises, no file is
    written, the job records the exception as its error and the PDF as not
    ready, with no PDF path. *)
Theorem recovery_export_outcome E root builder n m detail stack (d : JobDir)
    (state : JobState) :
  job_json d = Some state ->
  Runner.file_exists d (Runner.final_md_path_of root state) = true ->
  Runner.has_persist_marker E state = true ->
  Runner.file_exists d (Runner.report_pdf_path_of root state) = false ->
  exists dir j,
    fst (Runner.run_job_after_exception E root builder n m detail stack d) = Some dir
    /\ job_json dir = Some j
    /\ status j = completed
    /\ final_report_ready j = true
    /\ final_markdown_path (artifacts j) = Some (Runner.final_md_path_of root state)
    /\ match builder with
       | inl bytes =>
           files dir = <[Runner.report_pdf_path_of root state := bytes]> (files d)
           /\ pdf_ready j = true
           /\ error j = None
           /\ report_pdf_path (artifacts j) = Some (Runner.report_pdf_path_of root state)
       | inr exn_text =>
           files dir = files d
           /\ pdf_ready j = false
           /\ error j = Some exn_text
           /\ report_pdf_path (artifacts j) = None
       end.
Proof.
  intros Hjob Hmd Hmark Hpdf.
  unfold Runner.run_job_after_exception. cbv zeta.
  set (d1 := Runner.dir_append_event "pipeline_exception" _ d).
  unfold Runner._complete_with_existing_final_report.
  change (job_json d1) with (job_json d). rewrite Hjob.
  change (Runner.file_exists d1 (Runner.final_md_path_of root state))
    with (Runner.file_exists d (Runner.final_md_path_of root state)).
  rewrite Hmd, Hmark. cbn [negb]. cbv iota zeta.
  change (Runner.file_exists d1 (Runner.report_pdf_path_of root state))
    with (Runner.file_exists d (Runner.report_pdf_path_of root state)).
  rewrite Hpdf. cbn [negb]. cbv iota.
  destruct builder as [bytes | exn_text]; cbn [Runner._render_report_pdf].
  - assert (Hnow : Runner.file_exists
                     (Runner.dir_append_event "pdf_export_rendered"
                        [("source_annotations_input_count", JInt n);
                         ("content_list_count", JInt m);
                         ("report_pdf_size_bytes", JInt (Z.of_nat (length bytes)))]%string
                        (Runner.dir_write (Runner.report_pdf_path_of root state) bytes d1))
                     (Runner.report_pdf_path_of root state) = true).
    { unfold Runner.file_exists. cbn [files Runner.dir_append_event Runner.dir_write].
      now rewrite lookup_insert_eq. }
    rewrite Hnow.
    cbn [fst snd Runner.after Runner.recovered].
    eexists _, _. split; [ reflexivity | ]. split; [ reflexivity | ].
    repeat split.
  - change (Runner.file_exists d1 (Runner.report_pdf_path_of root state))
      with (Runner.file_exists d (Runner.report_pdf_path_of root state)).
    rewrite Hpdf.
    cbn [fst snd Runner.after Runner.recovered].
    eexists _, _. split; [ reflexivity | ]. split; [ reflexivity | ].
    repeat split.
Qed.

(** X22, instance: on the directory of the committed sample job an
    export that raises leaves the job completed with the exception as its
    error. *)
Lemma failed_export_still_completes :
  exists dir j,
    fst (Runner.run_job_after_exception sample_externals (lit "/data/jobs/j1")
           (inr (lit "RuntimeError: no fonts")) 0 0 (lit "boom") (lit "trace") committed_dir)
    = Some dir
    /\ job_json dir = Some j
    /\ status j = completed
    /\ pdf_ready j = false
    /\ error j = Some (lit "RuntimeError: no fonts").
Proof.
  destruct (recovery_export_outcome sample_externals (lit "/data/jobs/j1")
              (inr (lit "RuntimeError: no fonts")) 0 0 (lit "boom") (lit "trace")
              committed_dir (job committed_world))
    as (dir & j & Hfinal & Hjob & Hstatus & _ & _ & _ & Hready & Herr & _).
  - vm_compute; reflexivity.
  - vm_compute; reflexivity.
  - vm_compute; reflexivity.
  - vm_compute; reflexivity.
  - exists dir, j. repeat (split; [ assumption | ]). exact Herr.
Defined.
